(** * Tool dispatch, validation and path guard of the extension server

    A shallow embedding of the JavaScript sources

    - [server/index.js]                      (the dispatcher, [ExtensionServer]),
    - [server/tools/index.js]                (the tool registry),
    - [server/tools/file-processor-tool.js]  (the file tool),
    - [server/tools/example-tool.js]         (the example tool),
    - [server/tools/system-info-tool.js]     (the system information tool),

    together with the properties of these functions that the specification
    states.  JavaScript strings are modelled by [string] (code units below
    256), numbers by rationals ([Q]; every finite double is one), objects by
    association lists in key order, [async] functions by the completion they
    settle to: a returned value or a thrown error. *)

From Stdlib Require Import Strings.String Strings.Ascii Lists.List.
From Stdlib Require Import ZArith QArith Qabs Qround Bool Arith Lia.
From Stdlib Require Import Numbers.DecimalString.
Import ListNotations.

Close Scope Q_scope.
Local Open Scope list_scope.
Local Open Scope string_scope.

(** ** JavaScript string primitives *)

Module JsString.

(** [s.startsWith(p)] *)
Definition startsWith (s p : string) : bool := String.prefix p s.

(** [s.includes(sub)] *)
Fixpoint includes (s sub : string) : bool :=
  String.prefix sub s ||
  match s with
  | EmptyString => false
  | String _ s' => includes s' sub
  end.

(** [s.split(c)] for a one-character separator: never the empty list. *)
Fixpoint split (c : ascii) (s : string) : list string :=
  match s with
  | EmptyString => [EmptyString]
  | String a s' =>
      if Ascii.eqb a c then EmptyString :: split c s'
      else match split c s' with
           | [] => [String a EmptyString]
           | h :: t => String a h :: t
           end
  end.

(** The white space and line terminators [trim] strips, among the code
    units below 256: TAB, LF, VT, FF, CR, SP and NBSP. *)
Definition isWhiteSpace (a : ascii) : bool :=
  let n := nat_of_ascii a in
  ((9 <=? n)%nat && (n <=? 13)%nat) || (n =? 32)%nat || (n =? 160)%nat.

Fixpoint trimStart (s : string) : string :=
  match s with
  | EmptyString => EmptyString
  | String a s' => if isWhiteSpace a then trimStart s' else s
  end.

Fixpoint trimEnd (s : string) : string :=
  match s with
  | EmptyString => EmptyString
  | String a s' =>
      match trimEnd s' with
      | EmptyString => if isWhiteSpace a then EmptyString else String a EmptyString
      | t => String a t
      end
  end.

(** [s.trim()] *)
Definition trim (s : string) : string := trimEnd (trimStart s).

(** A string is falsy exactly when it is empty. *)
Definition truthy (s : string) : bool := negb (String.eqb s "").

(** [a.join(sep)] on an array of strings *)
Definition join (sep : string) (l : list string) : string := String.concat sep l.

Definition contains_char (c : ascii) (s : string) : bool :=
  existsb (Ascii.eqb c) (list_ascii_of_string s).

End JsString.

(** ** Node's [path] module, POSIX flavour

    [path] is library code.  It is modelled segment by segment after its
    documented behaviour: a path is cut at ["/"], empty and ["."] segments
    are dropped, a [".."] segment removes the segment before it. *)

Module Path.

Definition sep : ascii := "/"%char.

Definition isAbsolute (p : string) : bool :=
  match p with
  | String a _ => Ascii.eqb a sep
  | EmptyString => false
  end.

(** One segment against the stack of segments kept so far (innermost
    first).  [allowAboveRoot] keeps the [".."] that cannot be resolved. *)
Definition step (allowAboveRoot : bool) (acc : list string) (seg : string)
  : list string :=
  if String.eqb seg "" || String.eqb seg "." then acc
  else if String.eqb seg ".." then
    match acc with
    | top :: rest =>
        if String.eqb top ".." then (if allowAboveRoot then ".." :: acc else acc)
        else rest
    | [] => if allowAboveRoot then [".."] else []
    end
  else seg :: acc.

Definition normalizeSegments (allowAboveRoot : bool) (segs : list string)
  : list string :=
  rev (fold_left (step allowAboveRoot) segs []).

Definition normalizeString (p : string) (allowAboveRoot : bool) : string :=
  JsString.join "/" (normalizeSegments allowAboveRoot (JsString.split sep p)).

(** [path.resolve(p)] in a process whose working directory is [cwd]:
    the arguments are taken from the right, empty ones skipped, until an
    absolute one is met; the working directory is the last resort. *)
Definition resolve (cwd p : string) : string :=
  let s0 := if String.eqb p "" then ("", false) else (p ++ "/", isAbsolute p) in
  let s1 := if snd s0 then s0
            else if String.eqb cwd "" then s0
            else (cwd ++ "/" ++ fst s0, isAbsolute cwd) in
  let resolvedPath := normalizeString (fst s1) (negb (snd s1)) in
  if snd s1 then "/" ++ resolvedPath
  else if String.eqb resolvedPath "" then "." else resolvedPath.

(** [path.normalize(p)] *)
Definition normalize (p : string) : string :=
  if String.eqb p "" then "."
  else
    let isAbs := isAbsolute p in
    let trailingSeparator := String.eqb (substring (String.length p - 1) 1 p) "/" in
    let n := normalizeString p (negb isAbs) in
    if String.eqb n "" then
      (if isAbs then "/" else if trailingSeparator then "./" else ".")
    else
      let n' := if trailingSeparator then n ++ "/" else n in
      if isAbs then "/" ++ n' else n'.

(** [path.join(a, b)] *)
Definition join (a b : string) : string :=
  let joined :=
    if String.eqb a "" then b
    else if String.eqb b "" then a
    else a ++ "/" ++ b in
  if String.eqb joined "" then "." else normalize joined.

Fixpoint dropCommon (from to : list string) : list string * list string :=
  match from, to with
  | f :: from', t :: to' =>
      if String.eqb f t then dropCommon from' to' else (from, to)
  | _, _ => (from, to)
  end.

Definition segmentsOf (resolved : string) : list string :=
  filter (fun s => negb (String.eqb s "")) (JsString.split sep resolved).

(** [path.relative(from, to)] *)
Definition relative (cwd from to : string) : string :=
  if String.eqb from to then ""
  else
    let from' := resolve cwd from in
    let to' := resolve cwd to in
    if String.eqb from' to' then ""
    else
      let '(up, down) := dropCommon (segmentsOf from') (segmentsOf to') in
      JsString.join "/" (map (fun _ => "..") up ++ down).

(** [path.basename(p)] of a resolved path: its last segment. *)
Definition basename (p : string) : string :=
  last (JsString.split sep p) "".

End Path.

(** ** The path guard

    [isPathAllowed] is defined word for word the same in
    [file-processor-tool.js] and in [example-tool.js].  It reads the
    process environment ([ALLOWED_PATHS]) and the working directory, which
    are arguments here. *)

Definition allowedPaths (ALLOWED_PATHS : option string) : list string :=
  match ALLOWED_PATHS with
  | Some v => if JsString.truthy v then JsString.split ","%char v else []
  | None => []
  end.

Definition isPathAllowed (ALLOWED_PATHS : option string) (cwd : string)
  (targetPath : string) : bool :=
  let allowedPaths := allowedPaths ALLOWED_PATHS in
  let resolvedPath := Path.resolve cwd targetPath in
  existsb (fun allowedPath =>
             let resolvedAllowedPath := Path.resolve cwd (JsString.trim allowedPath) in
             JsString.startsWith resolvedPath resolvedAllowedPath)
          allowedPaths.


(** ** JavaScript values, errors and completions *)

#[warnings="-register-all"]
Inductive json : Type :=
| JUndefined
| JNull
| JBool (b : bool)
| JNum (q : Q)
| JStr (s : string)
| JArr (items : list json)
| JObj (fields : list (string * json)).

Definition object := list (string * json).

Definition num (z : Z) : json := JNum (inject_Z z).
Definition natnum (n : nat) : json := num (Z.of_nat n).

Module Obj.

(** Property read [o.k]: [undefined] when the key is absent. *)
Fixpoint get (k : string) (o : object) : json :=
  match o with
  | [] => JUndefined
  | (k', v) :: o' => if String.eqb k k' then v else get k o'
  end.

Fixpoint has (k : string) (o : object) : bool :=
  match o with
  | [] => false
  | (k', _) :: o' => String.eqb k k' || has k o'
  end.

(** Property write [o.k = v]: in place when the key exists, else appended. *)
Fixpoint set (k : string) (v : json) (o : object) : object :=
  match o with
  | [] => [(k, v)]
  | (k', v') :: o' =>
      if String.eqb k k' then (k, v) :: o' else (k', v') :: set k v o'
  end.

(** Object spread [{...o, ...extra}] *)
Definition spread (o extra : object) : object :=
  fold_left (fun acc kv => set (fst kv) (snd kv) acc) extra o.

End Obj.

(** Property read on any value; reading from a non-object gives [undefined]. *)
Definition field (k : string) (v : json) : json :=
  match v with
  | JObj o => Obj.get k o
  | _ => JUndefined
  end.

(** JavaScript truthiness, as used by [!x], [x || y] and [x && y]. *)
Definition truthy (v : json) : bool :=
  match v with
  | JUndefined | JNull => false
  | JBool b => b
  | JNum q => negb (Qeq_bool q 0)
  | JStr s => JsString.truthy s
  | JArr _ | JObj _ => true
  end.

(** One issue of a [ZodError]. *)
Record ZodIssue : Type := mkIssue {
  issue_code : string;
  issue_path : list string;
  issue_message : string;
  issue_details : object
}.

(** A thrown [Error] object: its constructor's name, its [message], its
    [code] property ([undefined] unless the runtime set one) and, for a
    [ZodError], its issues. *)
Record JsError : Type := mkError {
  err_name : string;
  err_message : string;
  err_code : json;
  err_issues : list ZodIssue
}.

(** [new Error(message)] *)
Definition Error_ (message : string) : JsError :=
  mkError "Error" message JUndefined [].

(** What an [async] function settles to. *)
Inductive completion (A : Type) : Type :=
| Return (a : A)
| Throw (e : JsError).
Arguments Return {A} a.
Arguments Throw {A} e.

Definition bind {A B} (c : completion A) (k : A -> completion B) : completion B :=
  match c with
  | Return a => k a
  | Throw e => Throw e
  end.

Notation "x <- c ;; k" := (bind c (fun x => k))
  (at level 61, c at next level, right associativity).

(** [try { body } catch (error) { handler }] *)
Definition try_catch {A} (body : completion A) (handler : JsError -> completion A)
  : completion A :=
  match body with
  | Return a => Return a
  | Throw e => handler e
  end.

(** ** The runtime the tools run in

    Everything the sources take from Node, the operating system and the
    libraries, and do not define themselves. *)

Record Stats : Type := mkStats {
  st_isFile : bool;
  st_isDirectory : bool;
  st_isSymbolicLink : bool;
  st_size : Z;
  st_mode : Z;
  st_mtime : string;      (* [stats.mtime.toISOString()] *)
  st_birthtime : string;
  st_atime : string;
  st_blocks : Z;
  st_blksize : Z
}.

Record Dirent : Type := mkDirent {
  d_name : string;
  d_isDirectory : bool;
  d_isFile : bool
}.

Record ParsedPath : Type := mkParsedPath {
  pp_dir : string;
  pp_name : string;
  pp_ext : string
}.

Record Cpu : Type := mkCpu {
  cpu_model : string;
  cpu_speed : Z;
  cpu_times : json
}.

Record NetworkAddress : Type := mkNetworkAddress {
  na_address : string;
  na_netmask : string;
  na_family : json;
  na_mac : string;
  na_internal : bool;
  na_cidr : json
}.

(** [process.memoryUsage()] and [process.cpuUsage()] *)
Record MemoryUsage : Type := mkMemoryUsage {
  mu_rss : Z;
  mu_heapTotal : Z;
  mu_heapUsed : Z;
  mu_external : Z;
  mu_arrayBuffers : Z
}.

Record CpuUsage : Type := mkCpuUsage {
  cu_user : Z;
  cu_system : Z
}.

(** What [os], [process] and [Intl] report.  The calls that look
    something up outside the process (the home directory in the user
    database, the table of network interfaces, the resource usage, the
    locale data) answer or throw; the others hand out what the process
    already holds. *)
Record OsInfo : Type := mkOsInfo {
  os_hostname : string;
  os_platform : string;
  os_arch : string;
  os_type : string;
  os_release : string;
  os_uptime : Q;
  os_loadavg : Q * Q * Q;
  os_endianness : string;
  os_homedir : completion string;            (* [os.homedir()] *)
  os_tmpdir : string;
  os_totalmem : Z;
  os_freemem : Z;
  os_cpus : list Cpu;
  os_constants_PAGE_SIZE : json;
  os_constants_PATH_MAX : json;
  os_networkInterfaces : completion (list (string * list NetworkAddress));
  process_version : string;
  process_versions : json;
  process_features : json;
  process_platform : string;
  process_arch : string;
  process_uptime : Q;
  process_pid : Z;
  process_ppid : Z;
  process_argv : list string;
  process_execPath : string;
  process_execArgv : list string;
  process_title : string;
  process_getgid : option Z;               (* absent on some platforms *)
  process_getuid : option Z;
  process_getgroups : option (list Z);
  process_memoryUsage : completion MemoryUsage;
  process_cpuUsage : completion CpuUsage;
  intl_timeZone : completion string;   (* [Intl.DateTimeFormat().resolvedOptions().timeZone] *)
  intl_locale : completion string;
  date_toLocaleString : string
}.

Record Runtime : Type := mkRuntime {
  process_env : list (string * string);      (* [process.env] *)
  process_cwd : string;
  fs_stat : string -> completion Stats;
  fs_readdir : string -> completion (list Dirent);   (* [withFileTypes: true] *)
  fs_readFile : string -> completion string;
  date_now_iso : string;                     (* [new Date().toISOString()] *)
  elapsed_ms : Q;                            (* [Date.now() - startTime] *)
  RegExp_i : string -> completion (string -> bool);  (* [new RegExp(p, 'i')], then [.test] *)
  buffer_base64 : string -> string;          (* [buffer.toString('base64')] *)
  string_toUpperCase : string -> string;
  string_toLowerCase : string -> string;
  path_extname : string -> string;
  path_parse : string -> ParsedPath;
  JSON_stringify : json -> string;           (* [JSON.stringify(v, null, 2)] *)
  os : OsInfo
}.

(** [process.env.NAME]: [None] stands for [undefined]. *)
Fixpoint lookupEnv (name : string) (env : list (string * string)) : option string :=
  match env with
  | [] => None
  | (k, v) :: env' => if String.eqb name k then Some v else lookupEnv name env'
  end.

Definition getenv (rt : Runtime) (name : string) : option string :=
  lookupEnv name (process_env rt).

(** ** Number formatting *)

Module JsNumber.

(** Decimal digits of a non-negative integer. *)
Definition digits (z : Z) : string := NilZero.string_of_uint (N.to_uint (Z.to_N z)).

Fixpoint padStart (width : nat) (fill : ascii) (s : string) : string :=
  match width with
  | O => s
  | S w => if (String.length s <? width)%nat then padStart w fill (String fill s) else s
  end.

(** [x.toFixed(d)]: the decimal with [d] fraction digits nearest to [x],
    the larger one on a tie; the sign is kept apart.  (Exact below 1e21,
    where JavaScript switches to exponent notation.) *)
Definition toFixed (d : nat) (x : Q) : string :=
  let negative := negb (Qle_bool 0 x) in
  let a := Qabs x in
  let scale := (10 ^ Z.of_nat d)%Z in
  let n := Qfloor (a * inject_Z scale + (1 # 2))%Q in
  let whole := digits (n / scale)%Z in
  let fraction := padStart d "0"%char (digits (n mod scale)%Z) in
  (if negative then "-" else "") ++ whole ++
  (match d with O => "" | _ => "." ++ fraction end).

(** The integer nearest to [q], the even one on a tie. *)
Definition roundHalfEven (q : Q) : Z :=
  let f := Qfloor q in
  match (q - inject_Z f ?= 1 # 2)%Q with
  | Lt => f
  | Gt => (f + 1)%Z
  | Eq => if Z.even f then f else (f + 1)%Z
  end.

(** The double nearest to the real [x]: what an arithmetic operation of
    JavaScript keeps of its exact result (53 significant bits, ties to
    even; the exponent range of the normal doubles is not modelled). *)
Definition double (x : Q) : Q :=
  if Qeq_bool x 0 then 0%Q
  else
    let a := Qabs x in
    let e0 := (Z.log2 (Qnum a) - Z.log2 (Z.pos (Qden a)))%Z in
    let e := if Qle_bool (2 ^ e0)%Q a then e0 else (e0 - 1)%Z in
    let ulp := (2 ^ (e - 52))%Q in
    let m := inject_Z (roundHalfEven (a / ulp)%Q) in
    Qred (if Qle_bool 0 x then m * ulp else - (m * ulp))%Q.

Definition hexDigit (n : nat) : ascii :=
  nth n (list_ascii_of_string "0123456789abcdef") "0"%char.

(** [b.toString(16).padStart(2, '0')] for a byte *)
Definition hexByte (b : ascii) : string :=
  let n := nat_of_ascii b in
  String (hexDigit (n / 16)) (String (hexDigit (n mod 16)) EmptyString).

Fixpoint octalDigits (fuel : nat) (z : Z) (acc : string) : string :=
  match fuel with
  | O => acc
  | S f =>
      let acc' := String (hexDigit (Z.to_nat (z mod 8))) acc in
      if (z / 8 =? 0)%Z then acc' else octalDigits f (z / 8)%Z acc'
  end.

(** [n.toString(8)] for a non-negative integer *)
Definition toOctal (z : Z) : string := octalDigits (S (Z.to_nat (Z.log2 z))) z "".

End JsNumber.

(** The [while] loop shared by [formatSize], [formatFileSize] and
    [formatBytes]: it runs at most [units.length - 1] times, which is the
    fuel given. *)
Fixpoint scaleLoop (maxIndex : nat) (fuel : nat) (size : Q) (unitIndex : nat)
  : Q * nat :=
  match fuel with
  | O => (size, unitIndex)
  | S f =>
      if Qle_bool 1024 size && (unitIndex <? maxIndex)%nat
      then scaleLoop maxIndex f (size / 1024)%Q (S unitIndex)
      else (size, unitIndex)
  end.

Definition formatWith (units : list string) (bytes : Q) : string :=
  let maxIndex := (List.length units - 1)%nat in
  let '(size, unitIndex) := scaleLoop maxIndex maxIndex bytes 0 in
  JsNumber.toFixed 2 size ++ " " ++ nth unitIndex units "undefined".

(** [formatSize] of [file-processor-tool.js] *)
Definition formatSize (bytes : Q) : string :=
  formatWith ["B"; "KB"; "MB"; "GB"] bytes.

(** [formatFileSize] of [example-tool.js] and [formatBytes] of
    [system-info-tool.js] *)
Definition formatFileSize (bytes : Q) : string :=
  formatWith ["B"; "KB"; "MB"; "GB"; "TB"] bytes.
Definition formatBytes := formatFileSize.

(** ** The schema validation the tools use (zod)

    Library code, modelled after its documented behaviour: a field parser
    gives the parsed value or the issues found; an object schema runs its
    fields in order, gathers every issue and throws one [ZodError]. *)

Module Zod.

Inductive parsed (A : Type) : Type :=
| Valid (a : A)
| Invalid (issues : list ZodIssue).
Arguments Valid {A} a.
Arguments Invalid {A} issues.

Definition parsedType (v : json) : string :=
  match v with
  | JUndefined => "undefined"
  | JNull => "null"
  | JBool _ => "boolean"
  | JNum _ => "number"
  | JStr _ => "string"
  | JArr _ => "array"
  | JObj _ => "object"
  end.

Definition invalidType (expected : string) (v : json) (path : list string)
  : ZodIssue :=
  mkIssue "invalid_type" path
    (match v with
     | JUndefined => "Required"
     | _ => "Expected " ++ expected ++ ", received " ++ parsedType v
     end)
    [("expected", JStr expected); ("received", JStr (parsedType v))].

Definition parser (A : Type) : Type := list string -> json -> parsed A.

Definition string_ : parser string := fun path v =>
  match v with
  | JStr s => Valid s
  | _ => Invalid [invalidType "string" v path]
  end.

Definition boolean_ : parser bool := fun path v =>
  match v with
  | JBool b => Valid b
  | _ => Invalid [invalidType "boolean" v path]
  end.

Definition number_ : parser Q := fun path v =>
  match v with
  | JNum q => Valid q
  | _ => Invalid [invalidType "number" v path]
  end.

Definition joinValues (options : list string) : string :=
  JsString.join " | " (map (fun o => "'" ++ o ++ "'") options).

Definition enum_ (options : list string) : parser string := fun path v =>
  match v with
  | JStr s =>
      if existsb (String.eqb s) options then Valid s
      else Invalid [mkIssue "invalid_enum_value" path
                      ("Invalid enum value. Expected " ++ joinValues options ++
                       ", received '" ++ s ++ "'")
                      [("received", JStr s); ("options", JArr (map JStr options))]]
  | _ => Invalid [invalidType (joinValues options) v path]
  end.

(** [.optional()] *)
Definition optional {A} (p : parser A) : parser (option A) := fun path v =>
  match v with
  | JUndefined => Valid None
  | _ => match p path v with
         | Valid a => Valid (Some a)
         | Invalid i => Invalid i
         end
  end.

(** [.default(d)] *)
Definition default {A} (p : parser A) (d : A) : parser A := fun path v =>
  match v with
  | JUndefined => Valid d
  | _ => p path v
  end.

(** Two fields of one object: the issues of both are kept, in order. *)
Definition both {A B} (x : parsed A) (y : parsed B) : parsed (A * B) :=
  match x, y with
  | Valid a, Valid b => Valid (a, b)
  | Valid _, Invalid j => Invalid j
  | Invalid i, Valid _ => Invalid i
  | Invalid i, Invalid j => Invalid (i ++ j)%list
  end.

(** The field [k] of the object under validation. *)
Definition prop {A} (p : parser A) (k : string) (o : object) : parsed A :=
  p [k] (Obj.get k o).

(** The names zod has for the types of values ([ZodParsedType]) *)
Definition parsedTypeNames : list string :=
  ["string"; "nan"; "number"; "integer"; "float"; "boolean"; "date"; "bigint";
   "symbol"; "function"; "undefined"; "null"; "array"; "object"; "unknown";
   "promise"; "void"; "never"; "map"; "set"].

(** The keys of an issue, in the order zod writes them.  The schemas of
    strings, numbers, booleans and objects write [code] first; an enum
    writes [expected], [received], [code] when it rejects the type of a
    value, and [received], [code], [options] when it rejects the value.
    An enum's [expected] is the list of its quoted values, never the name
    of a type. *)
Definition issueKeys (i : ZodIssue) : object :=
  let code := ("code", JStr (issue_code i)) in
  if String.eqb (issue_code i) "invalid_enum_value" then
    match issue_details i with
    | received :: rest => received :: code :: rest
    | [] => [code]
    end
  else
    match Obj.get "expected" (issue_details i) with
    | JStr expected =>
        if existsb (String.eqb expected) parsedTypeNames
        then code :: issue_details i
        else (issue_details i ++ [code])%list
    | _ => code :: issue_details i
    end.

Definition issueJson (i : ZodIssue) : json :=
  JObj (issueKeys i ++
        [("path", JArr (map JStr (issue_path i)));
         ("message", JStr (issue_message i))])%list.

(** [new ZodError(issues)]; its message is the issues as JSON. *)
Definition ZodError (stringify : json -> string) (issues : list ZodIssue)
  : JsError :=
  mkError "ZodError" (stringify (JArr (map issueJson issues))) JUndefined issues.

(** [schema.parse(args)] *)
Definition parse {A} (stringify : json -> string) (r : parsed A)
  : completion A :=
  match r with
  | Valid a => Return a
  | Invalid issues => Throw (ZodError stringify issues)
  end.

Definition notAnObject {A} (v : json) : parsed A :=
  Invalid [invalidType "object" v []].

End Zod.

(** The depth reached by a traversal never passes 11, so twelve nested calls
    are the most either traversal makes. *)
Definition traversalFuel : nat := 12.

Definition maxDepthError : JsError := Error_ "Maximum directory depth exceeded".

Definition accessDenied (p : string) : JsError :=
  Error_ ("Access denied: " ++ p ++ " is not in an allowed directory").

Definition isENOENT (error : JsError) : bool :=
  match err_code error with
  | JStr c => String.eqb c "ENOENT"
  | _ => false
  end.

(** ** [server/tools/file-processor-tool.js] *)

Module FileProcessor.

Record Args : Type := mkArgs {
  operation : string;
  path : string;
  pattern : option string;
  recursive : bool;
  max_size : Q;
  encoding : string
}.

Definition inputSchema (args : json) : Zod.parsed Args :=
  match args with
  | JObj o =>
      match
        Zod.both (Zod.prop (Zod.enum_ ["read"; "list"; "search"; "stats"]) "operation" o)
       (Zod.both (Zod.prop Zod.string_ "path" o)
       (Zod.both (Zod.prop (Zod.optional Zod.string_) "pattern" o)
       (Zod.both (Zod.prop (Zod.default Zod.boolean_ false) "recursive" o)
       (Zod.both (Zod.prop (Zod.default Zod.number_ (inject_Z (1024 * 1024))) "max_size" o)
                 (Zod.prop (Zod.default (Zod.enum_ ["utf8"; "binary"; "base64"]) "utf8")
                           "encoding" o)))))
      with
      | Zod.Valid (op, (p, (pat, (r, (m, e))))) => Zod.Valid (mkArgs op p pat r m e)
      | Zod.Invalid issues => Zod.Invalid issues
      end
  | _ => Zod.notAnObject args
  end.

Section WithRuntime.

Variable rt : Runtime.

Definition isPathAllowed (targetPath : string) : bool :=
  isPathAllowed (getenv rt "ALLOWED_PATHS") (process_cwd rt) targetPath.

Definition readFile (filePath : string) (maxSize : Q) (encoding : string)
  : completion object :=
  if negb (isPathAllowed filePath) then Throw (accessDenied filePath)
  else
    stats <- fs_stat rt filePath ;;
    if negb (st_isFile stats) then Throw (Error_ (filePath ++ " is not a file"))
    else if negb (Qle_bool (inject_Z (st_size stats)) maxSize) then
      Throw (Error_ ("File size (" ++ formatSize (inject_Z (st_size stats)) ++
                     ") exceeds maximum allowed size (" ++ formatSize maxSize ++ ")"))
    else
      content <-
        (if String.eqb encoding "binary" then
           buffer <- fs_readFile rt filePath ;;
           Return (JsString.join " "
                     (map JsNumber.hexByte (list_ascii_of_string buffer)))
         else if String.eqb encoding "base64" then
           buffer <- fs_readFile rt filePath ;;
           Return (buffer_base64 rt buffer)
         else fs_readFile rt filePath) ;;
      Return
        [("operation", JStr "read");
         ("path", JStr filePath);
         ("size", num (st_size stats));
         ("size_formatted", JStr (formatSize (inject_Z (st_size stats))));
         ("encoding", JStr encoding);
         ("content", JStr content);
         ("lines", if String.eqb encoding "utf8"
                   then natnum (List.length (JsString.split "010"%char content))
                   else JNull);
         ("modified", JStr (st_mtime stats))].

Definition dirInfo (entry : Dirent) (relativePath : string) (depth : nat)
  : json :=
  JObj [("name", JStr (d_name entry));
        ("path", JStr relativePath);
        ("type", JStr "directory");
        ("depth", natnum depth)].

Definition fileInfo (entry : Dirent) (relativePath fullPath : string)
  (depth : nat) : json :=
  match fs_stat rt fullPath with
  | Return stats =>
      JObj [("name", JStr (d_name entry));
            ("path", JStr relativePath);
            ("type", JStr "file");
            ("size", num (st_size stats));
            ("size_formatted", JStr (formatSize (inject_Z (st_size stats))));
            ("modified", JStr (st_mtime stats));
            ("extension", JStr (path_extname rt (d_name entry)));
            ("depth", natnum depth)]
  | Throw _ =>
      JObj [("name", JStr (d_name entry));
            ("path", JStr relativePath);
            ("type", JStr "file");
            ("error", JStr "Unable to read file stats");
            ("depth", natnum depth)]
  end.

(** The [for] loop of [listRecursive] over the entries of
    [currentPath]; [recurse] is [listRecursive] itself. *)
Fixpoint listEntries
  (recurse : string -> nat -> option (completion (list json)))
  (dirPath : string) (recursive : bool) (currentPath : string) (depth : nat)
  (entries : list Dirent) (results : list json)
  : option (completion (list json)) :=
  match entries with
  | [] => Some (Return results)
  | entry :: rest =>
      let fullPath := Path.join currentPath (d_name entry) in
      let relativePath := Path.relative (process_cwd rt) dirPath fullPath in
      if d_isDirectory entry then
        let results1 := (results ++ [dirInfo entry relativePath depth])%list in
        if recursive then
          match recurse fullPath (S depth) with
          | None => None
          | Some (Throw e) => Some (Throw e)
          | Some (Return subEntries) =>
              listEntries recurse dirPath recursive currentPath depth rest
                (results1 ++ subEntries)%list
          end
        else listEntries recurse dirPath recursive currentPath depth rest results1
      else if d_isFile entry then
        listEntries recurse dirPath recursive currentPath depth rest
          (results ++ [fileInfo entry relativePath fullPath depth])%list
      else listEntries recurse dirPath recursive currentPath depth rest results
  end.

(** [listRecursive], the closure inside [listDirectory].  [None] only
    when the fuel runs out. *)
Fixpoint listRecursive (fuel : nat) (dirPath : string) (recursive : bool)
  (currentPath : string) (depth : nat) : option (completion (list json)) :=
  match fuel with
  | O => None
  | S fuel' =>
      if (10 <? depth)%nat then Some (Throw maxDepthError)
      else
        match fs_readdir rt currentPath with
        | Throw e => Some (Throw e)
        | Return entries =>
            listEntries (listRecursive fuel' dirPath recursive)
              dirPath recursive currentPath depth entries []
        end
  end.

Definition isType (t : string) (e : json) : bool :=
  match field "type" e with
  | JStr s => String.eqb s t
  | _ => false
  end.

Definition sizeOf (e : json) : Q :=
  match field "size" e with
  | JNum q => q
  | _ => 0%Q
  end.

Definition listDirectory (dirPath : string) (recursive : bool)
  : completion object :=
  if negb (isPathAllowed dirPath) then Throw (accessDenied dirPath)
  else
    stats <- fs_stat rt dirPath ;;
    if negb (st_isDirectory stats) then
      Throw (Error_ (dirPath ++ " is not a directory"))
    else
      entries <-
        match listRecursive traversalFuel dirPath recursive dirPath 0 with
        | Some c => c
        | None => Throw maxDepthError   (* not reached: [listRecursive_total] *)
        end ;;
      let total_size :=
        fold_left (fun sum e => (sum + sizeOf e)%Q)
          (filter (fun e => isType "file" e && truthy (field "size" e)) entries)
          0%Q in
      let summary :=
        [("total", natnum (List.length entries));
         ("files", natnum (List.length (filter (isType "file") entries)));
         ("directories", natnum (List.length (filter (isType "directory") entries)));
         ("total_size", JNum total_size)] in
      Return
        [("operation", JStr "list");
         ("path", JStr dirPath);
         ("recursive", JBool recursive);
         ("entries", JArr entries);
         ("summary",
           JObj (Obj.spread summary
                   [("total_size_formatted", JStr (formatSize total_size))]))].

Definition matchInfo (entry : Dirent) (relativePath fullPath : string)
  (depth : nat) : json :=
  let type := if d_isDirectory entry then "directory" else "file" in
  match fs_stat rt fullPath with
  | Return stats =>
      JObj [("name", JStr (d_name entry));
            ("path", JStr relativePath);
            ("full_path", JStr fullPath);
            ("type", JStr type);
            ("size", if d_isFile entry then num (st_size stats) else JNull);
            ("size_formatted",
              if d_isFile entry
              then JStr (formatSize (inject_Z (st_size stats))) else JNull);
            ("modified", JStr (st_mtime stats));
            ("depth", natnum depth)]
  | Throw _ =>
      JObj [("name", JStr (d_name entry));
            ("path", JStr relativePath);
            ("full_path", JStr fullPath);
            ("type", JStr type);
            ("error", JStr "Unable to read stats");
            ("depth", natnum depth)]
  end.

(** The [for] loop of [searchRecursive] over the entries of
    [currentPath]; [recurse] is [searchRecursive] itself.  [matches] is
    the array of the enclosing [searchFiles], threaded through. *)
Fixpoint searchEntries
  (recurse : string -> nat -> list json -> option (list json))
  (regex : string -> bool) (searchPath : string) (recursive : bool)
  (currentPath : string) (depth : nat)
  (entries : list Dirent) (matches : list json) : option (list json) :=
  match entries with
  | [] => Some matches
  | entry :: rest =>
      let fullPath := Path.join currentPath (d_name entry) in
      let relativePath := Path.relative (process_cwd rt) searchPath fullPath in
      let matches1 :=
        if regex (d_name entry)
        then (matches ++ [matchInfo entry relativePath fullPath depth])%list
        else matches in
      if d_isDirectory entry && recursive && (depth <? 10)%nat then
        match recurse fullPath (S depth) matches1 with
        | None => None
        | Some matches2 =>
            searchEntries recurse regex searchPath recursive currentPath depth
              rest matches2
        end
      else
        searchEntries recurse regex searchPath recursive currentPath depth
          rest matches1
  end.

(** [searchRecursive], the closure inside [searchFiles].  It never
    throws: a directory that cannot be read is skipped.  [None] only
    when the fuel runs out. *)
Fixpoint searchRecursive (fuel : nat) (regex : string -> bool)
  (searchPath : string) (recursive : bool) (currentPath : string)
  (depth : nat) (matches : list json) : option (list json) :=
  match fuel with
  | O => None
  | S fuel' =>
      if (10 <? depth)%nat then Some matches
      else
        match fs_readdir rt currentPath with
        | Throw _ => Some matches
        | Return entries =>
            searchEntries (searchRecursive fuel' regex searchPath recursive)
              regex searchPath recursive currentPath depth entries matches
        end
  end.

Definition searchFiles (searchPath pattern : string) (recursive : bool)
  : completion object :=
  if negb (isPathAllowed searchPath) then Throw (accessDenied searchPath)
  else
    regex <- RegExp_i rt pattern ;;
    let matches :=
      match searchRecursive traversalFuel regex searchPath recursive searchPath 0 [] with
      | Some m => m
      | None => []                    (* not reached: [searchRecursive_total] *)
      end in
    Return
      [("operation", JStr "search");
       ("path", JStr searchPath);
       ("pattern", JStr pattern);
       ("recursive", JBool recursive);
       ("matches", JArr matches);
       ("count", natnum (List.length matches))].

Definition getStats (targetPath : string) : completion object :=
  if negb (isPathAllowed targetPath) then Throw (accessDenied targetPath)
  else
    try_catch
      (stats <- fs_stat rt targetPath ;;
       let parsedPath := path_parse rt targetPath in
       Return
         [("operation", JStr "stats");
          ("path", JStr targetPath);
          ("exists", JBool true);
          ("name", JStr (pp_name parsedPath));
          ("extension", JStr (pp_ext parsedPath));
          ("directory", JStr (pp_dir parsedPath));
          ("type", JStr (if st_isDirectory stats then "directory" else "file"));
          ("size", num (st_size stats));
          ("size_formatted", JStr (formatSize (inject_Z (st_size stats))));
          ("permissions",
            JObj [("mode", JStr (JsNumber.toOctal (st_mode stats)));
                  ("readable", JBool true)]);
          ("times",
            JObj [("created", JStr (st_birthtime stats));
                  ("modified", JStr (st_mtime stats));
                  ("accessed", JStr (st_atime stats))]);
          ("is_directory", JBool (st_isDirectory stats));
          ("is_file", JBool (st_isFile stats));
          ("is_symlink", JBool (st_isSymbolicLink stats))])
      (fun error =>
         if isENOENT error then
           Return
             [("operation", JStr "stats");
              ("path", JStr targetPath);
              ("exists", JBool false);
              ("error", JStr "File or directory not found")]
         else Throw error).

(** The [switch] of [execute]: the handler proper. *)
Definition perform (a : Args) : completion object :=
  let targetPath := path a in
  if String.eqb (operation a) "read" then
    readFile targetPath (max_size a) (encoding a)
  else if String.eqb (operation a) "list" then
    listDirectory targetPath (recursive a)
  else if String.eqb (operation a) "search" then
    match pattern a with
    | Some p =>
        if JsString.truthy p then searchFiles targetPath p (recursive a)
        else Throw (Error_ "pattern is required for search operation")
    | None => Throw (Error_ "pattern is required for search operation")
    end
  else if String.eqb (operation a) "stats" then
    getStats targetPath
  else Throw (Error_ ("Unknown operation: " ++ operation a)).

Definition failure (a : Args) (error : JsError) : json :=
  JObj [("success", JBool false);
        ("operation", JStr (operation a));
        ("path", JStr (path a));
        ("error", JObj [("message", JStr (err_message error));
                        ("code", err_code error)]);
        ("timestamp", JStr (date_now_iso rt))].

Definition execute (args : json) : completion json :=
  validatedArgs <- Zod.parse (JSON_stringify rt) (inputSchema args) ;;
  try_catch
    (result <- perform validatedArgs ;;
     Return (JObj (Obj.spread [("success", JBool true);
                               ("timestamp", JStr (date_now_iso rt))]
                              result)))
    (fun error => Return (failure validatedArgs error)).

End WithRuntime.

End FileProcessor.

(** ** [server/tools/example-tool.js] *)

Module ExampleTool.

Record Args : Type := mkArgs {
  action : string;
  message : option string;
  file_path : option string;
  include_details : bool
}.

Definition inputSchema (args : json) : Zod.parsed Args :=
  match args with
  | JObj o =>
      match
        Zod.both (Zod.prop (Zod.enum_ ["greet"; "echo"; "file_info"; "system_info"])
                           "action" o)
       (Zod.both (Zod.prop (Zod.optional Zod.string_) "message" o)
       (Zod.both (Zod.prop (Zod.optional Zod.string_) "file_path" o)
                 (Zod.prop (Zod.default Zod.boolean_ false) "include_details" o)))
      with
      | Zod.Valid (a, (m, (f, d))) => Zod.Valid (mkArgs a m f d)
      | Zod.Invalid issues => Zod.Invalid issues
      end
  | _ => Zod.notAnObject args
  end.

(** [x || d] for an optional string *)
Definition orElse (x : option string) (d : string) : string :=
  match x with
  | Some s => if JsString.truthy s then s else d
  | None => d
  end.

Definition optionalField (k : string) (x : option string) : object :=
  match x with
  | Some s => [(k, JStr s)]
  | None => []
  end.

(** The validated arguments as the object zod returned. *)
Definition argsJson (a : Args) : json :=
  JObj ([("action", JStr (action a))] ++ optionalField "message" (message a) ++
        optionalField "file_path" (file_path a) ++
        [("include_details", JBool (include_details a))])%list.

(** [s.split(/\s+/)] *)
Fixpoint splitWhitespace (s : string) (afterSpace : bool) : list string :=
  match s with
  | EmptyString => [EmptyString]
  | String a s' =>
      if JsString.isWhiteSpace a then
        (if afterSpace then splitWhitespace s' true
         else EmptyString :: splitWhitespace s' true)
      else match splitWhitespace s' false with
           | h :: t => String a h :: t
           | [] => [String a EmptyString]
           end
  end.

Definition reverseString (s : string) : string :=
  string_of_list_ascii (rev (list_ascii_of_string s)).

Section WithRuntime.

Variable rt : Runtime.

Definition isPathAllowed (filePath : string) : bool :=
  isPathAllowed (getenv rt "ALLOWED_PATHS") (process_cwd rt) filePath.

Definition handleGreet (message : string) (includeDetails : bool)
  : completion json :=
  let greeting := "Hello, " ++ message ++ "!" in
  if includeDetails then
    Return (JObj
      [("greeting", JStr greeting);
       ("details",
         JObj [("message_length", natnum (String.length message));
               ("current_time", JStr (date_toLocaleString (os rt)));
               ("random_fact",
                 JStr "Did you know? Claude Desktop Extensions use the Model Context Protocol!")])])
  else Return (JObj [("greeting", JStr greeting)]).

Definition handleEcho (message : string) (includeDetails : bool)
  : completion json :=
  if includeDetails then
    Return (JObj
      [("echo", JStr message);
       ("details",
         JObj [("character_count", natnum (String.length message));
               ("word_count",
                 natnum (List.length
                           (filter (fun word => (0 <? String.length word)%nat)
                                   (splitWhitespace message false))));
               ("uppercase", JStr (string_toUpperCase rt message));
               ("lowercase", JStr (string_toLowerCase rt message));
               ("reversed", JStr (reverseString message))])])
  else Return (JObj [("echo", JStr message)]).

Definition handleFileInfo (filePath : string) (includeDetails : bool)
  : completion json :=
  if negb (isPathAllowed filePath) then Throw (accessDenied filePath)
  else
    try_catch
      (stats <- fs_stat rt filePath ;;
       let parsedPath := path_parse rt filePath in
       let basicInfo :=
         [("exists", JBool true);
          ("name", JStr (pp_name parsedPath));
          ("extension", JStr (pp_ext parsedPath));
          ("size", JStr (formatFileSize (inject_Z (st_size stats))));
          ("size_bytes", num (st_size stats));
          ("is_directory", JBool (st_isDirectory stats));
          ("is_file", JBool (st_isFile stats));
          ("modified", JStr (st_mtime stats))] in
       if includeDetails then
         Return (JObj (Obj.spread basicInfo
           [("details",
              JObj [("full_path", JStr (Path.resolve (process_cwd rt) filePath));
                    ("directory", JStr (pp_dir parsedPath));
                    ("permissions",
                      JObj [("readable", JBool true);
                            ("mode", JStr (JsNumber.toOctal (st_mode stats)))]);
                    ("created", JStr (st_birthtime stats));
                    ("accessed", JStr (st_atime stats));
                    ("blocks", num (st_blocks stats));
                    ("block_size", num (st_blksize stats))])]))
       else Return (JObj basicInfo))
      (fun error =>
         if isENOENT error then
           Return (JObj [("exists", JBool false);
                         ("path", JStr filePath);
                         ("error", JStr "File or directory not found")])
         else Throw error).

Definition handleSystemInfo (includeDetails : bool) : completion json :=
  let o := os rt in
  let basicInfo :=
    [("platform", JStr (os_platform o));
     ("architecture", JStr (os_arch o));
     ("node_version", JStr (process_version o));
     ("uptime_seconds", num (Qfloor (process_uptime o)))] in
  if includeDetails then
    let '(l1, l5, l15) := os_loadavg o in
    interfaces <- os_networkInterfaces o ;;
    Return (JObj (Obj.spread basicInfo
      [("details",
         JObj [("os_release", JStr (os_release o));
               ("os_type", JStr (os_type o));
               ("hostname", JStr (os_hostname o));
               ("total_memory", JStr (formatFileSize (inject_Z (os_totalmem o))));
               ("free_memory", JStr (formatFileSize (inject_Z (os_freemem o))));
               ("cpu_count", natnum (List.length (os_cpus o)));
               ("load_average", JArr [JNum l1; JNum l5; JNum l15]);
               ("network_interfaces", JArr (map (fun i => JStr (fst i)) interfaces));
               ("environment_variables", natnum (List.length (process_env rt)));
               ("process_id", num (process_pid o));
               ("current_working_directory", JStr (process_cwd rt))])]))
  else Return (JObj basicInfo).

(** The [switch] of [execute]: the handler proper. *)
Definition perform (a : Args) : completion json :=
  if String.eqb (action a) "greet" then
    handleGreet (orElse (message a) "World") (include_details a)
  else if String.eqb (action a) "echo" then
    handleEcho (orElse (message a) "") (include_details a)
  else if String.eqb (action a) "file_info" then
    match file_path a with
    | Some p =>
        if JsString.truthy p then handleFileInfo p (include_details a)
        else Throw (Error_ "file_path is required for file_info action")
    | None => Throw (Error_ "file_path is required for file_info action")
    end
  else if String.eqb (action a) "system_info" then
    handleSystemInfo (include_details a)
  else Throw (Error_ ("Unknown action: " ++ action a)).

Definition failure (a : Args) (error : JsError) : json :=
  JObj [("success", JBool false);
        ("action", JStr (action a));
        ("error", JObj [("message", JStr (err_message error));
                        ("type", JStr (err_name error))]);
        ("metadata",
          JObj [("execution_time_ms", JNum (elapsed_ms rt));
                ("timestamp", JStr (date_now_iso rt))])].

Definition execute (args : json) : completion json :=
  validatedArgs <- Zod.parse (JSON_stringify rt) (inputSchema args) ;;
  try_catch
    (result <- perform validatedArgs ;;
     Return (JObj
       [("success", JBool true);
        ("action", JStr (action validatedArgs));
        ("result", result);
        ("metadata",
          JObj (Obj.spread
                  [("execution_time_ms", JNum (elapsed_ms rt));
                   ("timestamp", JStr (date_now_iso rt))]
                  (if include_details validatedArgs then
                     [("input_args", argsJson validatedArgs);
                      ("environment",
                        JObj [("node_version", JStr (process_version (os rt)));
                              ("platform", JStr (process_platform (os rt)));
                              ("arch", JStr (process_arch (os rt)))])]
                   else [])))]))
    (fun error => Return (failure validatedArgs error)).

End WithRuntime.

End ExampleTool.

(** ** [server/tools/system-info-tool.js] *)

Module SystemInfo.

Record Args : Type := mkArgs {
  category : string;
  detailed : bool
}.

Definition inputSchema (args : json) : Zod.parsed Args :=
  match args with
  | JObj o =>
      match
        Zod.both
          (Zod.prop (Zod.default
                       (Zod.enum_ ["overview"; "hardware"; "process"; "environment"; "network"])
                       "overview") "category" o)
          (Zod.prop (Zod.default Zod.boolean_ false) "detailed" o)
      with
      | Zod.Valid (c, d) => Zod.Valid (mkArgs c d)
      | Zod.Invalid issues => Zod.Invalid issues
      end
  | _ => Zod.notAnObject args
  end.

(** [x % m] for a non-negative [x] *)
Definition fmod (x : Q) (m : Z) : Q :=
  (x - inject_Z (m * Qfloor (x / inject_Z m)))%Q.

Definition formatUptime (seconds : Q) : string :=
  let days := Qfloor (seconds / 86400)%Q in
  let hours := Qfloor (fmod seconds 86400 / 3600)%Q in
  let minutes := Qfloor (fmod seconds 3600 / 60)%Q in
  let secs := Qfloor (fmod seconds 60) in
  let part (n : Z) (suffix : string) : list string :=
    if (0 <? n)%Z then [JsNumber.digits n ++ suffix] else [] in
  let parts := (part days "d" ++ part hours "h" ++ part minutes "m" ++ part secs "s")%list in
  let joined := JsString.join " " parts in
  if JsString.truthy joined then joined else "0s".

(** [x || d] on values *)
Definition orValue (x d : json) : json := if truthy x then x else d.

Definition optStr (x : option string) : json :=
  match x with
  | Some s => JStr s
  | None => JUndefined
  end.

Definition definedFields (o : object) : object :=
  filter (fun kv => match snd kv with JUndefined => false | _ => true end) o.

Section WithRuntime.

Variable rt : Runtime.

(** The object [overview] of [getSystemOverview], before the details are
    added. *)
Definition overview : object :=
  let o := os rt in
  let uptime := os_uptime o in
  let '(l1, l5, l15) := os_loadavg o in
  [("hostname", JStr (os_hostname o));
   ("platform", JStr (os_platform o));
   ("architecture", JStr (os_arch o));
   ("os_type", JStr (os_type o));
   ("os_release", JStr (os_release o));
   ("node_version", JStr (process_version o));
   ("uptime_seconds", num (Qfloor uptime));
   ("uptime_formatted", JStr (formatUptime uptime));
   ("load_average",
     JObj [("1min", JStr (JsNumber.toFixed 2 l1));
           ("5min", JStr (JsNumber.toFixed 2 l5));
           ("15min", JStr (JsNumber.toFixed 2 l15))])].

Definition getSystemOverview (detailed : bool) : completion json :=
  let o := os rt in
  if detailed then
    home <- os_homedir o ;;
    timeZone <- intl_timeZone o ;;
    locale <- intl_locale o ;;
    Return (JObj (Obj.set "detailed"
      (JObj [("os_endianness", JStr (os_endianness o));
             ("home_directory", JStr home);
             ("temp_directory", JStr (os_tmpdir o));
             ("shell",
               orValue (optStr (getenv rt "SHELL"))
                 (orValue (optStr (getenv rt "COMSPEC")) (JStr "unknown")));
             ("timezone", JStr timeZone);
             ("locale", JStr locale)])
      overview))
  else Return (JObj overview).

(** [((usedMem / totalMem) * 100).toFixed(1)]: the quotient and the product
    are each rounded to a double before the digits are taken. *)
Definition usagePercent (usedMem totalMem : Z) : string :=
  if (totalMem =? 0)%Z then
    (if (usedMem =? 0)%Z then "NaN"
     else if (0 <? usedMem)%Z then "Infinity" else "-Infinity")
  else
    JsNumber.toFixed 1
      (JsNumber.double
         (JsNumber.double (inject_Z usedMem / inject_Z totalMem) * 100))%Q.

Definition getHardwareInfo (detailed : bool) : json :=
  let o := os rt in
  let cpus := os_cpus o in
  let totalMem := os_totalmem o in
  let freeMem := os_freemem o in
  let usedMem := (totalMem - freeMem)%Z in
  let first (f : Cpu -> json) : json :=
    match cpus with
    | c :: _ => f c
    | [] => JUndefined
    end in
  let hardware :=
    [("cpu",
       JObj [("model", orValue (first (fun c => JStr (cpu_model c))) (JStr "Unknown"));
             ("cores", natnum (List.length cpus));
             ("speed_mhz", orValue (first (fun c => num (cpu_speed c))) (num 0))]);
     ("memory",
       JObj [("total", JStr (formatBytes (inject_Z totalMem)));
             ("free", JStr (formatBytes (inject_Z freeMem)));
             ("used", JStr (formatBytes (inject_Z usedMem)));
             ("usage_percent", JStr (usagePercent usedMem totalMem));
             ("total_bytes", num totalMem);
             ("free_bytes", num freeMem);
             ("used_bytes", num usedMem)])] in
  if detailed then
    JObj (Obj.set "detailed"
      (JObj [("cpu_info",
               JArr (map (fun ic =>
                            JObj [("core", natnum (fst ic));
                                  ("model", JStr (cpu_model (snd ic)));
                                  ("speed", num (cpu_speed (snd ic)));
                                  ("times", cpu_times (snd ic))])
                         (combine (seq 0 (List.length cpus)) cpus)));
             ("constants",
               JObj [("page_size", orValue (os_constants_PAGE_SIZE o) (JStr "unknown"));
                     ("max_path_length",
                       orValue (os_constants_PATH_MAX o) (JStr "unknown"))])])
      hardware)
  else JObj hardware.

Definition getProcessInfo (detailed : bool) : completion json :=
  let o := os rt in
  let orUnknown (x : option Z) : json :=
    match x with
    | Some z => num z
    | None => JStr "unknown"
    end in
  memUsage <- process_memoryUsage o ;;
  cpuUsage <- process_cpuUsage o ;;
  let processInfo :=
    [("pid", num (process_pid o));
     ("ppid", orValue (num (process_ppid o)) (JStr "unknown"));
     ("node_version", JStr (process_version o));
     ("uptime_seconds", num (Qfloor (process_uptime o)));
     ("uptime_formatted", JStr (formatUptime (process_uptime o)));
     ("working_directory", JStr (process_cwd rt));
     ("memory_usage",
       JObj [("rss", JStr (formatBytes (inject_Z (mu_rss memUsage))));
             ("heap_total", JStr (formatBytes (inject_Z (mu_heapTotal memUsage))));
             ("heap_used", JStr (formatBytes (inject_Z (mu_heapUsed memUsage))));
             ("external", JStr (formatBytes (inject_Z (mu_external memUsage))));
             ("array_buffers",
               JStr (formatBytes (inject_Z (mu_arrayBuffers memUsage))))]);
     ("cpu_usage",
       JObj [("user_microseconds", num (cu_user cpuUsage));
             ("system_microseconds", num (cu_system cpuUsage))])] in
  Return (if detailed then
    JObj (Obj.set "detailed"
      (JObj [("versions", process_versions o);
             ("features", orValue (process_features o) (JObj []));
             ("argv", JArr (map JStr (process_argv o)));
             ("exec_path", JStr (process_execPath o));
             ("exec_argv", JArr (map JStr (process_execArgv o)));
             ("platform", JStr (process_platform o));
             ("arch", JStr (process_arch o));
             ("title", JStr (process_title o));
             ("gid", orUnknown (process_getgid o));
             ("uid", orUnknown (process_getuid o));
             ("groups",
               match process_getgroups o with
               | Some g => JArr (map num g)
               | None => JStr "unknown"
               end)])
      processInfo)
  else JObj processInfo).

Definition getEnvironmentInfo (detailed : bool) : json :=
  let envVars := getenv rt in
  let envCount := List.length (process_env rt) in
  let safeEnvVars :=
    [("NODE_ENV", optStr (envVars "NODE_ENV"));
     ("PATH",
       if detailed then optStr (envVars "PATH")
       else JStr (match envVars "PATH" with
                  | Some p => substring 0 100 p
                  | None => "undefined"
                  end ++ "..."));
     ("HOME", optStr (envVars "HOME"));
     ("USER", orValue (optStr (envVars "USER")) (optStr (envVars "USERNAME")));
     ("SHELL", optStr (envVars "SHELL"));
     ("LANG", optStr (envVars "LANG"));
     ("TZ", optStr (envVars "TZ"))] in
  let environment :=
    [("variable_count", natnum envCount);
     ("variables", JObj (definedFields safeEnvVars))] in
  if detailed then
    let extensionVars :=
      filter (fun kv =>
                JsString.startsWith (fst kv) "EXTENSION_" ||
                JsString.startsWith (fst kv) "ALLOWED_" ||
                JsString.startsWith (fst kv) "API_" ||
                JsString.startsWith (fst kv) "ENABLE_")
             (process_env rt) in
    JObj (Obj.set "detailed"
      (JObj [("extension_variables",
               JObj (map (fun kv => (fst kv, JStr (snd kv))) extensionVars));
             ("node_options", optStr (envVars "NODE_OPTIONS"));
             ("npm_config_prefix", optStr (envVars "npm_config_prefix"));
             ("npm_config_cache", optStr (envVars "npm_config_cache"))])
      environment)
  else JObj environment.

Definition getNetworkInfo (detailed : bool) : completion json :=
  interfaces <- os_networkInterfaces (os rt) ;;
  let interfaceNames := map fst interfaces in
  let network :=
    [("interface_count", natnum (List.length interfaceNames));
     ("interface_names", JArr (map JStr interfaceNames))] in
  if detailed then
    let detailedInterfaces :=
      fold_left
        (fun acc i =>
           Obj.set (fst i)
             (JArr (map (fun addr =>
                           JObj [("address", JStr (na_address addr));
                                 ("netmask", JStr (na_netmask addr));
                                 ("family", na_family addr);
                                 ("mac", JStr (na_mac addr));
                                 ("internal", JBool (na_internal addr));
                                 ("cidr", na_cidr addr)])
                        (snd i)))
             acc)
        interfaces [] in
    Return (JObj (Obj.set "detailed"
      (JObj [("interfaces", JObj detailedInterfaces);
             ("hostname", JStr (os_hostname (os rt)))])
      network))
  else Return (JObj network).

(** The [switch] of [execute]: the handler proper. *)
Definition perform (a : Args) : completion json :=
  if String.eqb (category a) "overview" then getSystemOverview (detailed a)
  else if String.eqb (category a) "hardware" then Return (getHardwareInfo (detailed a))
  else if String.eqb (category a) "process" then getProcessInfo (detailed a)
  else if String.eqb (category a) "environment" then
    Return (getEnvironmentInfo (detailed a))
  else if String.eqb (category a) "network" then getNetworkInfo (detailed a)
  else Throw (Error_ ("Unknown category: " ++ category a)).

Definition failure (a : Args) (error : JsError) : json :=
  JObj [("success", JBool false);
        ("category", JStr (category a));
        ("error", JObj [("message", JStr (err_message error));
                        ("type", JStr (err_name error))]);
        ("timestamp", JStr (date_now_iso rt))].

Definition execute (args : json) : completion json :=
  validatedArgs <- Zod.parse (JSON_stringify rt) (inputSchema args) ;;
  try_catch
    (result <- perform validatedArgs ;;
     Return (JObj
       [("success", JBool true);
        ("category", JStr (category validatedArgs));
        ("detailed", JBool (detailed validatedArgs));
        ("data", result);
        ("timestamp", JStr (date_now_iso rt));
        ("collected_in_ms", num 0)]))
    (fun error => Return (failure validatedArgs error)).

End WithRuntime.

End SystemInfo.

(** ** Tools, the tools registry and the server *)

(** The double quote character, as a string *)
Definition dquote : string := String "034"%char EmptyString.

(** The error codes of the protocol library the dispatcher uses. *)
Inductive ErrorCode : Type :=
| MethodNotFound
| InternalError.

(** What a request handler settles to: a response, or a thrown value, which
    is an [McpError] or any other error. *)
Inductive thrown : Type :=
| McpError (code : ErrorCode) (message : string)
| OtherError (e : JsError).

Inductive settled : Type :=
| Fulfilled (response : json)
| Rejected (t : thrown).

Inductive LogLine : Type :=
| LogInfo (message : string)
| LogError (message : string) (error : JsError).

Section Server.

(** The state a tool handler may read and change. *)
Variable S : Type.

Record Tool : Type := mkTool {
  tool_name : string;
  tool_description : string;
  tool_inputSchema : json;
  tool_execute : json -> S -> completion json * S
}.

(** [this.tools], a [Map] from names to tools, in insertion order. *)
Definition ToolMap : Type := list (string * Tool).

Fixpoint Map_get (name : string) (m : ToolMap) : option Tool :=
  match m with
  | [] => None
  | (k, t) :: m' => if String.eqb name k then Some t else Map_get name m'
  end.

Definition Map_has (name : string) (m : ToolMap) : bool :=
  match Map_get name m with
  | Some _ => true
  | None => false
  end.

Fixpoint Map_set (name : string) (t : Tool) (m : ToolMap) : ToolMap :=
  match m with
  | [] => [(name, t)]
  | (k, t') :: m' =>
      if String.eqb name k then (k, t) :: m' else (k, t') :: Map_set name t m'
  end.

(** What a call can touch besides its result: the handlers' state and the
    error stream the server logs to. *)
Record World : Type := mkWorld {
  handlerState : S;
  stderr : list LogLine
}.

Variable rt : Runtime.

Definition isLoggingEnabled : bool :=
  match getenv rt "ENABLE_LOGGING" with
  | Some v => String.eqb v "true"
  | None => false
  end ||
  match getenv rt "NODE_ENV" with
  | Some v => String.eqb v "development"
  | None => false
  end.

Definition logInfo (message : string) (w : World) : World :=
  if isLoggingEnabled
  then mkWorld (handlerState w) (stderr w ++ [LogInfo message])%list
  else w.

Definition logError (message : string) (error : JsError) (w : World) : World :=
  mkWorld (handlerState w) (stderr w ++ [LogError message error])%list.

(** The handler of [ListToolsRequestSchema] *)
Definition listTools (tools : ToolMap) : json :=
  JObj [("tools",
          JArr (map (fun kt =>
                       JObj [("name", JStr (tool_name (snd kt)));
                             ("description", JStr (tool_description (snd kt)));
                             ("inputSchema", tool_inputSchema (snd kt))])
                    tools))].

Definition textContent (result : json) : json :=
  JObj [("content",
          JArr [JObj [("type", JStr "text");
                      ("text",
                        match result with
                        | JStr s => JStr s
                        | JUndefined => JUndefined
                        | _ => JStr (JSON_stringify rt result)
                        end)]])].

(** [args || {}] *)
Definition orEmpty (args : json) : json := if truthy args then args else JObj [].

(** The handler of [CallToolRequestSchema], on the request parameters
    [name] and [arguments]. *)
Definition callTool (tools : ToolMap) (name : string) (args : json) (w : World)
  : settled * World :=
  if negb (Map_has name tools) then
    (Rejected (McpError MethodNotFound ("Tool " ++ dquote ++ name ++ dquote ++ " not found")), w)
  else
    let failed (error : JsError) (w' : World) :=
      (Rejected (McpError InternalError ("Tool execution failed: " ++ err_message error)),
       logError ("Tool execution failed for " ++ dquote ++ name ++ dquote ++ ":") error w') in
    match Map_get name tools with
    | Some tool =>
        let '(outcome, s') := tool_execute tool (orEmpty args) (handlerState w) in
        let w' := mkWorld s' (stderr w) in
        match outcome with
        | Return result => (Fulfilled (textContent result), w')
        | Throw error => failed error w'
        end
    | None =>
        failed (mkError "TypeError"
                  "Cannot read properties of undefined (reading 'execute')"
                  JUndefined []) w
    end.

(** [registerTool]: the structure check, then [this.tools.set]. *)
Definition registerTool (tool : Tool) (tools : ToolMap) (w : World)
  : completion ToolMap * World :=
  match tool_inputSchema tool with
  | JObj _ =>
      (Return (Map_set (tool_name tool) tool tools),
       logInfo ("Registered tool: " ++ tool_name tool) w)
  | other =>
      let error := Zod.ZodError (JSON_stringify rt)
                     [Zod.invalidType "object" other ["inputSchema"]] in
      (Throw (Error_ ("Invalid tool configuration for " ++ dquote ++ tool_name tool ++
                      dquote ++ ": " ++ err_message error)),
       logError ("Failed to register tool " ++ dquote ++ tool_name tool ++ dquote ++ ":")
                error w)
  end.

Fixpoint registerEach (registeredTools : list Tool) (tools : ToolMap) (w : World)
  : completion ToolMap * World :=
  match registeredTools with
  | [] => (Return tools, w)
  | tool :: rest =>
      match registerTool tool tools w with
      | (Return tools', w') => registerEach rest tools' w'
      | (Throw e, w') => (Throw e, w')
      end
  end.

(** [registerTools] of [tools/index.js], on the list of tools it holds. *)
Definition checkTools (tools : list Tool) : completion (list Tool) :=
  (fix check (index : nat) (l : list Tool) : completion (list Tool) :=
     match l with
     | [] => Return tools
     | tool :: l' =>
         if negb (JsString.truthy (tool_name tool)) ||
            negb (JsString.truthy (tool_description tool))
         then Throw (Error_ ("Tool at index " ++ JsNumber.digits (Z.of_nat index) ++
                             " is missing required properties (name, description, execute)"))
         else check (Datatypes.S index) l'
     end) 0%nat tools.

(** [registerAllTools] *)
Definition registerAllTools (allTools : list Tool) (w : World)
  : completion ToolMap * World :=
  match checkTools allTools with
  | Return registeredTools =>
      match registerEach registeredTools [] w with
      | (Return tools, w') =>
          (Return tools,
           logInfo ("Registered " ++ JsNumber.digits (Z.of_nat (List.length tools)) ++
                    " tools") w')
      | (Throw e, w') => (Throw e, logError "Failed to register tools:" e w')
      end
  | Throw e => (Throw e, logError "Failed to register tools:" e w)
  end.

End Server.

Arguments mkTool {S}.
Arguments tool_name {S}.
Arguments tool_description {S}.
Arguments tool_inputSchema {S}.
Arguments tool_execute {S}.
Arguments Map_get {S}.
Arguments Map_has {S}.
Arguments Map_set {S}.
Arguments mkWorld {S}.
Arguments handlerState {S}.
Arguments stderr {S}.
Arguments callTool {S}.
Arguments logError {S}.
Arguments logInfo {S}.
Arguments orEmpty : clear implicits.
Arguments listTools {S}.
Arguments registerTool {S}.
Arguments registerAllTools {S}.
Arguments checkTools {S}.
Arguments registerEach {S}.

(** ** The tool objects the three modules export *)

Section ToolObjects.

Variable S : Type.
Variable rt : Runtime.

Definition property (type : string) (extra : object) (description : string)
  : json :=
  JObj (("type", JStr type) :: extra ++ [("description", JStr description)])%list.

Definition enumOf (values : list string) : string * json :=
  ("enum", JArr (map JStr values)).

(** The handlers only read the runtime: the handler state is untouched. *)
Definition reading (execute : json -> completion json)
  : json -> S -> completion json * S :=
  fun args s => (execute args, s).

Definition exampleTool : Tool S :=
  mkTool "example_tool"
    "A comprehensive example tool demonstrating best practices for Claude Desktop Extensions. Supports greet, echo, file_info, and system_info actions."
    (JObj [("type", JStr "object");
           ("properties",
             JObj [("action",
                     property "string" [enumOf ["greet"; "echo"; "file_info"; "system_info"]]
                       "Action to perform");
                   ("message",
                     property "string" [] "Message to process (for greet and echo actions)");
                   ("file_path",
                     property "string" [] "File path to analyze (for file_info action)");
                   ("include_details",
                     property "boolean" [("default", JBool false)]
                       "Include detailed information in response")]);
           ("required", JArr [JStr "action"])])
    (reading (ExampleTool.execute rt)).

Definition fileProcessorTool : Tool S :=
  mkTool "file_processor"
    "Process files and directories within allowed paths. Supports read, list, search, and stats operations."
    (JObj [("type", JStr "object");
           ("properties",
             JObj [("operation",
                     property "string" [enumOf ["read"; "list"; "search"; "stats"]]
                       "File operation to perform");
                   ("path", property "string" [] "File or directory path");
                   ("pattern",
                     property "string" [] "Search pattern (regex, for search operation)");
                   ("recursive",
                     property "boolean" [("default", JBool false)]
                       "Recursive operation (for list and search)");
                   ("max_size",
                     property "number" [("default", num 1048576)]
                       "Maximum file size to read in bytes");
                   ("encoding",
                     property "string"
                       [enumOf ["utf8"; "binary"; "base64"]; ("default", JStr "utf8")]
                       "File encoding for read operation")]);
           ("required", JArr [JStr "operation"; JStr "path"])])
    (reading (FileProcessor.execute rt)).

Definition systemInfoTool : Tool S :=
  mkTool "system_info"
    "Get comprehensive system information including OS details, hardware specs, process info, environment variables, and network configuration."
    (JObj [("type", JStr "object");
           ("properties",
             JObj [("category",
                     property "string"
                       [enumOf ["overview"; "hardware"; "process"; "environment"; "network"];
                        ("default", JStr "overview")]
                       "Information category to retrieve");
                   ("detailed",
                     property "boolean" [("default", JBool false)]
                       "Include detailed information (may contain sensitive data)")]);
           ("required", JArr [])])
    (reading (SystemInfo.execute rt)).

(** [tools/index.js] *)
Definition registerTools : completion (list (Tool S)) :=
  checkTools [exampleTool; fileProcessorTool; systemInfoTool].

Definition getTool (name : string) : option (Tool S) :=
  match registerTools with
  | Return tools => find (fun tool => String.eqb (tool_name tool) name) tools
  | Throw _ => None
  end.

Definition getToolNames : list string :=
  match registerTools with
  | Return tools => map tool_name tools
  | Throw _ => []
  end.

(** [new ExtensionServer()]: the tool map it ends up with. *)
Definition newExtensionServer (w : World S) : completion (ToolMap S) * World S :=
  registerAllTools rt [exampleTool; fileProcessorTool; systemInfoTool] w.

End ToolObjects.

Arguments exampleTool {S}.
Arguments fileProcessorTool {S}.
Arguments systemInfoTool {S}.
Arguments newExtensionServer {S}.

(** The tool map of a running server: the three tools, in this order. *)
Definition serverTools {S} (rt : Runtime) : ToolMap S :=
  [("example_tool", exampleTool rt);
   ("file_processor", fileProcessorTool rt);
   ("system_info", systemInfoTool rt)].

(** The environment check of [main]: without [ALLOWED_PATHS] (or with an
    empty one) the server refuses to start.  The tools themselves can
    still be called directly, as the tests do. *)
Definition validateEnvironment (rt : Runtime) : completion unit :=
  match getenv rt "ALLOWED_PATHS" with
  | Some v =>
      if JsString.truthy v then Return tt
      else Throw (Error_ "ALLOWED_PATHS environment variable is required")
  | None => Throw (Error_ "ALLOWED_PATHS environment variable is required")
  end.

(** ** A machine to run the tools on

    A small file tree under [/data] and stand-ins for the library
    functions of the runtime. *)

Module Sample.

Definition enoent (syscall p : string) : JsError :=
  mkError "Error"
    ("ENOENT: no such file or directory, " ++ syscall ++ " '" ++ p ++ "'")
    (JStr "ENOENT") [].

Definition fileStats (size : Z) : Stats :=
  mkStats true false false size 33188
    "2024-01-01T00:00:00.000Z" "2024-01-01T00:00:00.000Z" "2024-01-01T00:00:00.000Z"
    8 4096.

Definition dirStats : Stats :=
  mkStats false true false 4096 16877
    "2024-01-01T00:00:00.000Z" "2024-01-01T00:00:00.000Z" "2024-01-01T00:00:00.000Z"
    8 4096.

Definition cwd : string := "/home/user".

Definition sampleText : string := "Hello, World!" ++ String "010"%char "This is a test file.".

Definition stat (p : string) : completion Stats :=
  let r := Path.resolve cwd p in
  if String.eqb r "/data" then Return dirStats
  else if String.eqb r "/data/sub" then Return dirStats
  else if String.eqb r "/data/sample.txt" then Return (fileStats 34)
  else if String.eqb r "/data/big.bin" then Return (fileStats 2097152)
  else Throw (enoent "stat" p).

Definition readdir (p : string) : completion (list Dirent) :=
  let r := Path.resolve cwd p in
  if String.eqb r "/data" then
    Return [mkDirent "big.bin" false true;
            mkDirent "sample.txt" false true;
            mkDirent "sub" true false]
  else if String.eqb r "/data/sub" then Return []
  else Throw (enoent "scandir" p).

Definition readFileBytes (p : string) : completion string :=
  let r := Path.resolve cwd p in
  if String.eqb r "/data/sample.txt" then Return sampleText
  else Throw (enoent "open" p).

Definition osInfo : OsInfo :=
  mkOsInfo "host" "linux" "x64" "Linux" "6.1.0" (86461 # 1)%Q ((1 # 2)%Q, (1 # 4)%Q, (1 # 8)%Q)
    "LE" (Return "/home/user") "/tmp" 8589934592 4294967296
    [mkCpu "cpu" 2400 (JObj [])] (num 4096) (num 4096)
    (Return [("lo", [mkNetworkAddress "127.0.0.1" "255.0.0.0" (JStr "IPv4")
                       "00:00:00:00:00:00" true (JStr "127.0.0.1/8")])])
    "v20.0.0" (JObj [("node", JStr "20.0.0")]) (JObj []) "linux" "x64" (12 # 1)%Q
    4242 1 ["node"; "index.js"] "/usr/bin/node" [] "node" (Some 1000%Z) (Some 1000%Z)
    (Some [1000%Z])
    (Return (mkMemoryUsage 50000000 20000000 10000000 1000000 10000))
    (Return (mkCpuUsage 1000 500))
    (Return "UTC") (Return "en-US") "1/1/2024, 12:00:00 AM".

(** The runtime, with [ALLOWED_PATHS] as given. *)
Definition runtime (ALLOWED_PATHS : option string)
  (readdir : string -> completion (list Dirent))
  (stat : string -> completion Stats) : Runtime :=
  mkRuntime
    (match ALLOWED_PATHS with
     | Some v => [("ALLOWED_PATHS", v); ("HOME", "/home/user")]
     | None => [("HOME", "/home/user")]
     end)
    cwd stat readdir readFileBytes
    "2024-01-01T00:00:00.000Z" (0 # 1)%Q
    (fun pattern => Return (fun name => JsString.includes name pattern))
    (fun buffer => buffer) (fun s => s) (fun s => s)
    (fun _ => "") (fun p => mkParsedPath "" p "")
    (fun _ => "{}")
    osInfo.

(** [/data] is the allowed root. *)
Definition rt : Runtime := runtime (Some "/data") readdir stat.

(** The same machine started without [ALLOWED_PATHS]. *)
Definition rtNoPaths : Runtime := runtime None readdir stat.

(** A machine on which every directory holds one more directory, [d]. *)
Definition rtEndless : Runtime :=
  runtime (Some "/data")
    (fun _ => Return [mkDirent "d" true false])
    (fun _ => Return dirStats).

End Sample.

(** ** Notions the properties below are stated with *)

(** An absolute path printed from its segments. *)
Definition render (segs : list string) : string := "/" ++ JsString.join "/" segs.

(** Where [path.resolve] starts from: nothing for an absolute path, the
    working directory for a relative one. *)
Definition anchor (cwd p : string) : string :=
  if Path.isAbsolute p then "" else cwd ++ "/".

Definition allWhite (w : string) : bool :=
  forallb JsString.isWhiteSpace (list_ascii_of_string w).

(** A suffix that turns no segment into an empty or a dot segment. *)
Definition keepsPlain (w : string) : Prop :=
  forall l s, s = "" \/ s = "." \/ s = ".." -> l ++ w <> s.

(** What every segment on the stack of an absolute path is: never [".."],
    and without a separator inside. *)
Definition plain (seg : string) : Prop :=
  seg <> ".." /\ JsString.contains_char Path.sep seg = false.

Definition exceedsMessage (size : Z) (maxSize : Q) : string :=
  "File size (" ++ formatSize (inject_Z size) ++
  ") exceeds maximum allowed size (" ++ formatSize maxSize ++ ")".

(** An entry whose [depth] is at most [n]. *)
Definition depthAtMost (n : nat) (e : json) : Prop :=
  exists d, field "depth" e = natnum d /\ (d <= n)%nat.

(** An entry of a listing: at depth 10 at most, and less than 10 for a
    directory that a recursive listing went into. *)
Definition shallow (recursive : bool) (e : json) : Prop :=
  exists d, field "depth" e = natnum d /\ (d <= 10)%nat /\
            (recursive = true -> FileProcessor.isType "directory" e = true -> (d < 10)%nat).

(** What [searchRecursive] pushes for the entries of one directory. *)
Definition ownMatches (rt : Runtime) (regex : string -> bool)
  (searchPath currentPath : string) (depth : nat) (entries : list Dirent)
  : list json :=
  flat_map
    (fun entry =>
       let fullPath := Path.join currentPath (d_name entry) in
       if regex (d_name entry)
       then [FileProcessor.matchInfo rt entry
               (Path.relative (process_cwd rt) searchPath fullPath) fullPath depth]
       else [])
    entries.

(** How often the character [c] occurs in [s]. *)
Fixpoint countChar (c : ascii) (s : string) : nat :=
  match s with
  | EmptyString => 0
  | String a s' => (if Ascii.eqb a c then 1 else 0) + countChar c s'
  end.

(** What [listRecursive] pushes for the entries of one directory when it
    does not go into the directories. *)
Definition ownEntries (rt : Runtime) (dirPath currentPath : string) (depth : nat)
  (entries : list Dirent) : list json :=
  flat_map
    (fun entry =>
       let fullPath := Path.join currentPath (d_name entry) in
       let relativePath := Path.relative (process_cwd rt) dirPath fullPath in
       if d_isDirectory entry then [FileProcessor.dirInfo entry relativePath depth]
       else if d_isFile entry
            then [FileProcessor.fileInfo rt entry relativePath fullPath depth]
            else [])
    entries.

(** An entry of a listing is a file or a directory, never both. *)
Definition fileOrDirectory (e : json) : Prop :=
  (FileProcessor.isType "file" e = true /\ FileProcessor.isType "directory" e = false) \/
  (FileProcessor.isType "file" e = false /\ FileProcessor.isType "directory" e = true).

(** A runtime with another regular expression engine. *)
Definition withRegExp (rt : Runtime)
  (engine : string -> completion (string -> bool)) : Runtime :=
  mkRuntime (process_env rt) (process_cwd rt) (fs_stat rt) (fs_readdir rt)
    (fs_readFile rt) (date_now_iso rt) (elapsed_ms rt) engine (buffer_base64 rt)
    (string_toUpperCase rt) (string_toLowerCase rt) (path_extname rt) (path_parse rt)
    (JSON_stringify rt) (os rt).




(** An engine that rejects every pattern, as [new RegExp] rejects ["("]. *)
Definition rejectingEngine (pattern : string) : completion (string -> bool) :=
  Throw (mkError "SyntaxError"
           ("Invalid regular expression: /" ++ pattern ++ "/i: Unterminated group")
           JUndefined []).

(** ** [validateTool] of [tools/index.js]

    It looks at an arbitrary object, whose properties are values or
    functions. *)

Inductive jsprop : Type :=
| PValue (v : json)
| PFunction.

(** [typeof x] *)
Definition typeof (x : jsprop) : string :=
  match x with
  | PFunction => "function"
  | PValue JUndefined => "undefined"
  | PValue (JBool _) => "boolean"
  | PValue (JNum _) => "number"
  | PValue (JStr _) => "string"
  | PValue JNull | PValue (JArr _) | PValue (JObj _) => "object"
  end.

Fixpoint propOf (k : string) (o : list (string * jsprop)) : option jsprop :=
  match o with
  | [] => None
  | (k', x) :: o' => if String.eqb k k' then Some x else propOf k o'
  end.

(** [typeof tool.k], [undefined] for a missing property *)
Definition typeofProp (k : string) (o : list (string * jsprop)) : string :=
  match propOf k o with
  | Some x => typeof x
  | None => "undefined"
  end.

Definition validateTool (tool : list (string * jsprop)) : completion unit :=
  let requiredFields := ["name"; "description"; "inputSchema"; "execute"] in
  match find (fun field => match propOf field tool with None => true | Some _ => false end)
             requiredFields with
  | Some field => Throw (Error_ ("Tool is missing required field: " ++ field))
  | None =>
      if negb (String.eqb (typeofProp "name" tool) "string") then
        Throw (Error_ "Tool name must be a string")
      else if negb (String.eqb (typeofProp "description" tool) "string") then
        Throw (Error_ "Tool description must be a string")
      else if negb (String.eqb (typeofProp "execute" tool) "function") then
        Throw (Error_ "Tool execute must be a function")
      else if negb (String.eqb (typeofProp "inputSchema" tool) "object") then
        Throw (Error_ "Tool inputSchema must be an object")
      else Return tt
  end.

(** A tool of the registry as the object [validateTool] is given. *)
Definition toolObject {S} (tool : Tool S) : list (string * jsprop) :=
  [("name", PValue (JStr (tool_name tool)));
   ("description", PValue (JStr (tool_description tool)));
   ("inputSchema", PValue (tool_inputSchema tool));
   ("execute", PFunction)].

(** The tool registered last under [name] in a list of tools. *)
Definition lastNamed {S} (name : string) (tools : list (Tool S)) : option (Tool S) :=
  find (fun tool => String.eqb name (tool_name tool)) (rev tools).

(** The [content] of a [binary] read: the bytes in hexadecimal, two
    digits each, with a blank between. *)
Definition binaryContent (buffer : string) : string :=
  JsString.join " " (map JsNumber.hexByte (list_ascii_of_string buffer)).

Fixpoint hexValueIn (digits : list ascii) (c : ascii) : nat :=
  match digits with
  | [] => 0
  | d :: digits' => if Ascii.eqb c d then 0 else S (hexValueIn digits' c)
  end.

Definition hexValue (c : ascii) : nat :=
  hexValueIn (list_ascii_of_string "0123456789abcdef") c.

(** Reads a [binary] content back into bytes. *)
Fixpoint unhex (s : string) : string :=
  match s with
  | String h (String l rest) =>
      String (ascii_of_nat (16 * hexValue h + hexValue l))
        match rest with
        | String _ rest' => unhex rest'
        | EmptyString => EmptyString
        end
  | _ => EmptyString
  end.

(** The number of words the [echo] details count in a message. *)
Definition wordCount (message : string) : nat :=
  List.length (filter (fun word => (0 <? String.length word)%nat)
                 (ExampleTool.splitWhitespace message false)).

(** * Properties *)

(** ** The models at work *)

Example resolve_ex1 : Path.resolve "/home" "/a/b/../c/./d//e/" = "/a/c/d/e".
Proof. reflexivity. Qed.
Example resolve_ex2 : Path.resolve "/home/u" "x/../../y" = "/home/y".
Proof. reflexivity. Qed.
Example resolve_ex3 : Path.resolve "/home" "/../.." = "/".
Proof. reflexivity. Qed.
Example resolve_ex4 : Path.resolve "/home" "" = "/home".
Proof. reflexivity. Qed.
Example join_ex1 : Path.join "/a/b" "c" = "/a/b/c".
Proof. reflexivity. Qed.
Example relative_ex1 : Path.relative "/" "/a/b" "/a/b/c/d" = "c/d".
Proof. reflexivity. Qed.
Example relative_ex2 : Path.relative "/" "/a/b" "/a/c" = "../c".
Proof. reflexivity. Qed.
Example trim_ex : JsString.trim "  /a b  " = "/a b".
Proof. reflexivity. Qed.
Example split_ex : JsString.split ","%char "/a, /b,," = ["/a"; " /b"; ""; ""].
Proof. reflexivity. Qed.
Example guard_ex1 : isPathAllowed (Some "/data, /srv/files") "/home" "/srv/files/x/../y" = true.
Proof. reflexivity. Qed.
Example guard_ex2 : isPathAllowed (Some "/data") "/home" "/etc/passwd" = false.
Proof. reflexivity. Qed.
Example guard_ex3 : isPathAllowed (Some "/allowed") "/home" "/allowed-sibling" = true.
Proof. reflexivity. Qed.

Example formatSize_ex1 : formatSize (inject_Z 1048576) = "1.00 MB".
Proof. reflexivity. Qed.
Example formatSize_ex2 : formatSize (inject_Z 35) = "35.00 B".
Proof. reflexivity. Qed.
Example formatSize_ex3 : formatSize (inject_Z 1536) = "1.50 KB".
Proof. reflexivity. Qed.
Example formatSize_ex4 : formatSize (inject_Z (5 * 1024 * 1024 * 1024 * 1024)) = "5120.00 GB".
Proof. reflexivity. Qed.
Example formatSize_ex5 : formatSize (21 # 2) = "10.50 B".
Proof. reflexivity. Qed.
Example formatSize_ex6 : formatSize (inject_Z 0) = "0.00 B".
Proof. reflexivity. Qed.
Example formatSize_ex7 : formatSize (inject_Z (-5)) = "-5.00 B".
Proof. reflexivity. Qed.
Example formatSize_ex8 : formatSize (inject_Z 1029) = "1.00 KB".
Proof. reflexivity. Qed.
Example toOctal_ex : JsNumber.toOctal 33188 = "100644".
Proof. reflexivity. Qed.
Example hex_ex : JsNumber.hexByte "J"%char = "4a".
Proof. reflexivity. Qed.

(** Reading inside and outside the allowed root [/data]. *)
Example read_allowed :
  FileProcessor.execute Sample.rt
    (JObj [("operation", JStr "read"); ("path", JStr "/data/sample.txt")]) =
  Return (JObj [("success", JBool true);
                ("timestamp", JStr "2024-01-01T00:00:00.000Z");
                ("operation", JStr "read");
                ("path", JStr "/data/sample.txt");
                ("size", num 34);
                ("size_formatted", JStr "34.00 B");
                ("encoding", JStr "utf8");
                ("content", JStr Sample.sampleText);
                ("lines", num 2);
                ("modified", JStr "2024-01-01T00:00:00.000Z")]).
Proof. reflexivity. Qed.

Example read_outside :
  FileProcessor.execute Sample.rt
    (JObj [("operation", JStr "read"); ("path", JStr "/etc/passwd")]) =
  Return (JObj [("success", JBool false);
                ("operation", JStr "read");
                ("path", JStr "/etc/passwd");
                ("error",
                  JObj [("message",
                          JStr "Access denied: /etc/passwd is not in an allowed directory");
                        ("code", JUndefined)]);
                ("timestamp", JStr "2024-01-01T00:00:00.000Z")]).
Proof. reflexivity. Qed.

Example echo_hi :
  field "result"
    match ExampleTool.execute Sample.rt
            (JObj [("action", JStr "echo"); ("message", JStr "hi")]) with
    | Return envelope => envelope
    | Throw _ => JUndefined
    end = JObj [("echo", JStr "hi")].
Proof. reflexivity. Qed.

Example endless_search_count :
  field "count"
    match FileProcessor.execute Sample.rtEndless
            (JObj [("operation", JStr "search"); ("path", JStr "/data");
                   ("pattern", JStr "d"); ("recursive", JBool true)]) with
    | Return envelope => envelope
    | Throw _ => JUndefined
    end = num 11.
Proof. reflexivity. Qed.

Example no_paths_no_start :
  validateEnvironment Sample.rtNoPaths =
  Throw (Error_ "ALLOWED_PATHS environment variable is required").
Proof. reflexivity. Qed.

(** ** Strings *)

Lemma prefix_refl (s : string) : String.prefix s s = true.
Proof.
  induction s as [|a s IH]; simpl; [reflexivity|].
  destruct (ascii_dec a a) as [_|n]; [exact IH | now elim n].
Qed.

Lemma prefix_empty (s : string) : String.prefix "" s = true.
Proof. destruct s; reflexivity. Qed.

Lemma prefix_append (a b c : string) :
  String.prefix (a ++ b) (a ++ c) = String.prefix b c.
Proof.
  induction a as [|x a IH]; simpl; [reflexivity|].
  destruct (ascii_dec x x) as [_|n]; [exact IH | now elim n].
Qed.

Lemma append_empty_r (a : string) : a ++ "" = a.
Proof. induction a as [|x a IH]; simpl; [reflexivity | now rewrite IH]. Qed.

Lemma prefix_append_r (a b : string) : String.prefix a (a ++ b) = true.
Proof.
  rewrite <- (append_empty_r a) at 1.
  rewrite prefix_append. apply prefix_empty.
Qed.

Lemma append_assoc (a b c : string) : (a ++ b) ++ c = a ++ (b ++ c).
Proof. induction a as [|x a IH]; simpl; [reflexivity | now rewrite IH]. Qed.

Lemma includes_append (a b c : string) : JsString.includes (a ++ b ++ c) b = true.
Proof.
  induction a as [|x a IH]; simpl.
  - destruct b; simpl.
    + destruct c; reflexivity.
    + destruct (ascii_dec a a) as [_|n]; [|now elim n].
      now rewrite prefix_append_r.
  - rewrite IH. apply orb_true_r.
Qed.

Lemma split_nonempty (c : ascii) (s : string) : JsString.split c s <> [].
Proof.
  induction s as [|a s IH]; simpl; [discriminate|].
  destruct (Ascii.eqb a c); [discriminate|].
  destruct (JsString.split c s); [contradiction | discriminate].
Qed.

Lemma split_no_sep (c : ascii) (s : string) :
  JsString.contains_char c s = false -> JsString.split c s = [s].
Proof.
  unfold JsString.contains_char.
  induction s as [|a s IH]; simpl; [reflexivity|].
  intros H. apply orb_false_iff in H as [Hc Hs].
  rewrite Ascii.eqb_sym, Hc, (IH Hs). reflexivity.
Qed.

Lemma split_singleton (c : ascii) (s r : string) :
  JsString.split c s = [r] -> s = r /\ JsString.contains_char c s = false.
Proof.
  unfold JsString.contains_char.
  revert r. induction s as [|a s IH]; simpl; intros r H.
  - inversion H. split; reflexivity.
  - destruct (Ascii.eqb a c) eqn:E.
    + inversion H as [[H1 H2]]. now elim (split_nonempty c s).
    + destruct (JsString.split c s) as [|h t] eqn:Es; [now elim (split_nonempty c s)|].
      inversion H; subst.
      destruct (IH h eq_refl) as [-> Hn].
      rewrite Ascii.eqb_sym, E, Hn. split; reflexivity.
Qed.

Lemma split_append (c : ascii) (a b : string) :
  JsString.split c (a ++ String c b) = (JsString.split c a ++ JsString.split c b)%list.
Proof.
  induction a as [|x a IH]; simpl.
  - now rewrite Ascii.eqb_refl.
  - destruct (Ascii.eqb x c); [now rewrite IH|].
    rewrite IH.
    destruct (JsString.split c a) as [|h t] eqn:E; [now elim (split_nonempty c a)|].
    reflexivity.
Qed.

Lemma split_sep_free (c : ascii) (s : string) :
  Forall (fun seg => JsString.contains_char c seg = false) (JsString.split c s).
Proof.
  unfold JsString.contains_char.
  induction s as [|a s IH]; simpl.
  - constructor; [reflexivity | constructor].
  - destruct (Ascii.eqb a c) eqn:E.
    + constructor; [reflexivity | exact IH].
    + destruct (JsString.split c s) as [|h t]; [repeat constructor; simpl|].
      * now rewrite Ascii.eqb_sym, E.
      * inversion IH; subst. constructor; [|assumption].
        simpl. rewrite Ascii.eqb_sym, E. assumption.
Qed.

Lemma split_snoc (c : ascii) (s : string) :
  exists init l, JsString.split c s = (init ++ [l])%list.
Proof.
  destruct (JsString.split c s) as [|h t] eqn:E using rev_ind.
  - now elim (split_nonempty c s).
  - now exists t, h.
Qed.

Lemma split_append_free (c : ascii) (a w : string) (init : list string) (l : string) :
  JsString.split c a = (init ++ [l])%list ->
  JsString.contains_char c w = false ->
  JsString.split c (a ++ w) = (init ++ [(l ++ w)%string])%list.
Proof.
  intros Ha Hw. revert init l Ha.
  induction a as [|x a IH]; simpl; intros init l Ha.
  - destruct init as [|i init]; simpl in Ha.
    + inversion Ha; subst. simpl. now apply split_no_sep.
    + inversion Ha. now destruct init.
  - destruct (Ascii.eqb x c).
    + destruct init as [|i init]; simpl in Ha.
      * inversion Ha. now elim (split_nonempty c a).
      * inversion Ha; subst. simpl. f_equal. now apply IH.
    + destruct (JsString.split c a) as [|h t] eqn:E; [now elim (split_nonempty c a)|].
      destruct init as [|i init]; simpl in Ha.
      * inversion Ha; subst. rewrite (IH [] h eq_refl). reflexivity.
      * inversion Ha; subst. rewrite (IH (h :: init) l); [reflexivity|].
        simpl. now f_equal.
Qed.

(** ** Paths *)

Lemma join_snoc (A : list string) (l : string) :
  JsString.join "/" (A ++ [l]) =
  match A with
  | [] => l
  | _ => JsString.join "/" A ++ "/" ++ l
  end.
Proof.
  unfold JsString.join.
  induction A as [|a A IH]; simpl; [reflexivity|].
  destruct A as [|b A]; simpl in *; [reflexivity|].
  rewrite IH. now rewrite append_assoc.
Qed.

Lemma render_snoc (A : list string) (l : string) :
  render (A ++ [l]) = (match A with [] => "/" | _ => render A ++ "/" end) ++ l.
Proof.
  unfold render. rewrite join_snoc.
  destruct A; [reflexivity|].
  change ("/" ++ ?x) with (String "/"%char x). simpl. f_equal.
  now rewrite append_assoc.
Qed.

Lemma prefix_trans (a b c : string) :
  String.prefix a b = true -> String.prefix b c = true -> String.prefix a c = true.
Proof.
  revert b c. induction a as [|x a IH]; intros b c Hab Hbc; [apply prefix_empty|].
  destruct b as [|y b]; [discriminate Hab|].
  destruct c as [|z c]; [discriminate Hbc|].
  simpl in *.
  destruct (ascii_dec x y) as [->|]; [|discriminate Hab].
  destruct (ascii_dec y z) as [->|]; [|discriminate Hbc].
  now apply (IH b c).
Qed.

Lemma render_prefix_snoc (A : list string) (b : string) :
  String.prefix (render A) (render (A ++ [b])) = true.
Proof.
  rewrite render_snoc. destruct A as [|a A].
  - unfold render. simpl JsString.join. apply prefix_append_r.
  - rewrite append_assoc. apply prefix_append_r.
Qed.

Lemma render_prefix_app (A B : list string) :
  String.prefix (render A) (render (A ++ B)) = true.
Proof.
  revert A. induction B as [|b B IH]; intros A.
  - rewrite app_nil_r. apply prefix_refl.
  - replace (A ++ b :: B)%list with ((A ++ [b]) ++ B)%list
      by now rewrite <- app_assoc.
    apply prefix_trans with (render (A ++ [b])).
    + apply render_prefix_snoc.
    + apply IH.
Qed.

Lemma render_prefix_last (A : list string) (l w : string) :
  String.prefix (render (A ++ [l])) (render (A ++ [(l ++ w)%string])) = true.
Proof.
  rewrite !render_snoc.
  destruct A.
  - rewrite prefix_append. apply prefix_append_r.
  - rewrite !prefix_append. apply prefix_append_r.
Qed.

Lemma render_prefix_segment (A : list string) (l m : string) :
  String.prefix (render (A ++ [l])) (render (A ++ [m])) = String.prefix l m.
Proof.
  rewrite !render_snoc.
  destruct A; now rewrite !prefix_append.
Qed.

Lemma resolve_absolute (cwd p : string) :
  Path.isAbsolute cwd = true -> p <> "" ->
  Path.resolve cwd p =
  render (Path.normalizeSegments false
            (JsString.split Path.sep ((anchor cwd p ++ p) ++ "/"))).
Proof.
  intros Hcwd Hp. unfold Path.resolve, anchor.
  apply String.eqb_neq in Hp. rewrite Hp. cbn [fst snd].
  destruct (Path.isAbsolute p) eqn:Ep; cbn [fst snd negb].
  - reflexivity.
  - destruct cwd as [|c cwd]; [discriminate Hcwd|].
    cbn [String.eqb fst snd]. rewrite Hcwd. cbn [negb].
    unfold render, Path.normalizeString. now rewrite !append_assoc.
Qed.

Lemma step_empty (b : bool) (acc : list string) : Path.step b acc "" = acc.
Proof. reflexivity. Qed.

Lemma normalize_trailing (segs : list string) (l : string) :
  Path.normalizeSegments false (segs ++ [l; ""]) =
  rev (Path.step false (fold_left (Path.step false) segs []) l).
Proof.
  unfold Path.normalizeSegments. rewrite fold_left_app. reflexivity.
Qed.

Lemma split_slash_end (p : string) :
  JsString.split Path.sep (p ++ "/") = (JsString.split Path.sep p ++ [""])%list.
Proof. apply (split_append Path.sep p ""). Qed.

Lemma trimEnd_suffix (s : string) :
  exists w, s = JsString.trimEnd s ++ w /\ allWhite w = true.
Proof.
  induction s as [|a s [w [Hs Hw]]]; [now exists ""|].
  simpl. destruct (JsString.trimEnd s) as [|b t] eqn:E.
  - simpl in Hs. destruct (JsString.isWhiteSpace a) eqn:Ea.
    + exists (String a w). split; [now rewrite <- Hs|].
      unfold allWhite in *. simpl. now rewrite Ea.
    + exists w. split; [simpl; now rewrite <- Hs | assumption].
  - exists w. split; [|assumption].
    simpl. f_equal. exact Hs.
Qed.

Lemma trimStart_length (s : string) :
  (String.length (JsString.trimStart s) <= String.length s)%nat.
Proof.
  induction s as [|a s IH]; simpl; [lia|].
  destruct (JsString.isWhiteSpace a); simpl; lia.
Qed.

Lemma trimStart_fixed (r : string) :
  JsString.trimStart r = r -> r <> "" ->
  exists a r', r = String a r' /\ JsString.isWhiteSpace a = false.
Proof.
  intros H Hr. destruct r as [|a r']; [contradiction|].
  exists a, r'. split; [reflexivity|].
  simpl in H. destruct (JsString.isWhiteSpace a); [|reflexivity].
  pose proof (trimStart_length r') as L. rewrite H in L. simpl in L. lia.
Qed.

Lemma trimEnd_head (a : ascii) (r' : string) :
  JsString.isWhiteSpace a = false ->
  exists t, JsString.trimEnd (String a r') = String a t.
Proof.
  intros Ha. simpl. destruct (JsString.trimEnd r') as [|b t].
  - rewrite Ha. now exists "".
  - now exists (String b t).
Qed.

Lemma white_no_sep (w : string) :
  allWhite w = true -> JsString.contains_char Path.sep w = false.
Proof.
  unfold allWhite, JsString.contains_char.
  induction w as [|a w IH]; cbn [list_ascii_of_string forallb existsb];
    [reflexivity|].
  intros H. apply andb_true_iff in H as [Ha Hw].
  rewrite (IH Hw), orb_false_r.
  destruct (Ascii.eqb Path.sep a) eqn:E; [|reflexivity].
  apply Ascii.eqb_eq in E. subst a. discriminate Ha.
Qed.

Lemma keepsPlain_eqb (w l : string) :
  keepsPlain w ->
  String.eqb (l ++ w) "" || String.eqb (l ++ w) "." = false /\
  String.eqb (l ++ w) ".." = false.
Proof.
  intros N. split.
  - apply orb_false_iff. split; apply String.eqb_neq, N; auto.
  - apply String.eqb_neq, N; auto.
Qed.

Lemma white_keepsPlain (w : string) :
  w <> "" -> allWhite w = true -> keepsPlain w.
Proof.
  intros Hw Ha l s Hs E.
  destruct w as [|x w]; [contradiction|].
  unfold allWhite in Ha. simpl in Ha. apply andb_true_iff in Ha as [Hx _].
  destruct l as [|a [|b [|c l]]]; simpl in E;
    destruct Hs as [->|[->| ->]]; inversion E; subst; try discriminate Hx.
  all: destruct l; discriminate.
Qed.

Lemma sibling_keepsPlain : keepsPlain "-sibling".
Proof.
  intros l s Hs E.
  destruct l as [|a [|b [|c l]]]; simpl in E;
    destruct Hs as [->|[->| ->]]; inversion E.
Qed.

(** With a suffix inside its last segment, a path still resolves to
    something that begins, letter for letter, with what it resolved to. *)
Lemma resolve_suffix (cwd t w : string) :
  Path.isAbsolute cwd = true -> t <> "" ->
  JsString.contains_char Path.sep w = false -> keepsPlain w ->
  String.prefix (Path.resolve cwd t) (Path.resolve cwd (t ++ w)) = true.
Proof.
  intros Hcwd Ht Hsep Hw.
  rewrite !resolve_absolute by (assumption || now destruct t).
  assert (Ea : anchor cwd (t ++ w) = anchor cwd t).
  { unfold anchor. destruct t; [contradiction | reflexivity]. }
  rewrite Ea.
  rewrite <- (append_assoc (anchor cwd t) t w).
  rewrite !split_slash_end.
  destruct (split_snoc Path.sep (anchor cwd t ++ t)) as [init [l Hl]].
  rewrite (split_append_free _ _ w init l Hl Hsep).
  rewrite Hl, <- !app_assoc. cbn [app].
  rewrite !normalize_trailing.
  set (S := fold_left (Path.step false) init []).
  destruct (keepsPlain_eqb w l Hw) as [P1 P2].
  unfold Path.step at 2. rewrite P1, P2. cbn [rev].
  unfold Path.step.
  destruct (String.eqb l "" || String.eqb l "."); [apply render_prefix_app|].
  destruct (String.eqb l "..").
  - destruct S as [|top rest]; [apply (render_prefix_app [])|].
    destruct (String.eqb top ".."); [apply render_prefix_app|].
    cbn [rev]. rewrite <- app_assoc. apply render_prefix_app.
  - cbn [rev]. apply render_prefix_last.
Qed.

Lemma step_plain (acc : list string) (seg : string) :
  Forall plain acc -> JsString.contains_char Path.sep seg = false ->
  Forall plain (Path.step false acc seg).
Proof.
  intros Hacc Hseg. unfold Path.step.
  destruct (String.eqb seg "" || String.eqb seg "."); [assumption|].
  destruct (String.eqb seg "..") eqn:E.
  - destruct acc as [|top rest]; [constructor|].
    destruct (String.eqb top ".."); [assumption|].
    now inversion Hacc.
  - constructor; [|assumption].
    split; [now apply String.eqb_neq | assumption].
Qed.

Lemma fold_plain (segs acc : list string) :
  Forall plain acc ->
  Forall (fun seg => JsString.contains_char Path.sep seg = false) segs ->
  Forall plain (fold_left (Path.step false) segs acc).
Proof.
  revert acc. induction segs as [|seg segs IH]; intros acc Hacc Hsegs; [assumption|].
  inversion Hsegs; subst. simpl. apply IH; [|assumption].
  now apply step_plain.
Qed.

Lemma split_join (A : list string) :
  Forall (fun seg => JsString.contains_char Path.sep seg = false) A -> A <> [] ->
  JsString.split Path.sep (JsString.join "/" A) = A.
Proof.
  induction A as [|x A IH]; intros HA Hne; [contradiction|].
  inversion HA; subst.
  destruct A as [|y A]; [now apply split_no_sep|].
  change (JsString.join "/" (x :: y :: A))
    with (x ++ String Path.sep (JsString.join "/" (y :: A))).
  rewrite split_append, IH by (assumption || discriminate).
  now rewrite split_no_sep.
Qed.

Lemma last_cons_nonempty {A} (a d : A) (l : list A) :
  l <> [] -> last (a :: l) d = last l d.
Proof. destruct l; [contradiction | reflexivity]. Qed.

Lemma basename_render (A : list string) :
  Forall plain A -> Path.basename (render A) = last A "".
Proof.
  intros HA. unfold Path.basename, render.
  change ("/" ++ ?x) with (String Path.sep x).
  cbn [JsString.split]. rewrite Ascii.eqb_refl.
  rewrite last_cons_nonempty by apply split_nonempty.
  destruct A as [|x A]; [reflexivity|].
  rewrite split_join; [reflexivity | | discriminate].
  eapply Forall_impl; [|exact HA]. now intros s [_ Hs].
Qed.

Lemma resolve_stack (cwd r : string) :
  Path.isAbsolute cwd = true -> r <> "" ->
  exists T,
    Forall plain T /\
    Path.resolve cwd r = render (rev T) /\
    Path.resolve cwd (r ++ "/../escaped") = render (rev ("escaped" :: tl T)).
Proof.
  intros Hcwd Hr.
  exists (fold_left (Path.step false) (JsString.split Path.sep (anchor cwd r ++ r)) []).
  set (T := fold_left _ _ _).
  assert (HT : Forall plain T).
  { apply fold_plain; [constructor | apply split_sep_free]. }
  split; [exact HT|]. split.
  - rewrite resolve_absolute by assumption.
    rewrite split_slash_end. unfold Path.normalizeSegments.
    now rewrite fold_left_app.
  - rewrite resolve_absolute; [|assumption | now destruct r].
    assert (Ea : anchor cwd (r ++ "/../escaped") = anchor cwd r).
    { unfold anchor. destruct r; [contradiction | reflexivity]. }
    rewrite Ea, split_slash_end.
    rewrite <- (append_assoc (anchor cwd r) r "/../escaped").
    change "/../escaped" with (String Path.sep (".." ++ String Path.sep "escaped")).
    rewrite split_append.
    change (JsString.split Path.sep (".." ++ String Path.sep "escaped"))
      with [".."; "escaped"].
    unfold Path.normalizeSegments. rewrite !fold_left_app. fold T.
    f_equal. f_equal. cbn [fold_left].
    destruct T as [|top rest]; [reflexivity|].
    inversion HT as [|? ? [Hdd _] _]; subst.
    apply String.eqb_neq in Hdd.
    unfold Path.step at 3. cbn [String.eqb Ascii.eqb orb Bool.eqb].
    rewrite Hdd. reflexivity.
Qed.

Lemma existsb_single {A} (f : A -> bool) (x : A) : existsb f [x] = f x.
Proof. simpl. apply orb_false_r. Qed.

Lemma allowedPaths_single (env : option string) (r : string) :
  allowedPaths env = [r] ->
  env = Some r /\ r <> "" /\ JsString.contains_char ","%char r = false.
Proof.
  unfold allowedPaths. destruct env as [v|]; [|discriminate].
  unfold JsString.truthy. destruct (String.eqb v "") eqn:E; [discriminate|].
  simpl. intros H. apply split_singleton in H as [-> Hc].
  apply String.eqb_neq in E. now repeat split.
Qed.

(** ** The path guard *)

Lemma guard_single (env : option string) (cwd r p : string) :
  allowedPaths env = [r] ->
  isPathAllowed env cwd p =
  String.prefix (Path.resolve cwd (JsString.trim r)) (Path.resolve cwd p).
Proof.
  intros H. unfold isPathAllowed. cbv zeta. rewrite H.
  cbn [existsb]. now rewrite orb_false_r.
Qed.

(** The guard compares texts: whatever begins like the resolved root is
    admitted.  With one root [r], the path [r ++ "-sibling"] is admitted
    whatever [r] is. *)
Lemma sibling_admitted (env : option string) (cwd r : string) :
  allowedPaths env = [r] -> JsString.trim r = r -> Path.isAbsolute cwd = true ->
  isPathAllowed env cwd (r ++ "-sibling") = true.
Proof.
  intros He Ht Hc.
  destruct (allowedPaths_single env r He) as [_ [Hr _]].
  rewrite (guard_single env cwd r _ He), Ht.
  apply resolve_suffix; [assumption | assumption | reflexivity |].
  apply sibling_keepsPlain.
Qed.

(** C1, on the code: with the single allow-list root [/allowed], the guard
    admits the sibling path [/allowed-sibling].  The resolved candidate
    neither equals the resolved root nor starts with the root followed by a
    separator; it is admitted because [isPathAllowed] tests
    [resolvedPath.startsWith(resolvedAllowedPath)] and nothing else. *)
Theorem path_guard_admits_sibling :
  allowedPaths (Some "/allowed") = ["/allowed"] /\
  Path.resolve "/home/user" "/allowed" = "/allowed" /\
  Path.resolve "/home/user" ("/allowed" ++ "-sibling") = "/allowed-sibling" /\
  String.eqb "/allowed-sibling" "/allowed" = false /\
  JsString.startsWith "/allowed-sibling" ("/allowed" ++ "/") = false /\
  isPathAllowed (Some "/allowed") "/home/user" ("/allowed" ++ "-sibling") = true.
Proof. repeat split; reflexivity. Qed.

(** C6, on the code: candidate and roots are resolved to absolute,
    normalized form before they are compared, and a root is admitted under
    itself; but the comparison that follows is one of texts.  With the
    allow-list [[r]], the candidate [r ++ "/../escaped"] resolves to the
    entry [escaped] beside the resolved root, and the guard admits it
    exactly when the last segment of the resolved root is a beginning of
    the word [escaped]: under the root [/a/esc] the candidate resolves to
    [/a/escaped], outside the root, and is admitted. *)
Theorem path_guard_admits_escape (env : option string) (cwd r : string) :
  allowedPaths env = [r] -> Path.isAbsolute cwd = true -> JsString.trim r = r ->
  isPathAllowed env cwd r = true /\
  isPathAllowed env cwd (r ++ "/../escaped") =
  String.prefix (Path.basename (Path.resolve cwd r)) "escaped".
Proof.
  intros He Hc Ht.
  destruct (allowedPaths_single env r He) as [_ [Hr _]].
  split.
  - rewrite (guard_single env cwd r _ He), Ht. apply prefix_refl.
  - rewrite (guard_single env cwd r _ He), Ht.
    destruct (resolve_stack cwd r Hc Hr) as [T [HT [E1 E2]]].
    rewrite E1, E2.
    rewrite basename_render by now apply Forall_rev.
    destruct T as [|top rest]; [reflexivity|].
    cbn [rev tl]. rewrite last_last.
    apply render_prefix_segment.
Qed.

Lemma path_guard_admits_escape_witness :
  Path.resolve "/home/user" "/a/esc" = "/a/esc" /\
  Path.resolve "/home/user" ("/a/esc" ++ "/../escaped") = "/a/escaped" /\
  String.eqb "/a/escaped" "/a/esc" = false /\
  JsString.startsWith "/a/escaped" ("/a/esc" ++ "/") = false /\
  isPathAllowed (Some "/a/esc") "/home/user" ("/a/esc" ++ "/../escaped") = true.
Proof.
  destruct (path_guard_admits_escape (Some "/a/esc") "/home/user" "/a/esc"
              eq_refl eq_refl eq_refl) as [_ H].
  refine (conj eq_refl (conj eq_refl (conj eq_refl (conj eq_refl H)))).
Defined.

(** ** Validation *)

Lemma enum_valid (options path : list string) (v : json) (s : string) :
  Zod.enum_ options path v = Zod.Valid s ->
  v = JStr s /\ In s options.
Proof.
  unfold Zod.enum_. destruct v; try discriminate.
  destruct (existsb (String.eqb s0) options) eqn:E; [|discriminate].
  intros H. inversion H; subst. split; [reflexivity|].
  apply existsb_exists in E as [x [Hin Hx]].
  apply String.eqb_eq in Hx. now subst.
Qed.

(** Splits a successful object parse into the parses of its fields. *)
Ltac fields H :=
  repeat match type of H with
         | context [Zod.prop ?p ?k ?o] =>
             let E := fresh "E" in destruct (Zod.prop p k o) eqn:E
         end;
  cbn in H; try discriminate H.

Lemma file_args_valid (args : json) (a : FileProcessor.Args) :
  FileProcessor.inputSchema args = Zod.Valid a ->
  exists o, args = JObj o /\
    In (FileProcessor.operation a) ["read"; "list"; "search"; "stats"] /\
    Obj.get "path" o = JStr (FileProcessor.path a) /\
    Zod.default Zod.number_ (inject_Z (1024 * 1024)) ["max_size"] (Obj.get "max_size" o)
      = Zod.Valid (FileProcessor.max_size a).
Proof.
  unfold FileProcessor.inputSchema. intros H.
  destruct args as [| | | | | |o]; try discriminate H.
  exists o. split; [reflexivity|].
  fields H. inversion H; subst; clear H. cbn.
  repeat split.
  - unfold Zod.prop in E. now apply enum_valid in E as [_ ?].
  - unfold Zod.prop, Zod.string_ in E0.
    destruct (Obj.get "path" o); try discriminate E0. now inversion E0.
  - exact E3.
Qed.

Lemma example_args_valid (args : json) (a : ExampleTool.Args) :
  ExampleTool.inputSchema args = Zod.Valid a ->
  In (ExampleTool.action a) ["greet"; "echo"; "file_info"; "system_info"].
Proof.
  unfold ExampleTool.inputSchema. intros H.
  destruct args as [| | | | | |o]; try discriminate H.
  fields H. inversion H; subst; clear H. cbn.
  unfold Zod.prop in E. now apply enum_valid in E as [_ ?].
Qed.

(** ** The empty allow-list *)

Lemma no_paths_no_access (rt : Runtime) (p : string) :
  getenv rt "ALLOWED_PATHS" = None ->
  isPathAllowed (getenv rt "ALLOWED_PATHS") (process_cwd rt) p = false.
Proof. intros H. now rewrite H. Qed.

Lemma file_perform_denied (rt : Runtime) (a : FileProcessor.Args) :
  FileProcessor.isPathAllowed rt (FileProcessor.path a) = false ->
  In (FileProcessor.operation a) ["read"; "list"; "search"; "stats"] ->
  (FileProcessor.operation a = "search" ->
   exists p, FileProcessor.pattern a = Some p /\ p <> "") ->
  FileProcessor.perform rt a = Throw (accessDenied (FileProcessor.path a)).
Proof.
  intros Hg Hop Hpat. unfold FileProcessor.perform.
  destruct Hop as [E|[E|[E|[E|[]]]]]; rewrite <- E; cbn [String.eqb Ascii.eqb Bool.eqb andb].
  - unfold FileProcessor.readFile. now rewrite Hg.
  - unfold FileProcessor.listDirectory. now rewrite Hg.
  - destruct (Hpat (eq_sym E)) as [p [-> Hp]].
    apply String.eqb_neq in Hp. unfold JsString.truthy. rewrite Hp. cbn [negb].
    unfold FileProcessor.searchFiles. now rewrite Hg.
  - unfold FileProcessor.getStats. now rewrite Hg.
Qed.

(** C8, as stated, fails: with [ALLOWED_PATHS] absent, a [search] request
    that gives no pattern is answered with the failure
    [pattern is required for search operation], not with an access-denied
    failure; [execute] tests the pattern before [searchFiles] consults the
    guard. *)
Lemma search_without_pattern_not_denied :
  getenv Sample.rtNoPaths "ALLOWED_PATHS" = None /\
  FileProcessor.execute Sample.rtNoPaths
    (JObj [("operation", JStr "search"); ("path", JStr "/data")]) =
  Return (JObj [("success", JBool false);
                ("operation", JStr "search");
                ("path", JStr "/data");
                ("error",
                  JObj [("message", JStr "pattern is required for search operation");
                        ("code", JUndefined)]);
                ("timestamp", JStr "2024-01-01T00:00:00.000Z")]).
Proof. split; reflexivity. Qed.

(** C8, amended: when [ALLOWED_PATHS] is absent the allow-list is empty and
    [isPathAllowed] is false for every path; every valid [file_processor]
    request for [read], [list] or [stats], every valid [search] request
    with a non-empty pattern, and every valid [example_tool] [file_info]
    request with a non-empty [file_path] is answered with the failure
    envelope carrying [Access denied: <path> is not in an allowed
    directory], whatever the path. *)
Theorem empty_allow_list_denies_access (rt : Runtime) :
  getenv rt "ALLOWED_PATHS" = None ->
  (forall p, isPathAllowed (getenv rt "ALLOWED_PATHS") (process_cwd rt) p = false) /\
  (forall args a,
     FileProcessor.inputSchema args = Zod.Valid a ->
     (FileProcessor.operation a = "search" ->
      exists p, FileProcessor.pattern a = Some p /\ p <> "") ->
     FileProcessor.execute rt args =
     Return (FileProcessor.failure rt a (accessDenied (FileProcessor.path a)))) /\
  (forall args a p,
     ExampleTool.inputSchema args = Zod.Valid a ->
     ExampleTool.action a = "file_info" ->
     ExampleTool.file_path a = Some p -> p <> "" ->
     ExampleTool.execute rt args =
     Return (ExampleTool.failure rt a (accessDenied p))).
Proof.
  intros Henv. split; [|split].
  - intros p. now apply no_paths_no_access.
  - intros args a Hv Hpat.
    destruct (file_args_valid args a Hv) as [o [_ [Hop _]]].
    unfold FileProcessor.execute. rewrite Hv. cbn [Zod.parse bind].
    rewrite file_perform_denied; [reflexivity | | assumption | assumption].
    now apply no_paths_no_access.
  - intros args a p Hv Hact Hfp Hp.
    unfold ExampleTool.execute. rewrite Hv. cbn [Zod.parse bind].
    unfold ExampleTool.perform. rewrite Hact, Hfp.
    cbn [String.eqb Ascii.eqb Bool.eqb andb].
    apply String.eqb_neq in Hp. unfold JsString.truthy. rewrite Hp. cbn [negb].
    unfold ExampleTool.handleFileInfo, ExampleTool.isPathAllowed.
    now rewrite no_paths_no_access.
Qed.

Lemma empty_allow_list_denies_access_witness :
  isPathAllowed None Sample.cwd "/data/sample.txt" = false /\
  FileProcessor.execute Sample.rtNoPaths
    (JObj [("operation", JStr "read"); ("path", JStr "/data/sample.txt")]) =
  Return (FileProcessor.failure Sample.rtNoPaths
            (FileProcessor.mkArgs "read" "/data/sample.txt" None false
               (inject_Z (1024 * 1024)) "utf8")
            (accessDenied "/data/sample.txt")) /\
  ExampleTool.execute Sample.rtNoPaths
    (JObj [("action", JStr "file_info"); ("file_path", JStr "/data/sample.txt")]) =
  Return (ExampleTool.failure Sample.rtNoPaths
            (ExampleTool.mkArgs "file_info" None (Some "/data/sample.txt") false)
            (accessDenied "/data/sample.txt")).
Proof.
  destruct (empty_allow_list_denies_access Sample.rtNoPaths eq_refl) as [H1 [H2 H3]].
  split; [apply (H1 "/data/sample.txt")|]. split.
  - apply H2; [reflexivity | discriminate].
  - apply (H3 _ _ "/data/sample.txt"); [reflexivity | reflexivity | reflexivity | discriminate].
Defined.

(** ** The dispatcher *)

Section Dispatch.

Context {S : Type}.
Variable rt : Runtime.

Lemma callTool_registered (tools : ToolMap S) (name : string) (tool : Tool S)
  (args : json) (w : World S) :
  Map_get name tools = Some tool ->
  callTool rt tools name args w =
  match tool_execute tool (orEmpty args) (handlerState w) with
  | (Return result, s') => (Fulfilled (textContent rt result), mkWorld s' (stderr w))
  | (Throw error, s') =>
      (Rejected (McpError InternalError ("Tool execution failed: " ++ err_message error)),
       logError ("Tool execution failed for " ++ dquote ++ name ++ dquote ++ ":") error
         (mkWorld s' (stderr w)))
  end.
Proof.
  intros Hget. unfold callTool, Map_has. rewrite Hget. cbn [negb].
  destruct (tool_execute tool _ (handlerState w)) as [[result|error] s']; reflexivity.
Qed.

Lemma Map_has_get (tools : ToolMap S) (name : string) :
  Map_has name tools = true -> exists tool, Map_get name tools = Some tool.
Proof.
  unfold Map_has. destruct (Map_get name tools) as [tool|]; [|discriminate].
  now exists tool.
Qed.

End Dispatch.

(** C3: a call for a registered tool name settles in exactly one of two
    ways, fixed by what the tool's handler did.  When the handler returns,
    the call is fulfilled with the result as text content.  When the
    handler throws, the failure is caught and logged and the call is
    rejected with an [McpError] of code [InternalError] whose message is
    [Tool execution failed: ] followed by the failure's message.  The
    failure the handler threw is never what the call is rejected with. *)
Theorem dispatch_reclassifies_failures {S : Type} (rt : Runtime)
  (tools : ToolMap S) (name : string) (args : json) (w : World S) :
  Map_has name tools = true ->
  exists tool,
    Map_get name tools = Some tool /\
    callTool rt tools name args w =
    match tool_execute tool (orEmpty args) (handlerState w) with
    | (Return result, s') => (Fulfilled (textContent rt result), mkWorld s' (stderr w))
    | (Throw error, s') =>
        (Rejected (McpError InternalError ("Tool execution failed: " ++ err_message error)),
         logError ("Tool execution failed for " ++ dquote ++ name ++ dquote ++ ":") error
           (mkWorld s' (stderr w)))
    end /\
    forall error, fst (callTool rt tools name args w) <> Rejected (OtherError error).
Proof.
  intros Hhas. destruct (Map_has_get tools name Hhas) as [tool Hget].
  exists tool. split; [assumption|].
  rewrite (callTool_registered rt tools name tool args w Hget).
  split; [reflexivity|].
  intros error.
  destruct (tool_execute tool (orEmpty args) (handlerState w)) as [[result|e] s'];
    discriminate.
Qed.

Lemma dispatch_reclassifies_failures_witness :
  exists tool : Tool unit,
    Map_get "file_processor" (serverTools Sample.rt) = Some tool /\
    callTool Sample.rt (serverTools Sample.rt) "file_processor"
      (JObj [("path", JStr "/data/sample.txt")]) (mkWorld tt []) =
    match tool_execute tool (orEmpty (JObj [("path", JStr "/data/sample.txt")])) tt with
    | (Return result, s') => (Fulfilled (textContent Sample.rt result), mkWorld s' [])
    | (Throw error, s') =>
        (Rejected (McpError InternalError ("Tool execution failed: " ++ err_message error)),
         logError ("Tool execution failed for " ++ dquote ++ "file_processor" ++ dquote ++ ":")
           error (mkWorld s' []))
    end /\
    forall error,
      fst (callTool Sample.rt (serverTools Sample.rt) "file_processor"
             (JObj [("path", JStr "/data/sample.txt")]) (mkWorld tt []))
      <> Rejected (OtherError error).
Proof.
  apply (dispatch_reclassifies_failures Sample.rt (serverTools Sample.rt)
           "file_processor" (JObj [("path", JStr "/data/sample.txt")]) (mkWorld tt [])).
  reflexivity.
Defined.

(** C5: a call for a name that is not in the registry is rejected with an
    [McpError] of code [MethodNotFound]; the handlers' state and the error
    stream are left as they were, whatever the registered handlers would
    have done: none of them ran. *)
Theorem unknown_tool_method_not_found {S : Type} (rt : Runtime)
  (tools : ToolMap S) (name : string) (args : json) (w : World S) :
  Map_has name tools = false ->
  callTool rt tools name args w =
  (Rejected (McpError MethodNotFound ("Tool " ++ dquote ++ name ++ dquote ++ " not found")),
   w).
Proof.
  intros Hhas. unfold callTool. now rewrite Hhas.
Qed.

Lemma unknown_tool_method_not_found_witness :
  callTool Sample.rt (serverTools Sample.rt) "no_such_tool" (JObj []) (mkWorld tt []) =
  (Rejected (McpError MethodNotFound
               ("Tool " ++ dquote ++ "no_such_tool" ++ dquote ++ " not found")),
   mkWorld tt []).
Proof.
  apply (unknown_tool_method_not_found Sample.rt (serverTools Sample.rt)
           "no_such_tool" (JObj []) (mkWorld tt [])).
  reflexivity.
Defined.

(** The tool map a constructed server ends up with. *)
Lemma server_tools_registered {S : Type} (rt : Runtime) (w : World S) :
  fst (newExtensionServer rt w) = Return (serverTools rt).
Proof.
  unfold newExtensionServer, registerAllTools. cbn.
  unfold logInfo. destruct (isLoggingEnabled rt); reflexivity.
Qed.

(** C2, on the code: [file_processor] called without its required field
    [operation].  [execute] runs [inputSchema.parse] before its [try]
    block, so the [ZodError] leaves [execute]: no envelope with
    [success: false] is returned.  The dispatcher catches it and rejects
    the call with code [InternalError]; no validation classification
    appears.  The issue does name the field, and the handler proper
    ([perform]) is not reached. *)
Theorem missing_required_field_throws (rt : Runtime) (w : World unit) :
  let args := JObj [("path", JStr "/data/sample.txt")] in
  let issues := [Zod.invalidType "'read' | 'list' | 'search' | 'stats'" JUndefined
                   ["operation"]] in
  FileProcessor.inputSchema args = Zod.Invalid issues /\
  FileProcessor.execute rt args = Throw (Zod.ZodError (JSON_stringify rt) issues) /\
  callTool rt (serverTools rt) "file_processor" args w =
  (Rejected (McpError InternalError
               ("Tool execution failed: " ++
                JSON_stringify rt (JArr (map Zod.issueJson issues)))),
   logError ("Tool execution failed for " ++ dquote ++ "file_processor" ++ dquote ++ ":")
     (Zod.ZodError (JSON_stringify rt) issues) w).
Proof.
  cbv zeta. repeat split; reflexivity.
Qed.

(** ** The file tool *)

Lemma file_execute_valid (rt : Runtime) (args : json) (a : FileProcessor.Args) :
  FileProcessor.inputSchema args = Zod.Valid a ->
  FileProcessor.execute rt args =
  match FileProcessor.perform rt a with
  | Return result =>
      Return (JObj (Obj.spread [("success", JBool true);
                                ("timestamp", JStr (date_now_iso rt))] result))
  | Throw error => Return (FileProcessor.failure rt a error)
  end.
Proof.
  intros Hv. unfold FileProcessor.execute. rewrite Hv. cbn [Zod.parse bind].
  destruct (FileProcessor.perform rt a); reflexivity.
Qed.

(** C4: for an allowed path that [fs.stat] reports as missing ([ENOENT]),
    a valid [stats] request is answered with a success envelope saying
    [exists: false], and a valid [read] request with a failure envelope
    carrying the message and the code of the [fs.stat] failure. *)
Theorem stats_reports_absence_read_fails (rt : Runtime) (p : string)
  (error : JsError) (statsArgs readArgs : json) (sa ra : FileProcessor.Args) :
  FileProcessor.isPathAllowed rt p = true ->
  fs_stat rt p = Throw error ->
  err_code error = JStr "ENOENT" ->
  FileProcessor.inputSchema statsArgs = Zod.Valid sa ->
  FileProcessor.operation sa = "stats" -> FileProcessor.path sa = p ->
  FileProcessor.inputSchema readArgs = Zod.Valid ra ->
  FileProcessor.operation ra = "read" -> FileProcessor.path ra = p ->
  FileProcessor.execute rt statsArgs =
    Return (JObj [("success", JBool true);
                  ("timestamp", JStr (date_now_iso rt));
                  ("operation", JStr "stats");
                  ("path", JStr p);
                  ("exists", JBool false);
                  ("error", JStr "File or directory not found")]) /\
  FileProcessor.execute rt readArgs =
    Return (JObj [("success", JBool false);
                  ("operation", JStr "read");
                  ("path", JStr p);
                  ("error", JObj [("message", JStr (err_message error));
                                  ("code", JStr "ENOENT")]);
                  ("timestamp", JStr (date_now_iso rt))]).
Proof.
  intros Hg Hstat Hcode Hs Hsop Hsp Hr Hrop Hrp. split.
  - rewrite (file_execute_valid rt statsArgs sa Hs).
    unfold FileProcessor.perform. rewrite Hsop, Hsp.
    cbn [String.eqb Ascii.eqb Bool.eqb andb].
    unfold FileProcessor.getStats. rewrite Hg, Hstat. cbn [negb bind try_catch].
    unfold isENOENT. rewrite Hcode. reflexivity.
  - rewrite (file_execute_valid rt readArgs ra Hr).
    unfold FileProcessor.perform. rewrite Hrop, Hrp.
    cbn [String.eqb Ascii.eqb Bool.eqb andb].
    unfold FileProcessor.readFile. rewrite Hg, Hstat. cbn [negb bind].
    unfold FileProcessor.failure. now rewrite Hrop, Hrp, Hcode.
Qed.

Lemma stats_reports_absence_read_fails_witness :
  FileProcessor.execute Sample.rt
    (JObj [("operation", JStr "stats"); ("path", JStr "/data/nonexistent.txt")]) =
    Return (JObj [("success", JBool true);
                  ("timestamp", JStr (date_now_iso Sample.rt));
                  ("operation", JStr "stats");
                  ("path", JStr "/data/nonexistent.txt");
                  ("exists", JBool false);
                  ("error", JStr "File or directory not found")]) /\
  FileProcessor.execute Sample.rt
    (JObj [("operation", JStr "read"); ("path", JStr "/data/nonexistent.txt")]) =
    Return (JObj [("success", JBool false);
                  ("operation", JStr "read");
                  ("path", JStr "/data/nonexistent.txt");
                  ("error",
                    JObj [("message",
                            JStr (err_message (Sample.enoent "stat" "/data/nonexistent.txt")));
                          ("code", JStr "ENOENT")]);
                  ("timestamp", JStr (date_now_iso Sample.rt))]).
Proof.
  apply (stats_reports_absence_read_fails Sample.rt "/data/nonexistent.txt"
           (Sample.enoent "stat" "/data/nonexistent.txt") _ _
           (FileProcessor.mkArgs "stats" "/data/nonexistent.txt" None false
              (inject_Z (1024 * 1024)) "utf8")
           (FileProcessor.mkArgs "read" "/data/nonexistent.txt" None false
              (inject_Z (1024 * 1024)) "utf8"));
    reflexivity.
Defined.

Lemma exceedsMessage_includes (size : Z) (maxSize : Q) :
  JsString.includes (exceedsMessage size maxSize) "exceeds maximum" = true.
Proof.
  unfold exceedsMessage.
  set (a := formatSize (inject_Z size)). set (b := formatSize maxSize).
  replace ("File size (" ++ a ++ ") exceeds maximum allowed size (" ++ b ++ ")")
    with (("File size (" ++ a ++ ") ") ++ "exceeds maximum" ++ (" allowed size (" ++ b ++ ")")).
  - apply includes_append.
  - rewrite !append_assoc. reflexivity.
Qed.

(** C7: a valid [read] request for an allowed, existing regular file whose
    size is greater than [max_size] is answered with a failure envelope
    whose message contains [exceeds maximum]; the envelope has no
    [content].  When the request gives no [max_size], the limit is
    1,048,576. *)
Theorem oversized_read_is_refused (rt : Runtime) (args : json)
  (a : FileProcessor.Args) (stats : Stats) :
  FileProcessor.inputSchema args = Zod.Valid a ->
  FileProcessor.operation a = "read" ->
  FileProcessor.isPathAllowed rt (FileProcessor.path a) = true ->
  fs_stat rt (FileProcessor.path a) = Return stats ->
  st_isFile stats = true ->
  (FileProcessor.max_size a < inject_Z (st_size stats))%Q ->
  let message := exceedsMessage (st_size stats) (FileProcessor.max_size a) in
  let envelope :=
    JObj [("success", JBool false);
          ("operation", JStr "read");
          ("path", JStr (FileProcessor.path a));
          ("error", JObj [("message", JStr message); ("code", JUndefined)]);
          ("timestamp", JStr (date_now_iso rt))] in
  (field "max_size" args = JUndefined -> FileProcessor.max_size a = inject_Z 1048576) /\
  FileProcessor.execute rt args = Return envelope /\
  JsString.includes message "exceeds maximum" = true /\
  field "success" envelope = JBool false /\
  field "content" envelope = JUndefined.
Proof.
  intros Hv Hop Hg Hstat Hfile Hsize message envelope. split; [|split; [|split]].
  - destruct (file_args_valid args a Hv) as [o [-> [_ [_ Hm]]]].
    cbn [field]. intros Hu. rewrite Hu in Hm. cbn in Hm. now inversion Hm.
  - rewrite (file_execute_valid rt args a Hv).
    unfold FileProcessor.perform. rewrite Hop.
    cbn [String.eqb Ascii.eqb Bool.eqb andb].
    unfold FileProcessor.readFile. rewrite Hg, Hstat. cbn [negb bind].
    rewrite Hfile. cbn [negb].
    destruct (Qle_bool (inject_Z (st_size stats)) (FileProcessor.max_size a)) eqn:E.
    + apply Qle_bool_iff in E. now apply Qle_not_lt in E.
    + cbn [negb]. unfold FileProcessor.failure. now rewrite Hop.
  - apply exceedsMessage_includes.
  - split; reflexivity.
Qed.

Lemma oversized_read_is_refused_witness :
  let message := exceedsMessage 2097152 (inject_Z 1048576) in
  let envelope :=
    JObj [("success", JBool false);
          ("operation", JStr "read");
          ("path", JStr "/data/big.bin");
          ("error", JObj [("message", JStr message); ("code", JUndefined)]);
          ("timestamp", JStr (date_now_iso Sample.rt))] in
  FileProcessor.execute Sample.rt
    (JObj [("operation", JStr "read"); ("path", JStr "/data/big.bin")]) = Return envelope /\
  JsString.includes message "exceeds maximum" = true /\
  field "content" envelope = JUndefined.
Proof.
  destruct (oversized_read_is_refused Sample.rt
              (JObj [("operation", JStr "read"); ("path", JStr "/data/big.bin")])
              (FileProcessor.mkArgs "read" "/data/big.bin" None false
                 (inject_Z 1048576) "utf8")
              (Sample.fileStats 2097152)
              eq_refl eq_refl eq_refl eq_refl eq_refl eq_refl)
    as [_ [H2 [H3 [_ H5]]]].
  cbv zeta. split; [exact H2 | split; [exact H3 | exact H5]].
Defined.

(** ** The system information tool *)

(** C10: [system_info] called with an empty argument object succeeds.
    Its schema supplies [category = "overview"] and [detailed = false], the
    tool declares no required field, and the success envelope carries both
    values back.  The same holds through the dispatcher, with an empty
    object or no arguments at all. *)
Theorem system_info_defaults (rt : Runtime) (w : World unit) :
  let envelope :=
    JObj [("success", JBool true);
          ("category", JStr "overview");
          ("detailed", JBool false);
          ("data", JObj (SystemInfo.overview rt));
          ("timestamp", JStr (date_now_iso rt));
          ("collected_in_ms", num 0)] in
  SystemInfo.inputSchema (JObj []) = Zod.Valid (SystemInfo.mkArgs "overview" false) /\
  field "required" (tool_inputSchema (systemInfoTool (S:=unit) rt)) = JArr [] /\
  SystemInfo.execute rt (JObj []) = Return envelope /\
  callTool rt (serverTools rt) "system_info" (JObj []) w =
    (Fulfilled (textContent rt envelope), w) /\
  callTool rt (serverTools rt) "system_info" JUndefined w =
    (Fulfilled (textContent rt envelope), w).
Proof.
  cbv zeta. repeat split; try reflexivity; destruct w; reflexivity.
Qed.

(** ** Directory traversal *)

Section Traversal.

Variable rt : Runtime.

Lemma listEntries_total recurse dirPath recursive cur depth entries results :
  (recursive = true -> forall p, recurse p (S depth) <> None) ->
  FileProcessor.listEntries rt recurse dirPath recursive cur depth entries results
  <> None.
Proof.
  intros Hrec. revert results.
  induction entries as [|e rest IH]; intros results; cbn; [discriminate|].
  destruct (d_isDirectory e).
  - destruct recursive; [|apply IH].
    specialize (Hrec eq_refl (Path.join cur (d_name e))).
    destruct (recurse _ _) as [[sub|err]|]; [apply IH | discriminate | contradiction].
  - destruct (d_isFile e); apply IH.
Qed.

Lemma listRecursive_total dirPath recursive fuel : forall cur depth,
  (0 < fuel)%nat -> (12 <= fuel + depth)%nat ->
  FileProcessor.listRecursive rt fuel dirPath recursive cur depth <> None.
Proof.
  induction fuel as [|fuel IH]; intros cur depth Hpos Hsum; [lia|].
  cbn [FileProcessor.listRecursive].
  destruct (10 <? depth)%nat eqn:E; [discriminate|].
  apply Nat.ltb_ge in E.
  destruct (fs_readdir rt cur); [|discriminate].
  apply listEntries_total. intros _ p. apply IH; lia.
Qed.

Lemma searchEntries_total recurse regex sp recursive cur depth entries ms :
  ((depth < 10)%nat -> forall p m, recurse p (S depth) m <> None) ->
  FileProcessor.searchEntries rt recurse regex sp recursive cur depth entries ms
  <> None.
Proof.
  intros Hrec. revert ms.
  induction entries as [|e rest IH]; intros ms;
    cbn [FileProcessor.searchEntries]; [discriminate|].
  destruct (d_isDirectory e && recursive && (depth <? 10)%nat) eqn:E; [|apply IH].
  apply andb_true_iff in E as [_ E]. apply Nat.ltb_lt in E.
  match goal with |- context [recurse ?p ?d ?m] =>
    specialize (Hrec E p m); destruct (recurse p d m) end;
    [apply IH | contradiction].
Qed.

Lemma searchRecursive_total regex sp recursive fuel : forall cur depth ms,
  (0 < fuel)%nat -> (12 <= fuel + depth)%nat ->
  FileProcessor.searchRecursive rt fuel regex sp recursive cur depth ms <> None.
Proof.
  induction fuel as [|fuel IH]; intros cur depth ms Hpos Hsum; [lia|].
  cbn [FileProcessor.searchRecursive].
  destruct (10 <? depth)%nat eqn:E; [discriminate|].
  apply Nat.ltb_ge in E.
  destruct (fs_readdir rt cur); [|discriminate].
  apply searchEntries_total. intros _ p m. apply IH; lia.
Qed.

(** Listing below depth 10 *)

Lemma listEntries_deep recurse dirPath cur depth entries results :
  (forall p, recurse p (S depth) = Some (Throw maxDepthError)) ->
  existsb d_isDirectory entries = true ->
  FileProcessor.listEntries rt recurse dirPath true cur depth entries results
  = Some (Throw maxDepthError).
Proof.
  intros Hrec. revert results.
  induction entries as [|e rest IH]; intros results Hdir; [discriminate Hdir|].
  cbn in *. destruct (d_isDirectory e).
  - now rewrite Hrec.
  - destruct (d_isFile e); now apply IH.
Qed.

Lemma listRecursive_too_deep dirPath recursive fuel cur depth :
  (10 < depth)%nat ->
  FileProcessor.listRecursive rt (S fuel) dirPath recursive cur depth
  = Some (Throw maxDepthError).
Proof.
  intros H. cbn [FileProcessor.listRecursive].
  apply Nat.ltb_lt in H. now rewrite H.
Qed.

Lemma listRecursive_at_depth_10 dirPath fuel cur entries :
  fs_readdir rt cur = Return entries ->
  existsb d_isDirectory entries = true ->
  FileProcessor.listRecursive rt (S (S fuel)) dirPath true cur 10
  = Some (Throw maxDepthError).
Proof.
  intros Hread Hdir. cbn [FileProcessor.listRecursive].
  change (10 <? 10)%nat with false. cbv iota.
  rewrite Hread. apply listEntries_deep; [|assumption].
  intros p. apply listRecursive_too_deep. lia.
Qed.

Lemma shallow_dirInfo recursive entry rel depth :
  (depth <= 10)%nat -> (recursive = true -> (depth < 10)%nat) ->
  shallow recursive (FileProcessor.dirInfo entry rel depth).
Proof. intros H1 H2. exists depth. repeat split; auto. Qed.

Lemma shallow_fileInfo recursive entry rel full depth :
  (depth <= 10)%nat ->
  shallow recursive (FileProcessor.fileInfo rt entry rel full depth).
Proof.
  intros H. exists depth. unfold FileProcessor.fileInfo.
  destruct (fs_stat rt full); repeat split; auto; discriminate.
Qed.

Lemma listEntries_shallow recurse dirPath recursive cur depth entries :
  (depth <= 10)%nat ->
  (forall p es, recurse p (S depth) = Some (Return es) ->
                (S depth <= 10)%nat /\ Forall (shallow recursive) es) ->
  forall results es,
    Forall (shallow recursive) results ->
    FileProcessor.listEntries rt recurse dirPath recursive cur depth entries results
    = Some (Return es) ->
    Forall (shallow recursive) es.
Proof.
  intros Hd Hrec.
  induction entries as [|e rest IH]; intros results es Hres H; cbn in H.
  - now inversion H; subst.
  - destruct (d_isDirectory e).
    + destruct recursive eqn:R.
      * destruct (recurse _ _) as [[sub|err]|] eqn:Ec; try discriminate H.
        destruct (Hrec _ _ Ec) as [Hlt Hsub].
        apply (IH _ _) in H; [assumption|].
        apply Forall_app. split; [|assumption].
        apply Forall_app. split; [assumption|].
        constructor; [|constructor]. apply shallow_dirInfo; [assumption | lia].
      * apply (IH _ _) in H; [assumption|].
        apply Forall_app. split; [assumption|].
        constructor; [|constructor]. apply shallow_dirInfo; [assumption | discriminate].
    + destruct (d_isFile e).
      * apply (IH _ _) in H; [assumption|].
        apply Forall_app. split; [assumption|].
        constructor; [|constructor]. now apply shallow_fileInfo.
      * now apply (IH _ _) in H.
Qed.

Lemma listRecursive_shallow dirPath recursive fuel : forall cur depth es,
  FileProcessor.listRecursive rt fuel dirPath recursive cur depth = Some (Return es) ->
  (depth <= 10)%nat /\ Forall (shallow recursive) es.
Proof.
  induction fuel as [|fuel IH]; intros cur depth es H; [discriminate H|].
  cbn [FileProcessor.listRecursive] in H.
  destruct (10 <? depth)%nat eqn:E; [discriminate H|].
  apply Nat.ltb_ge in E. split; [assumption|].
  destruct (fs_readdir rt cur) as [entries|]; [|discriminate H].
  eapply listEntries_shallow; [exact E | | constructor | exact H].
  intros p es' Hp. now apply IH in Hp.
Qed.

(** Searching *)

Lemma depthAtMost_matchInfo entry rel full depth :
  (depth <= 10)%nat -> depthAtMost 10 (FileProcessor.matchInfo rt entry rel full depth).
Proof.
  intros H. exists depth. unfold FileProcessor.matchInfo.
  destruct (fs_stat rt full); split; auto.
Qed.

Lemma searchEntries_bounded recurse regex sp recursive cur depth entries :
  (depth <= 10)%nat ->
  (forall p m m', Forall (depthAtMost 10) m -> recurse p (S depth) m = Some m' ->
                  Forall (depthAtMost 10) m') ->
  forall ms ms',
    Forall (depthAtMost 10) ms ->
    FileProcessor.searchEntries rt recurse regex sp recursive cur depth entries ms
    = Some ms' ->
    Forall (depthAtMost 10) ms'.
Proof.
  intros Hd Hrec.
  induction entries as [|e rest IH]; intros ms ms' Hms H;
    cbn [FileProcessor.searchEntries] in H.
  - now inversion H; subst.
  - assert (H1 : Forall (depthAtMost 10)
                   (if regex (d_name e)
                    then (ms ++ [FileProcessor.matchInfo rt e
                                   (Path.relative (process_cwd rt) sp
                                      (Path.join cur (d_name e)))
                                   (Path.join cur (d_name e)) depth])%list
                    else ms)).
    { destruct (regex (d_name e)); [|assumption].
      apply Forall_app. split; [assumption|].
      constructor; [|constructor]. now apply depthAtMost_matchInfo. }
    destruct (d_isDirectory e && recursive && (depth <? 10)%nat).
    + destruct (recurse _ _ _) as [m2|] eqn:Ec; [|discriminate H].
      apply (IH _ _) in H; [assumption|].
      eapply Hrec; [exact H1 | exact Ec].
    + now apply (IH _ _) in H.
Qed.

Lemma searchRecursive_bounded regex sp recursive fuel : forall cur depth ms ms',
  Forall (depthAtMost 10) ms ->
  FileProcessor.searchRecursive rt fuel regex sp recursive cur depth ms = Some ms' ->
  Forall (depthAtMost 10) ms'.
Proof.
  induction fuel as [|fuel IH]; intros cur depth ms ms' Hms H; [discriminate H|].
  cbn [FileProcessor.searchRecursive] in H.
  destruct (10 <? depth)%nat eqn:E; [now inversion H; subst|].
  apply Nat.ltb_ge in E.
  destruct (fs_readdir rt cur) as [entries|]; [|now inversion H; subst].
  eapply searchEntries_bounded; [exact E | | exact Hms | exact H].
  intros p m m' Hm Hp. now apply (IH _ _ _ _ Hm Hp).
Qed.

Lemma searchEntries_at_depth_10 recurse regex sp recursive cur entries : forall ms,
  FileProcessor.searchEntries rt recurse regex sp recursive cur 10 entries ms
  = Some (ms ++ ownMatches rt regex sp cur 10 entries)%list.
Proof.
  induction entries as [|e rest IH]; intros ms;
    cbn [FileProcessor.searchEntries ownMatches flat_map].
  - now rewrite app_nil_r.
  - change (10 <? 10)%nat with false. rewrite andb_false_r, IH.
    unfold ownMatches.
    destruct (regex (d_name e)); [|reflexivity].
    now rewrite <- app_assoc.
Qed.

Lemma searchRecursive_at_depth_10 regex sp recursive fuel cur ms :
  FileProcessor.searchRecursive rt (S fuel) regex sp recursive cur 10 ms
  = Some match fs_readdir rt cur with
         | Return entries => (ms ++ ownMatches rt regex sp cur 10 entries)%list
         | Throw _ => ms
         end.
Proof.
  cbn [FileProcessor.searchRecursive].
  change (10 <? 10)%nat with false. cbv iota.
  destruct (fs_readdir rt cur); [apply searchEntries_at_depth_10 | reflexivity].
Qed.

End Traversal.

Lemma file_list_depth_failure (rt : Runtime) (args : json) (a : FileProcessor.Args)
  (stats : Stats) :
  FileProcessor.inputSchema args = Zod.Valid a ->
  FileProcessor.operation a = "list" ->
  FileProcessor.isPathAllowed rt (FileProcessor.path a) = true ->
  fs_stat rt (FileProcessor.path a) = Return stats ->
  st_isDirectory stats = true ->
  FileProcessor.listRecursive rt traversalFuel (FileProcessor.path a)
    (FileProcessor.recursive a) (FileProcessor.path a) 0 = Some (Throw maxDepthError) ->
  FileProcessor.execute rt args = Return (FileProcessor.failure rt a maxDepthError).
Proof.
  intros Hv Hop Hg Hstat Hdir Hlist.
  rewrite (file_execute_valid rt args a Hv).
  unfold FileProcessor.perform. rewrite Hop.
  cbn [String.eqb Ascii.eqb Bool.eqb andb].
  unfold FileProcessor.listDirectory.
  rewrite Hg, Hstat. cbn [negb bind]. rewrite Hdir, Hlist. reflexivity.
Qed.

Lemma file_search_succeeds (rt : Runtime) (args : json) (a : FileProcessor.Args)
  (p : string) (regex : string -> bool) :
  FileProcessor.inputSchema args = Zod.Valid a ->
  FileProcessor.operation a = "search" ->
  FileProcessor.pattern a = Some p -> p <> "" ->
  FileProcessor.isPathAllowed rt (FileProcessor.path a) = true ->
  RegExp_i rt p = Return regex ->
  exists matches,
    FileProcessor.searchRecursive rt traversalFuel regex (FileProcessor.path a)
      (FileProcessor.recursive a) (FileProcessor.path a) 0 [] = Some matches /\
    Forall (depthAtMost 10) matches /\
    FileProcessor.execute rt args =
    Return (JObj [("success", JBool true);
                  ("timestamp", JStr (date_now_iso rt));
                  ("operation", JStr "search");
                  ("path", JStr (FileProcessor.path a));
                  ("pattern", JStr p);
                  ("recursive", JBool (FileProcessor.recursive a));
                  ("matches", JArr matches);
                  ("count", natnum (List.length matches))]).
Proof.
  intros Hv Hop Hpat Hp Hg Hre.
  destruct (FileProcessor.searchRecursive rt traversalFuel regex (FileProcessor.path a)
              (FileProcessor.recursive a) (FileProcessor.path a) 0 [])
    as [matches|] eqn:Es.
  - exists matches. split; [reflexivity|]. split.
    + eapply searchRecursive_bounded; [constructor | exact Es].
    + rewrite (file_execute_valid rt args a Hv).
      unfold FileProcessor.perform. rewrite Hop, Hpat.
      cbn [String.eqb Ascii.eqb Bool.eqb andb].
      apply String.eqb_neq in Hp. unfold JsString.truthy. rewrite Hp. cbn [negb].
      unfold FileProcessor.searchFiles. rewrite Hg, Hre. cbn [negb bind].
      rewrite Es. reflexivity.
  - exfalso. revert Es. apply searchRecursive_total; unfold traversalFuel; lia.
Qed.

(** C9: both traversals of the file tool stop at nesting depth 10, on any
    directory tree, however deep.  Started at depth 0 with the fuel of
    twelve calls, neither runs out of fuel.  A listing that returns holds
    entries of depth at most 10 only, and a recursive one no directory at
    depth 10; in a directory at depth 10 that holds a directory, a
    recursive listing fails with [Maximum directory depth exceeded], and
    the [list] operation whose traversal fails so answers with that failure.
    A search at depth 10 pushes the matches of that directory and goes no
    deeper; every match has depth at most 10, and the [search] operation
    answers with a success envelope holding the matches found. *)
Theorem traversal_depth_bounded (rt : Runtime) (root : string) (recursive : bool)
  (regex : string -> bool) :
  (forall cur,
     FileProcessor.listRecursive rt traversalFuel root recursive cur 0 <> None) /\
  (forall cur ms,
     FileProcessor.searchRecursive rt traversalFuel regex root recursive cur 0 ms
     <> None) /\
  (forall es,
     FileProcessor.listRecursive rt traversalFuel root recursive root 0
     = Some (Return es) ->
     Forall (shallow recursive) es) /\
  (forall fuel cur entries,
     fs_readdir rt cur = Return entries ->
     existsb d_isDirectory entries = true ->
     FileProcessor.listRecursive rt (S (S fuel)) root true cur 10
     = Some (Throw maxDepthError)) /\
  (forall args a stats,
     FileProcessor.inputSchema args = Zod.Valid a ->
     FileProcessor.operation a = "list" ->
     FileProcessor.isPathAllowed rt (FileProcessor.path a) = true ->
     fs_stat rt (FileProcessor.path a) = Return stats ->
     st_isDirectory stats = true ->
     FileProcessor.listRecursive rt traversalFuel (FileProcessor.path a)
       (FileProcessor.recursive a) (FileProcessor.path a) 0
     = Some (Throw maxDepthError) ->
     FileProcessor.execute rt args =
     Return (JObj [("success", JBool false);
                   ("operation", JStr "list");
                   ("path", JStr (FileProcessor.path a));
                   ("error",
                     JObj [("message", JStr "Maximum directory depth exceeded");
                           ("code", JUndefined)]);
                   ("timestamp", JStr (date_now_iso rt))])) /\
  (forall fuel cur ms,
     FileProcessor.searchRecursive rt (S fuel) regex root recursive cur 10 ms
     = Some match fs_readdir rt cur with
            | Return entries => (ms ++ ownMatches rt regex root cur 10 entries)%list
            | Throw _ => ms
            end) /\
  (forall args a p,
     FileProcessor.inputSchema args = Zod.Valid a ->
     FileProcessor.operation a = "search" ->
     FileProcessor.pattern a = Some p -> p <> "" ->
     FileProcessor.isPathAllowed rt (FileProcessor.path a) = true ->
     RegExp_i rt p = Return regex ->
     exists matches,
       FileProcessor.searchRecursive rt traversalFuel regex (FileProcessor.path a)
         (FileProcessor.recursive a) (FileProcessor.path a) 0 [] = Some matches /\
       Forall (depthAtMost 10) matches /\
       FileProcessor.execute rt args =
       Return (JObj [("success", JBool true);
                     ("timestamp", JStr (date_now_iso rt));
                     ("operation", JStr "search");
                     ("path", JStr (FileProcessor.path a));
                     ("pattern", JStr p);
                     ("recursive", JBool (FileProcessor.recursive a));
                     ("matches", JArr matches);
                     ("count", natnum (List.length matches))])).
Proof.
  repeat apply conj.
  - intros cur. apply listRecursive_total; unfold traversalFuel; lia.
  - intros cur ms. apply searchRecursive_total; unfold traversalFuel; lia.
  - intros es H. now apply listRecursive_shallow in H.
  - intros fuel cur entries. apply listRecursive_at_depth_10.
  - intros args a stats Hv Hop Hg Hstat Hdir Hlist.
    rewrite (file_list_depth_failure rt args a stats Hv Hop Hg Hstat Hdir Hlist).
    unfold FileProcessor.failure. now rewrite Hop.
  - intros fuel cur ms. apply searchRecursive_at_depth_10.
  - intros args a p. apply file_search_succeeds.
Qed.

Lemma traversal_depth_bounded_witness :
  FileProcessor.listRecursive Sample.rtEndless 2 "/data" true "/data/d/d/d/d/d/d/d/d/d/d" 10
    = Some (Throw maxDepthError) /\
  FileProcessor.execute Sample.rtEndless
    (JObj [("operation", JStr "list"); ("path", JStr "/data"); ("recursive", JBool true)]) =
    Return (JObj [("success", JBool false);
                  ("operation", JStr "list");
                  ("path", JStr "/data");
                  ("error",
                    JObj [("message", JStr "Maximum directory depth exceeded");
                          ("code", JUndefined)]);
                  ("timestamp", JStr (date_now_iso Sample.rtEndless))]) /\
  exists matches,
    FileProcessor.searchRecursive Sample.rtEndless traversalFuel
      (fun name => JsString.includes name "d") "/data" true "/data" 0 [] = Some matches /\
    Forall (depthAtMost 10) matches /\
    FileProcessor.execute Sample.rtEndless
      (JObj [("operation", JStr "search"); ("path", JStr "/data");
             ("pattern", JStr "d"); ("recursive", JBool true)]) =
    Return (JObj [("success", JBool true);
                  ("timestamp", JStr (date_now_iso Sample.rtEndless));
                  ("operation", JStr "search");
                  ("path", JStr "/data");
                  ("pattern", JStr "d");
                  ("recursive", JBool true);
                  ("matches", JArr matches);
                  ("count", natnum (List.length matches))]).
Proof.
  destruct (traversal_depth_bounded Sample.rtEndless "/data" true
              (fun name => JsString.includes name "d"))
    as [_ [_ [_ [H4 [H5 [_ H7]]]]]].
  split; [|split].
  - apply (H4 0%nat _ [mkDirent "d" true false]); reflexivity.
  - apply (H5 _ (FileProcessor.mkArgs "list" "/data" None true
                   (inject_Z (1024 * 1024)) "utf8") Sample.dirStats);
      reflexivity.
  - apply (H7 _ (FileProcessor.mkArgs "search" "/data" (Some "d") true
                   (inject_Z (1024 * 1024)) "utf8") "d");
      try reflexivity. discriminate.
Defined.

(** * Further properties of the sources *)

(** ** The allow-list *)

Lemma allowedPaths_comma (v w : string) :
  v <> "" -> w <> "" ->
  allowedPaths (Some (v ++ "," ++ w)) =
  (allowedPaths (Some v) ++ allowedPaths (Some w))%list.
Proof.
  intros Hv Hw. unfold allowedPaths, JsString.truthy.
  apply String.eqb_neq in Hv. apply String.eqb_neq in Hw. rewrite Hv, Hw.
  destruct (String.eqb (v ++ "," ++ w) "") eqn:E.
  - apply String.eqb_eq in E. destruct v; discriminate E.
  - cbn [negb]. apply (split_append ","%char v w).
Qed.

(** X1: [ALLOWED_PATHS] is read as a union.  A path is admitted under the
    list [v,w] exactly when it is admitted under [v] or under [w]. *)
Theorem allow_list_is_a_union (v w cwd p : string) :
  v <> "" -> w <> "" ->
  isPathAllowed (Some (v ++ "," ++ w)) cwd p =
  isPathAllowed (Some v) cwd p || isPathAllowed (Some w) cwd p.
Proof.
  intros Hv Hw. unfold isPathAllowed. cbv zeta.
  rewrite (allowedPaths_comma v w Hv Hw). apply existsb_app.
Qed.

Lemma allow_list_is_a_union_witness :
  isPathAllowed (Some ("/data" ++ "," ++ "/srv")) "/home/user" "/srv/x" =
  isPathAllowed (Some "/data") "/home/user" "/srv/x" ||
  isPathAllowed (Some "/srv") "/home/user" "/srv/x".
Proof.
  apply (allow_list_is_a_union "/data" "/srv" "/home/user" "/srv/x"); discriminate.
Defined.

Lemma fold_push (segs T : list string) :
  Forall (fun s => s <> "..") segs ->
  exists pushed, fold_left (Path.step false) segs T = (pushed ++ T)%list.
Proof.
  revert T. induction segs as [|seg segs IH]; intros T H.
  - now exists [].
  - inversion H as [|? ? Hseg Hrest]; subst. cbn [fold_left].
    apply String.eqb_neq in Hseg. unfold Path.step at 2. rewrite Hseg.
    destruct (String.eqb seg "" || String.eqb seg ".").
    + apply IH, Hrest.
    + destruct (IH (seg :: T) Hrest) as [pushed Hp].
      exists (pushed ++ [seg])%list. rewrite Hp. now rewrite <- app_assoc.
Qed.

(** Below a path, without [".."], one stays below what it resolves to. *)
Lemma resolve_descendant (cwd t q : string) :
  Path.isAbsolute cwd = true -> t <> "" ->
  Forall (fun s => s <> "..") (JsString.split Path.sep q) ->
  String.prefix (Path.resolve cwd t) (Path.resolve cwd (t ++ "/" ++ q)) = true.
Proof.
  intros Hcwd Ht Hq.
  rewrite !resolve_absolute by (assumption || now destruct t).
  assert (Ea : anchor cwd (t ++ "/" ++ q) = anchor cwd t).
  { unfold anchor. destruct t; [contradiction | reflexivity]. }
  rewrite Ea, !split_slash_end.
  rewrite <- (append_assoc (anchor cwd t) t ("/" ++ q)).
  change ("/" ++ q) with (String Path.sep q).
  rewrite split_append.
  unfold Path.normalizeSegments. rewrite !fold_left_app.
  set (T := fold_left (Path.step false) (JsString.split Path.sep (anchor cwd t ++ t)) []).
  destruct (fold_push (JsString.split Path.sep q) T Hq) as [pushed Hp].
  rewrite Hp. cbn [fold_left]. rewrite !step_empty, rev_app_distr.
  apply render_prefix_app.
Qed.

(** X2: whatever lies below an allow-list entry is admitted.  For an entry
    [e] of the list that is not blank, every candidate written as the
    trimmed entry, a separator and a path without [".."] segments is
    admitted. *)
Theorem descendant_is_admitted (env : option string) (cwd e q : string) :
  In e (allowedPaths env) -> JsString.trim e <> "" ->
  Path.isAbsolute cwd = true ->
  Forall (fun s => s <> "..") (JsString.split Path.sep q) ->
  isPathAllowed env cwd (JsString.trim e ++ "/" ++ q) = true.
Proof.
  intros Hin Ht Hcwd Hq. unfold isPathAllowed. cbv zeta.
  apply existsb_exists. exists e. split; [assumption|].
  now apply resolve_descendant.
Qed.

Lemma descendant_is_admitted_witness :
  isPathAllowed (Some "/data, /srv/files") "/home/user"
    (JsString.trim " /srv/files" ++ "/" ++ "a/./b.txt") = true.
Proof.
  apply (descendant_is_admitted (Some "/data, /srv/files") "/home/user"
           " /srv/files" "a/./b.txt").
  - right. left. reflexivity.
  - discriminate.
  - reflexivity.
  - repeat constructor; discriminate.
Defined.

Lemma resolve_empty (cwd : string) :
  Path.isAbsolute cwd = true -> Path.resolve cwd "" = Path.resolve cwd cwd.
Proof.
  intros H. unfold Path.resolve.
  destruct cwd as [|c cwd]; [discriminate H|].
  cbn [String.eqb fst snd]. now rewrite H.
Qed.

(** X3: a blank entry of [ALLOWED_PATHS], as a trailing comma leaves one,
    stands for the working directory: [path.resolve('')] is the working
    directory, so everything below it is admitted. *)
Theorem blank_entry_admits_working_directory (env : option string) (cwd e q : string) :
  In e (allowedPaths env) -> JsString.trim e = "" ->
  Path.isAbsolute cwd = true ->
  Forall (fun s => s <> "..") (JsString.split Path.sep q) ->
  isPathAllowed env cwd cwd = true /\
  isPathAllowed env cwd (cwd ++ "/" ++ q) = true.
Proof.
  intros Hin Ht Hcwd Hq. unfold isPathAllowed. cbv zeta. split.
  - apply existsb_exists. exists e. split; [assumption|].
    rewrite Ht, (resolve_empty cwd Hcwd). apply prefix_refl.
  - apply existsb_exists. exists e. split; [assumption|].
    rewrite Ht, (resolve_empty cwd Hcwd).
    apply resolve_descendant; [assumption | now destruct cwd | assumption].
Qed.

Lemma blank_entry_admits_working_directory_witness :
  isPathAllowed (Some "/data,") "/home/user" "/home/user" = true /\
  isPathAllowed (Some "/data,") "/home/user" ("/home/user" ++ "/" ++ ".ssh/id_rsa") = true.
Proof.
  apply (blank_entry_admits_working_directory (Some "/data,") "/home/user" ""
           ".ssh/id_rsa").
  - right. left. reflexivity.
  - reflexivity.
  - reflexivity.
  - repeat constructor; discriminate.
Defined.

(** X4: the start-up check of [main] and the guard agree.  The check
    fails exactly when the guard would deny every path. *)
Theorem startup_check_matches_guard (rt : Runtime) :
  (exists error, validateEnvironment rt = Throw error) <->
  (forall p, isPathAllowed (getenv rt "ALLOWED_PATHS") (process_cwd rt) p = false).
Proof.
  unfold validateEnvironment, isPathAllowed, allowedPaths. cbv zeta.
  destruct (getenv rt "ALLOWED_PATHS") as [v|].
  - destruct (JsString.truthy v).
    + split.
      * intros [error H]. discriminate H.
      * intros H. exfalso.
        destruct (JsString.split ","%char v) as [|e rest] eqn:E;
          [now elim (split_nonempty ","%char v)|].
        specialize (H (JsString.trim e)). cbn [existsb] in H.
        unfold JsString.startsWith in H. rewrite prefix_refl in H. discriminate H.
    + split; [reflexivity | intros _; eexists; reflexivity].
  - split; [reflexivity | intros _; eexists; reflexivity].
Qed.

(** ** Sizes *)

Lemma scaleLoop_spec (maxIndex fuel : nat) : forall (size : Q) (unitIndex : nat),
  (unitIndex + fuel = maxIndex)%nat ->
  exists k,
    snd (scaleLoop maxIndex fuel size unitIndex) = (unitIndex + k)%nat /\
    (unitIndex + k <= maxIndex)%nat /\
    (fst (scaleLoop maxIndex fuel size unitIndex) * inject_Z (1024 ^ Z.of_nat k) == size)%Q /\
    ((unitIndex + k < maxIndex)%nat ->
     (fst (scaleLoop maxIndex fuel size unitIndex) < 1024)%Q) /\
    ((0 < k)%nat -> (1 <= fst (scaleLoop maxIndex fuel size unitIndex))%Q).
Proof.
  induction fuel as [|fuel IH]; intros size unitIndex Hsum.
  - exists 0%nat. cbn [scaleLoop fst snd]. repeat split; try lia.
    change (inject_Z (1024 ^ Z.of_nat 0)) with 1%Q. ring.
  - cbn [scaleLoop].
    destruct (Qle_bool 1024 size && (unitIndex <? maxIndex)%nat) eqn:E.
    + apply andb_true_iff in E as [Hge _]. apply Qle_bool_iff in Hge.
      destruct (IH (size / 1024)%Q (S unitIndex)) as [k [Hi [Hb [Hv [Hlt Hone]]]]]; [lia|].
      exists (S k). repeat split.
      * rewrite Hi. lia.
      * lia.
      * rewrite Nat2Z.inj_succ, Z.pow_succ_r by lia.
        rewrite inject_Z_mult.
        set (s := fst (scaleLoop maxIndex fuel (size / 1024) (S unitIndex))) in *.
        transitivity ((s * inject_Z (1024 ^ Z.of_nat k)) * inject_Z 1024)%Q; [ring|].
        rewrite Hv. change (inject_Z 1024) with 1024%Q. field.
      * intros H. apply Hlt. lia.
      * intros _. destruct k as [|k].
        -- change (inject_Z (1024 ^ Z.of_nat 0)) with 1%Q in Hv.
           rewrite Qmult_1_r in Hv. rewrite Hv.
           apply Qle_shift_div_l; [reflexivity|]. now rewrite Qmult_1_l.
        -- apply Hone. lia.
    + exists 0%nat. cbn [fst snd]. repeat split; try lia.
      * change (inject_Z (1024 ^ Z.of_nat 0)) with 1%Q. ring.
      * intros H. apply andb_false_iff in E as [E|E].
        -- apply Qnot_le_lt. intros C. apply Qle_bool_iff in C. congruence.
        -- apply Nat.ltb_ge in E. lia.
Qed.

(** What [formatWith units] prints: a number with two decimals and one of
    the units. *)
Lemma formatWith_spec (units : list string) (bytes : Q) :
  units <> [] ->
  exists (size : Q) (k : nat),
    (k < List.length units)%nat /\
    formatWith units bytes = JsNumber.toFixed 2 size ++ " " ++ nth k units "undefined" /\
    In (nth k units "undefined") units /\
    (size * inject_Z (1024 ^ Z.of_nat k) == bytes)%Q /\
    ((S k < List.length units)%nat -> (size < 1024)%Q) /\
    ((0 < k)%nat -> (1 <= size)%Q).
Proof.
  intros Hu. unfold formatWith. cbv zeta.
  assert (Hlen : (0 < List.length units)%nat) by (destruct units; [contradiction | simpl; lia]).
  destruct (scaleLoop_spec (List.length units - 1) (List.length units - 1) bytes 0 eq_refl)
    as [k [Hi [Hb [Hv [Hlt Hone]]]]].
  destruct (scaleLoop (List.length units - 1) (List.length units - 1) bytes 0)
    as [size unitIndex] eqn:E.
  cbn [fst snd] in *. subst unitIndex. cbn [Nat.add] in *.
  exists size, k. repeat split; try assumption.
  - lia.
  - apply nth_In. lia.
  - intros H. apply Hlt. lia.
Qed.

(** X5: [formatSize] and [formatFileSize] divide by 1024 while the number
    is at least 1024 and a larger unit is left.  What they print is a
    number [size] with two decimals and a unit of their list (never
    [undefined]) with [size * 1024^k = bytes] for the unit of index [k];
    [size] is below 1024 unless the largest unit is reached, and at least
    1 once a division was made. *)
Theorem format_size_picks_unit (bytes : Q) :
  (exists size k,
     (k <= 3)%nat /\
     formatSize bytes =
       JsNumber.toFixed 2 size ++ " " ++ nth k ["B"; "KB"; "MB"; "GB"] "undefined" /\
     (size * inject_Z (1024 ^ Z.of_nat k) == bytes)%Q /\
     ((k < 3)%nat -> (size < 1024)%Q) /\
     ((0 < k)%nat -> (1 <= size)%Q)) /\
  (exists size k,
     (k <= 4)%nat /\
     formatFileSize bytes =
       JsNumber.toFixed 2 size ++ " " ++ nth k ["B"; "KB"; "MB"; "GB"; "TB"] "undefined" /\
     (size * inject_Z (1024 ^ Z.of_nat k) == bytes)%Q /\
     ((k < 4)%nat -> (size < 1024)%Q) /\
     ((0 < k)%nat -> (1 <= size)%Q)).
Proof.
  split.
  - destruct (formatWith_spec ["B"; "KB"; "MB"; "GB"] bytes) as
      [size [k [Hk [Hf [_ [Hv [Hlt Hone]]]]]]]; [discriminate|].
    exists size, k. cbn [List.length] in *. repeat split; try assumption; try lia.
    intros H. apply Hlt. lia.
  - destruct (formatWith_spec ["B"; "KB"; "MB"; "GB"; "TB"] bytes) as
      [size [k [Hk [Hf [_ [Hv [Hlt Hone]]]]]]]; [discriminate|].
    exists size, k. cbn [List.length] in *. repeat split; try assumption; try lia.
    intros H. apply Hlt. lia.
Qed.

(** ** The file tool: envelopes *)

Lemma spread_get_other (k : string) (o extra : object) :
  Obj.has k extra = false -> Obj.get k (Obj.spread o extra) = Obj.get k o.
Proof.
  unfold Obj.spread. revert o.
  induction extra as [|[k' v] extra IH]; intros o H; [reflexivity|].
  cbn [Obj.has] in H. apply orb_false_iff in H as [Hk Hrest].
  cbn [fold_left fst snd]. rewrite (IH _ Hrest). clear IH Hrest.
  induction o as [|[k0 v0] o IHo]; cbn [Obj.set Obj.get].
  - now rewrite Hk.
  - destruct (String.eqb k' k0) eqn:E.
    + apply String.eqb_eq in E. subst k0. cbn [Obj.get]. now rewrite Hk.
    + cbn [Obj.get]. now rewrite IHo.
Qed.

(** Opens the branches a completion came from, innermost first. *)
Ltac branches H :=
  repeat match type of H with
         | context [match ?x with _ => _ end] =>
             lazymatch x with
             | context [match _ with _ => _ end] => fail
             | _ => destruct x
             end
         end;
  try discriminate H.

Lemma file_result_keys (rt : Runtime) (a : FileProcessor.Args) (result : object) :
  FileProcessor.perform rt a = Return result ->
  Obj.has "success" result = false /\ Obj.has "timestamp" result = false.
Proof.
  unfold FileProcessor.perform, FileProcessor.readFile, FileProcessor.listDirectory,
    FileProcessor.searchFiles, FileProcessor.getStats, bind, try_catch.
  intros H. branches H; inversion H; split; reflexivity.
Qed.

(** X6: what [execute] of the file tool gives, for any argument value.
    When the arguments pass the schema it returns an envelope and never
    throws: [success: true] over the result of the operation, or
    [success: false] with the operation, the path and the message and code
    of the failure; both carry the timestamp.  When they do not, it throws
    the [ZodError] of the schema and returns nothing. *)
Theorem file_execute_envelope_or_zod_error (rt : Runtime) (args : json) :
  (exists a envelope,
     FileProcessor.inputSchema args = Zod.Valid a /\
     FileProcessor.execute rt args = Return envelope /\
     field "timestamp" envelope = JStr (date_now_iso rt) /\
     ((exists result, FileProcessor.perform rt a = Return result /\
                      field "success" envelope = JBool true) \/
      (exists error, FileProcessor.perform rt a = Throw error /\
                     field "success" envelope = JBool false /\
                     field "operation" envelope = JStr (FileProcessor.operation a) /\
                     field "path" envelope = JStr (FileProcessor.path a) /\
                     field "error" envelope =
                       JObj [("message", JStr (err_message error));
                             ("code", err_code error)]))) \/
  (exists issues,
     FileProcessor.inputSchema args = Zod.Invalid issues /\
     FileProcessor.execute rt args = Throw (Zod.ZodError (JSON_stringify rt) issues)).
Proof.
  destruct (FileProcessor.inputSchema args) as [a|issues] eqn:Hv.
  - left. rewrite (file_execute_valid rt args a Hv).
    destruct (FileProcessor.perform rt a) as [result|error] eqn:Hp.
    + destruct (file_result_keys rt a result Hp) as [Hs Ht].
      exists a. eexists. split; [reflexivity|]. split; [reflexivity|].
      cbn [field]. rewrite !spread_get_other by assumption.
      split; [reflexivity|]. left. now exists result.
    + exists a. eexists. split; [reflexivity|]. split; [reflexivity|].
      split; [reflexivity|]. right. exists error. repeat split; (assumption || reflexivity).
  - right. exists issues. split; [reflexivity|].
    unfold FileProcessor.execute. now rewrite Hv.
Qed.

(** X7: a path the guard rejects is answered with [Access denied],
    whatever the operation and whatever the file system holds; the search
    needs its pattern to get that far. *)
Theorem outside_path_is_denied (rt : Runtime) (args : json) (a : FileProcessor.Args) :
  FileProcessor.inputSchema args = Zod.Valid a ->
  FileProcessor.isPathAllowed rt (FileProcessor.path a) = false ->
  (FileProcessor.operation a = "search" ->
   exists p, FileProcessor.pattern a = Some p /\ p <> "") ->
  FileProcessor.execute rt args =
    Return (JObj [("success", JBool false);
                  ("operation", JStr (FileProcessor.operation a));
                  ("path", JStr (FileProcessor.path a));
                  ("error",
                    JObj [("message",
                            JStr ("Access denied: " ++ FileProcessor.path a ++
                                  " is not in an allowed directory"));
                          ("code", JUndefined)]);
                  ("timestamp", JStr (date_now_iso rt))]).
Proof.
  intros Hv Hg Hpat.
  destruct (file_args_valid args a Hv) as [o [_ [Hop _]]].
  rewrite (file_execute_valid rt args a Hv).
  now rewrite (file_perform_denied rt a Hg Hop Hpat).
Qed.

Lemma outside_path_is_denied_witness :
  FileProcessor.execute Sample.rt
    (JObj [("operation", JStr "stats"); ("path", JStr "/data/../etc/passwd")]) =
    Return (JObj [("success", JBool false);
                  ("operation", JStr "stats");
                  ("path", JStr "/data/../etc/passwd");
                  ("error",
                    JObj [("message",
                            JStr ("Access denied: " ++ "/data/../etc/passwd" ++
                                  " is not in an allowed directory"));
                          ("code", JUndefined)]);
                  ("timestamp", JStr (date_now_iso Sample.rt))]).
Proof.
  apply (outside_path_is_denied Sample.rt _
           (FileProcessor.mkArgs "stats" "/data/../etc/passwd" None false
              (inject_Z (1024 * 1024)) "utf8"));
    [reflexivity | reflexivity | discriminate].
Defined.

(** ** The file tool: reading *)

Lemma split_length (c : ascii) (s : string) :
  List.length (JsString.split c s) = S (countChar c s).
Proof.
  induction s as [|a s IH]; [reflexivity|].
  cbn [JsString.split countChar].
  destruct (Ascii.eqb a c).
  - cbn [List.length]. now rewrite IH.
  - destruct (JsString.split c s) as [|h t]; [discriminate IH|].
    cbn [List.length] in *. exact IH.
Qed.

(** X8: a [read] request in [utf8] for an allowed regular file within the
    size limit returns the file's text, its size, and as [lines] one more
    than the number of line feeds in the text: an empty file has one
    line. *)
Theorem read_returns_content_and_lines (rt : Runtime) (args : json)
  (a : FileProcessor.Args) (stats : Stats) (content : string) :
  FileProcessor.inputSchema args = Zod.Valid a ->
  FileProcessor.operation a = "read" ->
  FileProcessor.encoding a = "utf8" ->
  FileProcessor.isPathAllowed rt (FileProcessor.path a) = true ->
  fs_stat rt (FileProcessor.path a) = Return stats ->
  st_isFile stats = true ->
  (inject_Z (st_size stats) <= FileProcessor.max_size a)%Q ->
  fs_readFile rt (FileProcessor.path a) = Return content ->
  FileProcessor.execute rt args =
    Return (JObj [("success", JBool true);
                  ("timestamp", JStr (date_now_iso rt));
                  ("operation", JStr "read");
                  ("path", JStr (FileProcessor.path a));
                  ("size", num (st_size stats));
                  ("size_formatted", JStr (formatSize (inject_Z (st_size stats))));
                  ("encoding", JStr "utf8");
                  ("content", JStr content);
                  ("lines", natnum (S (countChar "010"%char content)));
                  ("modified", JStr (st_mtime stats))]).
Proof.
  intros Hv Hop Henc Hg Hstat Hfile Hsize Hread.
  rewrite (file_execute_valid rt args a Hv).
  unfold FileProcessor.perform. rewrite Hop.
  cbn [String.eqb Ascii.eqb Bool.eqb andb].
  unfold FileProcessor.readFile. rewrite Hg, Hstat. cbn [negb bind].
  rewrite Hfile. cbn [negb].
  apply Qle_bool_iff in Hsize. rewrite Hsize. cbn [negb].
  rewrite Henc. cbn [String.eqb Ascii.eqb Bool.eqb andb].
  rewrite Hread. cbn [bind]. rewrite split_length. reflexivity.
Qed.

Lemma read_returns_content_and_lines_witness :
  FileProcessor.execute Sample.rt
    (JObj [("operation", JStr "read"); ("path", JStr "/data/sample.txt")]) =
    Return (JObj [("success", JBool true);
                  ("timestamp", JStr (date_now_iso Sample.rt));
                  ("operation", JStr "read");
                  ("path", JStr "/data/sample.txt");
                  ("size", num 34);
                  ("size_formatted", JStr (formatSize (inject_Z 34)));
                  ("encoding", JStr "utf8");
                  ("content", JStr Sample.sampleText);
                  ("lines", natnum (S (countChar "010"%char Sample.sampleText)));
                  ("modified", JStr (st_mtime (Sample.fileStats 34)))]).
Proof.
  apply (read_returns_content_and_lines Sample.rt _
           (FileProcessor.mkArgs "read" "/data/sample.txt" None false
              (inject_Z (1024 * 1024)) "utf8")
           (Sample.fileStats 34) Sample.sampleText);
    try reflexivity.
  discriminate.
Defined.

(** X9: the operations check what kind of entry they are given.  [read]
    on something that is not a regular file fails with [<path> is not a
    file], and [list] on something that is not a directory with [<path> is
    not a directory]; neither reads anything further. *)
Theorem wrong_kind_of_entry_fails (rt : Runtime) (args : json)
  (a : FileProcessor.Args) (stats : Stats) :
  FileProcessor.inputSchema args = Zod.Valid a ->
  FileProcessor.isPathAllowed rt (FileProcessor.path a) = true ->
  fs_stat rt (FileProcessor.path a) = Return stats ->
  (FileProcessor.operation a = "read" -> st_isFile stats = false ->
   FileProcessor.execute rt args =
   Return (FileProcessor.failure rt a (Error_ (FileProcessor.path a ++ " is not a file")))) /\
  (FileProcessor.operation a = "list" -> st_isDirectory stats = false ->
   FileProcessor.execute rt args =
   Return (FileProcessor.failure rt a
             (Error_ (FileProcessor.path a ++ " is not a directory")))).
Proof.
  intros Hv Hg Hstat.
  rewrite (file_execute_valid rt args a Hv). split; intros Hop Hkind.
  - unfold FileProcessor.perform. rewrite Hop.
    cbn [String.eqb Ascii.eqb Bool.eqb andb].
    unfold FileProcessor.readFile. rewrite Hg, Hstat. cbn [negb bind].
    now rewrite Hkind.
  - unfold FileProcessor.perform. rewrite Hop.
    cbn [String.eqb Ascii.eqb Bool.eqb andb].
    unfold FileProcessor.listDirectory. rewrite Hg, Hstat. cbn [negb bind].
    now rewrite Hkind.
Qed.

Lemma wrong_kind_of_entry_fails_witness :
  FileProcessor.execute Sample.rt
    (JObj [("operation", JStr "read"); ("path", JStr "/data/sub")]) =
  Return (FileProcessor.failure Sample.rt
            (FileProcessor.mkArgs "read" "/data/sub" None false
               (inject_Z (1024 * 1024)) "utf8")
            (Error_ ("/data/sub" ++ " is not a file"))) /\
  FileProcessor.execute Sample.rt
    (JObj [("operation", JStr "list"); ("path", JStr "/data/sample.txt")]) =
  Return (FileProcessor.failure Sample.rt
            (FileProcessor.mkArgs "list" "/data/sample.txt" None false
               (inject_Z (1024 * 1024)) "utf8")
            (Error_ ("/data/sample.txt" ++ " is not a directory"))).
Proof.
  split.
  - apply (wrong_kind_of_entry_fails Sample.rt _
             (FileProcessor.mkArgs "read" "/data/sub" None false
                (inject_Z (1024 * 1024)) "utf8") Sample.dirStats);
      reflexivity.
  - apply (wrong_kind_of_entry_fails Sample.rt _
             (FileProcessor.mkArgs "list" "/data/sample.txt" None false
                (inject_Z (1024 * 1024)) "utf8") (Sample.fileStats 34));
      reflexivity.
Defined.

(** ** The file tool: searching *)

Lemma searchEntries_flat (rt : Runtime) recurse regex sp cur depth entries : forall ms,
  FileProcessor.searchEntries rt recurse regex sp false cur depth entries ms
  = Some (ms ++ ownMatches rt regex sp cur depth entries)%list.
Proof.
  induction entries as [|e rest IH]; intros ms;
    cbn [FileProcessor.searchEntries ownMatches flat_map].
  - now rewrite app_nil_r.
  - rewrite andb_false_r. cbn [andb]. rewrite IH.
    unfold ownMatches.
    destruct (regex (d_name e)); [|reflexivity].
    now rewrite <- app_assoc.
Qed.

(** X10: the search reads the directory it is given and nothing else
    first.  When that directory cannot be read (it does not exist, or is
    a file), the failure is swallowed and the answer is a success with no
    match; when it can and the search is not recursive, the matches are
    the entries of that directory whose names the pattern matches, in
    order, at depth 0. *)
Theorem search_of_one_directory (rt : Runtime) (args : json)
  (a : FileProcessor.Args) (p : string) (regex : string -> bool) :
  FileProcessor.inputSchema args = Zod.Valid a ->
  FileProcessor.operation a = "search" ->
  FileProcessor.pattern a = Some p -> p <> "" ->
  FileProcessor.isPathAllowed rt (FileProcessor.path a) = true ->
  RegExp_i rt p = Return regex ->
  let envelope (matches : list json) :=
    JObj [("success", JBool true);
          ("timestamp", JStr (date_now_iso rt));
          ("operation", JStr "search");
          ("path", JStr (FileProcessor.path a));
          ("pattern", JStr p);
          ("recursive", JBool (FileProcessor.recursive a));
          ("matches", JArr matches);
          ("count", natnum (List.length matches))] in
  (forall error,
     fs_readdir rt (FileProcessor.path a) = Throw error ->
     FileProcessor.execute rt args = Return (envelope [])) /\
  (forall entries,
     fs_readdir rt (FileProcessor.path a) = Return entries ->
     FileProcessor.recursive a = false ->
     FileProcessor.execute rt args =
     Return (envelope (ownMatches rt regex (FileProcessor.path a)
                         (FileProcessor.path a) 0 entries))).
Proof.
  intros Hv Hop Hpat Hp Hg Hre envelope.
  rewrite (file_execute_valid rt args a Hv).
  unfold FileProcessor.perform. rewrite Hop, Hpat.
  cbn [String.eqb Ascii.eqb Bool.eqb andb].
  apply String.eqb_neq in Hp. unfold JsString.truthy. rewrite Hp. cbn [negb].
  unfold FileProcessor.searchFiles. rewrite Hg, Hre. cbn [negb bind].
  unfold traversalFuel. cbn [FileProcessor.searchRecursive].
  change (10 <? 0)%nat with false. cbv iota.
  split.
  - intros error Hread. now rewrite Hread.
  - intros entries Hread Hrec. unfold envelope.
    rewrite Hread, Hrec, searchEntries_flat. reflexivity.
Qed.

Lemma search_of_one_directory_witness :
  FileProcessor.execute Sample.rt
    (JObj [("operation", JStr "search"); ("path", JStr "/data/missing");
           ("pattern", JStr "txt")]) =
  Return (JObj [("success", JBool true);
                ("timestamp", JStr (date_now_iso Sample.rt));
                ("operation", JStr "search");
                ("path", JStr "/data/missing");
                ("pattern", JStr "txt");
                ("recursive", JBool false);
                ("matches", JArr []);
                ("count", natnum 0)]).
Proof.
  destruct (search_of_one_directory Sample.rt
              (JObj [("operation", JStr "search"); ("path", JStr "/data/missing");
                     ("pattern", JStr "txt")])
              (FileProcessor.mkArgs "search" "/data/missing" (Some "txt") false
                 (inject_Z (1024 * 1024)) "utf8")
              "txt" (fun name => JsString.includes name "txt")
              eq_refl eq_refl eq_refl) as [H _];
    [discriminate | reflexivity | reflexivity |].
  apply (H (Sample.enoent "scandir" "/data/missing")). reflexivity.
Defined.

(** X11: a pattern the regular expression engine rejects fails the search
    with the engine's error, inside an envelope; the directory is not
    read. *)
Theorem search_with_bad_pattern_fails (rt : Runtime) (args : json)
  (a : FileProcessor.Args) (p : string) (error : JsError) :
  FileProcessor.inputSchema args = Zod.Valid a ->
  FileProcessor.operation a = "search" ->
  FileProcessor.pattern a = Some p -> p <> "" ->
  FileProcessor.isPathAllowed rt (FileProcessor.path a) = true ->
  RegExp_i rt p = Throw error ->
  FileProcessor.execute rt args = Return (FileProcessor.failure rt a error).
Proof.
  intros Hv Hop Hpat Hp Hg Hre.
  rewrite (file_execute_valid rt args a Hv).
  unfold FileProcessor.perform. rewrite Hop, Hpat.
  cbn [String.eqb Ascii.eqb Bool.eqb andb].
  apply String.eqb_neq in Hp. unfold JsString.truthy. rewrite Hp. cbn [negb].
  unfold FileProcessor.searchFiles. now rewrite Hg, Hre.
Qed.

Lemma search_with_bad_pattern_fails_witness :
  FileProcessor.execute (withRegExp Sample.rt rejectingEngine)
    (JObj [("operation", JStr "search"); ("path", JStr "/data"); ("pattern", JStr "(")]) =
  Return (FileProcessor.failure (withRegExp Sample.rt rejectingEngine)
            (FileProcessor.mkArgs "search" "/data" (Some "(") false
               (inject_Z (1024 * 1024)) "utf8")
            (mkError "SyntaxError"
               ("Invalid regular expression: /" ++ "(" ++ "/i: Unterminated group")
               JUndefined [])).
Proof.
  apply (search_with_bad_pattern_fails (withRegExp Sample.rt rejectingEngine) _
           (FileProcessor.mkArgs "search" "/data" (Some "(") false
              (inject_Z (1024 * 1024)) "utf8") "(");
    try reflexivity.
  discriminate.
Defined.

(** ** The file tool: listing *)

Section Listing.

Variable rt : Runtime.
Variable P : json -> Prop.
Hypothesis P_dirInfo : forall entry rel depth, P (FileProcessor.dirInfo entry rel depth).
Hypothesis P_fileInfo :
  forall entry rel full depth, P (FileProcessor.fileInfo rt entry rel full depth).

Lemma listEntries_Forall recurse dirPath recursive cur depth entries :
  (forall p d es, recurse p d = Some (Return es) -> Forall P es) ->
  forall results es,
    Forall P results ->
    FileProcessor.listEntries rt recurse dirPath recursive cur depth entries results
    = Some (Return es) ->
    Forall P es.
Proof.
  intros Hrec.
  induction entries as [|e rest IH]; intros results es Hres H;
    cbn [FileProcessor.listEntries] in H.
  - now inversion H; subst.
  - destruct (d_isDirectory e).
    + assert (H1 : Forall P (results ++ [FileProcessor.dirInfo e
                  (Path.relative (process_cwd rt) dirPath (Path.join cur (d_name e)))
                  depth])%list).
      { apply Forall_app. split; [assumption|]. constructor; [apply P_dirInfo | constructor]. }
      destruct recursive.
      * destruct (recurse _ _) as [[sub|err]|] eqn:Ec; try discriminate H.
        apply (IH _ _) in H; [assumption|].
        apply Forall_app. split; [assumption|]. now apply Hrec in Ec.
      * now apply (IH _ _) in H.
    + destruct (d_isFile e).
      * apply (IH _ _) in H; [assumption|].
        apply Forall_app. split; [assumption|].
        constructor; [apply P_fileInfo | constructor].
      * now apply (IH _ _) in H.
Qed.

Lemma listRecursive_Forall dirPath recursive fuel : forall cur depth es,
  FileProcessor.listRecursive rt fuel dirPath recursive cur depth = Some (Return es) ->
  Forall P es.
Proof.
  induction fuel as [|fuel IH]; intros cur depth es H; [discriminate H|].
  cbn [FileProcessor.listRecursive] in H.
  destruct (10 <? depth)%nat; [discriminate H|].
  destruct (fs_readdir rt cur) as [entries|]; [|discriminate H].
  eapply listEntries_Forall; [|constructor | exact H].
  intros p d es' Hp. now apply IH in Hp.
Qed.

End Listing.

Lemma fileOrDirectory_count (es : list json) :
  Forall fileOrDirectory es ->
  (List.length (filter (FileProcessor.isType "file") es) +
   List.length (filter (FileProcessor.isType "directory") es) = List.length es)%nat.
Proof.
  induction 1 as [|e es He _ IH]; [reflexivity|].
  cbn [filter]. destruct He as [[-> ->]|[-> ->]]; cbn [List.length]; lia.
Qed.

Lemma listRecursive_typed (rt : Runtime) dirPath recursive fuel cur depth es :
  FileProcessor.listRecursive rt fuel dirPath recursive cur depth = Some (Return es) ->
  Forall fileOrDirectory es.
Proof.
  apply listRecursive_Forall.
  - intros. right. split; reflexivity.
  - intros. left. unfold FileProcessor.fileInfo.
    destruct (fs_stat rt full); split; reflexivity.
Qed.

(** X12: the summary of a listing adds up.  Whenever [list] succeeds,
    every entry of the envelope is a file or a directory, [total] is the
    number of entries, and [files] and [directories] together make
    [total]. *)
Theorem list_summary_adds_up (rt : Runtime) (args : json) (a : FileProcessor.Args)
  (envelope : json) :
  FileProcessor.inputSchema args = Zod.Valid a ->
  FileProcessor.operation a = "list" ->
  FileProcessor.execute rt args = Return envelope ->
  field "success" envelope = JBool true ->
  exists entries files directories,
    field "entries" envelope = JArr entries /\
    Forall fileOrDirectory entries /\
    field "total" (field "summary" envelope) = natnum (List.length entries) /\
    field "files" (field "summary" envelope) = natnum files /\
    field "directories" (field "summary" envelope) = natnum directories /\
    (files + directories = List.length entries)%nat.
Proof.
  intros Hv Hop H Hs.
  rewrite (file_execute_valid rt args a Hv) in H.
  unfold FileProcessor.perform in H. rewrite Hop in H.
  cbn [String.eqb Ascii.eqb Bool.eqb andb] in H.
  unfold FileProcessor.listDirectory, bind in H.
  destruct (negb (FileProcessor.isPathAllowed rt (FileProcessor.path a)));
    [inversion H; subst; discriminate Hs|].
  destruct (fs_stat rt (FileProcessor.path a)) as [stats|];
    [|inversion H; subst; discriminate Hs].
  destruct (negb (st_isDirectory stats)); [inversion H; subst; discriminate Hs|].
  destruct (FileProcessor.listRecursive rt traversalFuel (FileProcessor.path a)
              (FileProcessor.recursive a) (FileProcessor.path a) 0)
    as [[es|e]|] eqn:El; try (inversion H; subst; discriminate Hs).
  inversion H; subst. clear H Hs.
  pose proof (listRecursive_typed rt _ _ _ _ _ _ El) as Ht.
  exists es, (List.length (filter (FileProcessor.isType "file") es)),
    (List.length (filter (FileProcessor.isType "directory") es)).
  repeat split; try reflexivity; try assumption.
  now apply fileOrDirectory_count.
Qed.

Lemma list_summary_adds_up_witness :
  let envelope :=
    match FileProcessor.execute Sample.rt
            (JObj [("operation", JStr "list"); ("path", JStr "/data");
                   ("recursive", JBool true)]) with
    | Return e => e
    | Throw _ => JUndefined
    end in
  exists entries files directories,
    field "entries" envelope = JArr entries /\
    Forall fileOrDirectory entries /\
    field "total" (field "summary" envelope) = natnum (List.length entries) /\
    field "files" (field "summary" envelope) = natnum files /\
    field "directories" (field "summary" envelope) = natnum directories /\
    (files + directories = List.length entries)%nat.
Proof.
  intros envelope.
  apply (list_summary_adds_up Sample.rt
           (JObj [("operation", JStr "list"); ("path", JStr "/data");
                  ("recursive", JBool true)])
           (FileProcessor.mkArgs "list" "/data" None true
              (inject_Z (1024 * 1024)) "utf8") envelope);
    reflexivity.
Defined.

Lemma listEntries_flat (rt : Runtime) recurse dirPath cur depth entries : forall results,
  FileProcessor.listEntries rt recurse dirPath false cur depth entries results
  = Some (Return (results ++ ownEntries rt dirPath cur depth entries)%list).
Proof.
  induction entries as [|e rest IH]; intros results;
    cbn [FileProcessor.listEntries ownEntries flat_map].
  - now rewrite app_nil_r.
  - unfold ownEntries in IH.
    destruct (d_isDirectory e); [|destruct (d_isFile e)];
      rewrite IH; try reflexivity; now rewrite <- app_assoc.
Qed.

Lemma ownEntries_length (rt : Runtime) dirPath cur depth entries :
  List.length (ownEntries rt dirPath cur depth entries) =
  List.length (filter (fun entry => d_isDirectory entry || d_isFile entry) entries).
Proof.
  unfold ownEntries. induction entries as [|e rest IH]; [reflexivity|].
  cbn [flat_map filter]. rewrite length_app, IH.
  destruct (d_isDirectory e); [reflexivity|].
  destruct (d_isFile e); reflexivity.
Qed.

(** X13: a listing that is not recursive reads one directory.  Its
    entries are, in the order [readdir] gave them, one per directory and
    one per regular file, all at depth 0; what is neither (a link, a
    socket) is left out.  When the directory cannot be read, the failure
    of [readdir] is the failure of the listing, unlike in the search. *)
Theorem list_of_one_directory (rt : Runtime) (args : json) (a : FileProcessor.Args)
  (stats : Stats) :
  FileProcessor.inputSchema args = Zod.Valid a ->
  FileProcessor.operation a = "list" ->
  FileProcessor.isPathAllowed rt (FileProcessor.path a) = true ->
  fs_stat rt (FileProcessor.path a) = Return stats ->
  st_isDirectory stats = true ->
  (forall error,
     fs_readdir rt (FileProcessor.path a) = Throw error ->
     FileProcessor.execute rt args = Return (FileProcessor.failure rt a error)) /\
  (forall entries,
     fs_readdir rt (FileProcessor.path a) = Return entries ->
     FileProcessor.recursive a = false ->
     exists envelope,
       FileProcessor.execute rt args = Return envelope /\
       field "success" envelope = JBool true /\
       field "entries" envelope =
         JArr (ownEntries rt (FileProcessor.path a) (FileProcessor.path a) 0 entries) /\
       field "total" (field "summary" envelope) =
         natnum (List.length
                   (filter (fun entry => d_isDirectory entry || d_isFile entry) entries)) /\
       Forall (depthAtMost 0)
         (ownEntries rt (FileProcessor.path a) (FileProcessor.path a) 0 entries)).
Proof.
  intros Hv Hop Hg Hstat Hdir.
  rewrite (file_execute_valid rt args a Hv).
  unfold FileProcessor.perform. rewrite Hop.
  cbn [String.eqb Ascii.eqb Bool.eqb andb].
  unfold FileProcessor.listDirectory. rewrite Hg, Hstat. cbn [negb bind].
  rewrite Hdir. cbn [negb].
  unfold traversalFuel. cbn [FileProcessor.listRecursive].
  change (10 <? 0)%nat with false. cbv iota.
  split.
  - intros error Hread. now rewrite Hread.
  - intros entries Hread Hrec. rewrite Hread, Hrec, listEntries_flat.
    cbn [app bind]. eexists. split; [reflexivity|].
    split; [reflexivity|]. split; [reflexivity|]. split.
    + cbn. now rewrite ownEntries_length.
    + unfold ownEntries. apply Forall_flat_map, Forall_forall. intros e _.
      destruct (d_isDirectory e).
      * constructor; [|constructor]. exists 0%nat. split; [reflexivity | apply le_n].
      * destruct (d_isFile e); [|constructor].
        constructor; [|constructor]. exists 0%nat. unfold FileProcessor.fileInfo.
        destruct (fs_stat rt (Path.join _ _)); split; (reflexivity || apply le_n).
Qed.

Lemma list_of_one_directory_witness :
  exists envelope,
    FileProcessor.execute Sample.rt
      (JObj [("operation", JStr "list"); ("path", JStr "/data")]) = Return envelope /\
    field "success" envelope = JBool true /\
    field "entries" envelope =
      JArr (ownEntries Sample.rt "/data" "/data" 0
              [mkDirent "big.bin" false true;
               mkDirent "sample.txt" false true;
               mkDirent "sub" true false]) /\
    field "total" (field "summary" envelope) = natnum 3.
Proof.
  destruct (list_of_one_directory Sample.rt
              (JObj [("operation", JStr "list"); ("path", JStr "/data")])
              (FileProcessor.mkArgs "list" "/data" None false
                 (inject_Z (1024 * 1024)) "utf8")
              Sample.dirStats eq_refl eq_refl eq_refl eq_refl eq_refl) as [_ H].
  destruct (H [mkDirent "big.bin" false true;
               mkDirent "sample.txt" false true;
               mkDirent "sub" true false] eq_refl eq_refl)
    as [envelope [H1 [H2 [H3 [H4 _]]]]].
  exists envelope. repeat split; assumption.
Defined.

(** ** The example tool *)

Lemma example_execute_valid (rt : Runtime) (args : json) (a : ExampleTool.Args) :
  ExampleTool.inputSchema args = Zod.Valid a ->
  ExampleTool.execute rt args =
  match ExampleTool.perform rt a with
  | Return result =>
      Return (JObj
        [("success", JBool true);
         ("action", JStr (ExampleTool.action a));
         ("result", result);
         ("metadata",
           JObj (Obj.spread
                   [("execution_time_ms", JNum (elapsed_ms rt));
                    ("timestamp", JStr (date_now_iso rt))]
                   (if ExampleTool.include_details a then
                      [("input_args", ExampleTool.argsJson a);
                       ("environment",
                         JObj [("node_version", JStr (process_version (os rt)));
                               ("platform", JStr (process_platform (os rt)));
                               ("arch", JStr (process_arch (os rt)))])]
                    else [])))])
  | Throw error => Return (ExampleTool.failure rt a error)
  end.
Proof.
  intros Hv. unfold ExampleTool.execute. rewrite Hv. cbn [Zod.parse bind].
  destruct (ExampleTool.perform rt a); reflexivity.
Qed.

Lemma orElse_empty (x : option string) :
  ExampleTool.orElse x "" = match x with Some s => s | None => "" end.
Proof.
  destruct x as [s|]; [|reflexivity].
  unfold ExampleTool.orElse, JsString.truthy.
  destruct (String.eqb s "") eqn:E; [|reflexivity].
  apply String.eqb_eq in E. now subst.
Qed.

(** X14: [echo] gives the message back unchanged, whatever it is; without
    a message it gives the empty string.  [greet] greets the message, and
    [World] when the message is missing or empty. *)
Theorem echo_and_greet (rt : Runtime) (args : json) (a : ExampleTool.Args) :
  ExampleTool.inputSchema args = Zod.Valid a ->
  ExampleTool.include_details a = false ->
  let envelope (result : json) :=
    JObj [("success", JBool true);
          ("action", JStr (ExampleTool.action a));
          ("result", result);
          ("metadata",
            JObj [("execution_time_ms", JNum (elapsed_ms rt));
                  ("timestamp", JStr (date_now_iso rt))])] in
  (ExampleTool.action a = "echo" ->
   ExampleTool.execute rt args =
   Return (envelope
             (JObj [("echo",
                      JStr match ExampleTool.message a with
                           | Some m => m
                           | None => ""
                           end)]))) /\
  (ExampleTool.action a = "greet" ->
   ExampleTool.execute rt args =
   Return (envelope
             (JObj [("greeting",
                      JStr ("Hello, " ++
                            match ExampleTool.message a with
                            | Some "" | None => "World"
                            | Some m => m
                            end ++ "!"))]))).
Proof.
  intros Hv Hd envelope. rewrite (example_execute_valid rt args a Hv).
  unfold ExampleTool.perform, envelope. rewrite Hd. split; intros Hact; rewrite Hact;
    cbn [String.eqb Ascii.eqb Bool.eqb andb].
  - unfold ExampleTool.handleEcho. now rewrite orElse_empty.
  - unfold ExampleTool.handleGreet. cbn [Obj.spread fold_left].
    destruct (ExampleTool.message a) as [[|c m]|]; reflexivity.
Qed.

Lemma echo_and_greet_witness :
  ExampleTool.execute Sample.rt (JObj [("action", JStr "echo"); ("message", JStr "hi")]) =
  Return (JObj [("success", JBool true);
                ("action", JStr "echo");
                ("result", JObj [("echo", JStr "hi")]);
                ("metadata",
                  JObj [("execution_time_ms", JNum (elapsed_ms Sample.rt));
                        ("timestamp", JStr (date_now_iso Sample.rt))])]) /\
  ExampleTool.execute Sample.rt (JObj [("action", JStr "greet"); ("message", JStr "")]) =
  Return (JObj [("success", JBool true);
                ("action", JStr "greet");
                ("result", JObj [("greeting", JStr ("Hello, " ++ "World" ++ "!"))]);
                ("metadata",
                  JObj [("execution_time_ms", JNum (elapsed_ms Sample.rt));
                        ("timestamp", JStr (date_now_iso Sample.rt))])]).
Proof.
  split.
  - apply (echo_and_greet Sample.rt _ (ExampleTool.mkArgs "echo" (Some "hi") None false));
      reflexivity.
  - apply (echo_and_greet Sample.rt _ (ExampleTool.mkArgs "greet" (Some "") None false));
      reflexivity.
Defined.

Lemma list_ascii_of_string_append (a b : string) :
  list_ascii_of_string (a ++ b) = (list_ascii_of_string a ++ list_ascii_of_string b)%list.
Proof. induction a as [|x a IH]; simpl; [reflexivity | now rewrite IH]. Qed.

(** X15: the [reversed] detail of [echo] is the message read backwards:
    reversing twice gives the message back, the length is kept, and the
    reverse of two strings put together is their reverses in the other
    order. *)
Theorem reverse_twice (m n : string) :
  ExampleTool.reverseString (ExampleTool.reverseString m) = m /\
  String.length (ExampleTool.reverseString m) = String.length m /\
  ExampleTool.reverseString (m ++ n) =
  ExampleTool.reverseString n ++ ExampleTool.reverseString m.
Proof.
  unfold ExampleTool.reverseString. repeat split.
  - rewrite list_ascii_of_string_of_list_ascii, rev_involutive.
    apply string_of_list_ascii_of_string.
  - assert (L : forall l, String.length (string_of_list_ascii l) = List.length l).
    { induction l; simpl; [reflexivity | now f_equal]. }
    rewrite L, length_rev, <- L. now rewrite string_of_list_ascii_of_string.
  - rewrite list_ascii_of_string_append, rev_app_distr.
    generalize (rev (list_ascii_of_string n)) (rev (list_ascii_of_string m)).
    intros l1 l2. induction l1; simpl; [reflexivity | now f_equal].
Qed.

(** X16: [file_info] needs a path before anything else: without
    [file_path], or with an empty one, it fails with [file_path is required
    for file_info action] and neither the guard nor the file system is
    consulted.  For an allowed path that does not exist, the answer is a
    success saying [exists: false]. *)
Theorem file_info_edges (rt : Runtime) (args : json) (a : ExampleTool.Args) :
  ExampleTool.inputSchema args = Zod.Valid a ->
  ExampleTool.action a = "file_info" ->
  ((ExampleTool.file_path a = None \/ ExampleTool.file_path a = Some "") ->
   ExampleTool.execute rt args =
   Return (ExampleTool.failure rt a
             (Error_ "file_path is required for file_info action"))) /\
  (forall p error,
     ExampleTool.file_path a = Some p -> p <> "" ->
     ExampleTool.isPathAllowed rt p = true ->
     fs_stat rt p = Throw error -> err_code error = JStr "ENOENT" ->
     ExampleTool.include_details a = false ->
     ExampleTool.execute rt args =
     Return (JObj [("success", JBool true);
                   ("action", JStr "file_info");
                   ("result",
                     JObj [("exists", JBool false);
                           ("path", JStr p);
                           ("error", JStr "File or directory not found")]);
                   ("metadata",
                     JObj [("execution_time_ms", JNum (elapsed_ms rt));
                           ("timestamp", JStr (date_now_iso rt))])])).
Proof.
  intros Hv Hact. rewrite (example_execute_valid rt args a Hv).
  unfold ExampleTool.perform. rewrite Hact.
  cbn [String.eqb Ascii.eqb Bool.eqb andb]. split.
  - intros [H|H]; rewrite H; reflexivity.
  - intros p error Hp Hne Hg Hstat Hcode Hd. rewrite Hp, Hd.
    apply String.eqb_neq in Hne. unfold JsString.truthy. rewrite Hne. cbn [negb].
    unfold ExampleTool.handleFileInfo. rewrite Hg, Hstat. cbn [negb bind try_catch].
    unfold isENOENT. rewrite Hcode. reflexivity.
Qed.

Lemma file_info_edges_witness :
  ExampleTool.execute Sample.rt (JObj [("action", JStr "file_info")]) =
  Return (ExampleTool.failure Sample.rt (ExampleTool.mkArgs "file_info" None None false)
            (Error_ "file_path is required for file_info action")) /\
  ExampleTool.execute Sample.rt
    (JObj [("action", JStr "file_info"); ("file_path", JStr "/data/none")]) =
  Return (JObj [("success", JBool true);
                ("action", JStr "file_info");
                ("result",
                  JObj [("exists", JBool false);
                        ("path", JStr "/data/none");
                        ("error", JStr "File or directory not found")]);
                ("metadata",
                  JObj [("execution_time_ms", JNum (elapsed_ms Sample.rt));
                        ("timestamp", JStr (date_now_iso Sample.rt))])]).
Proof.
  split.
  - apply (file_info_edges Sample.rt _ (ExampleTool.mkArgs "file_info" None None false));
      [reflexivity | reflexivity | now left].
  - destruct (file_info_edges Sample.rt
                (JObj [("action", JStr "file_info"); ("file_path", JStr "/data/none")])
                (ExampleTool.mkArgs "file_info" None (Some "/data/none") false)
                eq_refl eq_refl) as [_ H].
    apply (H "/data/none" (Sample.enoent "stat" "/data/none")); try reflexivity.
    discriminate.
Defined.

(** ** The system information tool *)


Lemma system_execute_valid (rt : Runtime) (args : json) (a : SystemInfo.Args) :
  SystemInfo.inputSchema args = Zod.Valid a ->
  SystemInfo.execute rt args =
  match SystemInfo.perform rt a with
  | Return data =>
      Return (JObj [("success", JBool true);
                    ("category", JStr (SystemInfo.category a));
                    ("detailed", JBool (SystemInfo.detailed a));
                    ("data", data);
                    ("timestamp", JStr (date_now_iso rt));
                    ("collected_in_ms", num 0)])
  | Throw error => Return (SystemInfo.failure rt a error)
  end.
Proof.
  intros Hv. unfold SystemInfo.execute. rewrite Hv. cbn [Zod.parse bind].
  destruct (SystemInfo.perform rt a); reflexivity.
Qed.




Lemma substring_length (n : nat) (s : string) :
  (String.length (substring 0 n s) <= n)%nat.
Proof.
  revert s. induction n as [|n IH]; intros s.
  - destruct s; simpl; lia.
  - destruct s as [|c s]; simpl; [lia|]. specialize (IH s). lia.
Qed.

Lemma string_length_append (a b : string) :
  String.length (a ++ b) = (String.length a + String.length b)%nat.
Proof. induction a as [|x a IH]; simpl; [reflexivity | now rewrite IH]. Qed.

Lemma optStr_defined (x : option string) :
  SystemInfo.optStr x = JUndefined \/ exists s, SystemInfo.optStr x = JStr s.
Proof. destruct x as [s|]; [right; now exists s | now left]. Qed.

(** X18: what the [environment] category shows of the process
    environment.  Without [detailed], the variables shown are among
    [NODE_ENV], [PATH], [HOME], [USER], [SHELL], [LANG] and [TZ], each a
    string, and [PATH] is cut to 100 characters and an ellipsis.  With
    [detailed], every variable whose name begins with [EXTENSION_],
    [ALLOWED_], [API_] or [ENABLE_] is shown in full under
    [extension_variables]. *)
Theorem environment_exposure (rt : Runtime) :
  (exists vars,
     field "variables" (SystemInfo.getEnvironmentInfo rt false) = JObj vars /\
     field "detailed" (SystemInfo.getEnvironmentInfo rt false) = JUndefined /\
     Forall (fun kv =>
               In (fst kv) ["NODE_ENV"; "PATH"; "HOME"; "USER"; "SHELL"; "LANG"; "TZ"] /\
               exists s, snd kv = JStr s) vars /\
     exists path, Obj.get "PATH" vars = JStr path /\ (String.length path <= 103)%nat) /\
  (exists shown,
     field "extension_variables"
       (field "detailed" (SystemInfo.getEnvironmentInfo rt true)) = JObj shown /\
     forall name value,
       In (name, value) (process_env rt) ->
       JsString.startsWith name "EXTENSION_" || JsString.startsWith name "ALLOWED_" ||
       JsString.startsWith name "API_" || JsString.startsWith name "ENABLE_" = true ->
       In (name, JStr value) shown).
Proof.
  split.
  - eexists. split; [reflexivity|]. split; [reflexivity|]. split.
    + apply Forall_forall. intros [k v] Hin.
      unfold SystemInfo.definedFields in Hin. apply filter_In in Hin as [Hin Hdef].
      cbn [snd fst] in *.
      assert (D : forall x, v = SystemInfo.optStr x -> exists s, v = JStr s).
      { intros x ->. destruct (optStr_defined x) as [U|S]; [now rewrite U in Hdef | exact S]. }
      cbn [In] in Hin.
      destruct Hin as [H|[H|[H|[H|[H|[H|[H|[]]]]]]]]; inversion H; subst; clear H;
        (split; [cbn [In]; tauto|]); try (eapply D; reflexivity).
      * eexists. reflexivity.
      * unfold SystemInfo.orValue in *.
        destruct (truthy (SystemInfo.optStr (getenv rt "USER")));
          [destruct (optStr_defined (getenv rt "USER")) as [U|S]
          |destruct (optStr_defined (getenv rt "USERNAME")) as [U|S]];
          try exact S; now rewrite U in Hdef.
    + unfold SystemInfo.definedFields. cbn [filter snd].
      destruct (SystemInfo.optStr (getenv rt "NODE_ENV")); cbn [Obj.get String.eqb Ascii.eqb Bool.eqb andb];
        (eexists; split; [reflexivity|]);
        rewrite string_length_append; cbn [String.length];
        (destruct (getenv rt "PATH") as [p|];
         [pose proof (substring_length 100 p); lia | cbn; lia]).
  - eexists. split; [reflexivity|]. intros name value Hin Hpre.
    apply (in_map (fun kv => (fst kv, JStr (snd kv))) _ (name, value)).
    apply filter_In. split; [assumption | exact Hpre].
Qed.

(** ** The registry *)

Section Registry.

Context {S : Type}.
Variable rt : Runtime.

Lemma Map_get_set_same (name : string) (t : Tool S) (m : ToolMap S) :
  Map_get name (Map_set name t m) = Some t.
Proof.
  induction m as [|[k t'] m IH]; cbn [Map_set Map_get].
  - now rewrite String.eqb_refl.
  - destruct (String.eqb name k) eqn:E; cbn [Map_get]; rewrite E; [reflexivity | exact IH].
Qed.

Lemma Map_get_set_other (name other : string) (t : Tool S) (m : ToolMap S) :
  other <> name -> Map_get other (Map_set name t m) = Map_get other m.
Proof.
  intros Hne. induction m as [|[k t'] m IH]; cbn [Map_set Map_get].
  - apply String.eqb_neq in Hne. now rewrite Hne.
  - destruct (String.eqb name k) eqn:E; cbn [Map_get].
    + apply String.eqb_eq in E. subst k.
      apply String.eqb_neq in Hne. now rewrite Hne.
    + now rewrite IH.
Qed.

Lemma Map_set_keys (name : string) (t : Tool S) (m : ToolMap S) :
  map fst (Map_set name t m) =
  if Map_has name m then map fst m else (map fst m ++ [name])%list.
Proof.
  unfold Map_has. induction m as [|[k t'] m IH]; cbn [Map_set Map_get map fst app].
  - reflexivity.
  - destruct (String.eqb name k) eqn:E; cbn [map fst].
    + reflexivity.
    + rewrite IH. now destruct (Map_get name m).
Qed.

Lemma Map_get_In (name : string) (m : ToolMap S) :
  Map_get name m = None <-> ~ In name (map fst m).
Proof.
  induction m as [|[k t] m IH]; cbn [Map_get map fst In]; [tauto|].
  destruct (String.eqb name k) eqn:E.
  - apply String.eqb_eq in E. subst. split; [discriminate | intros H; elim H; now left].
  - apply String.eqb_neq in E. rewrite IH. split.
    + intros H [H1|H1]; [now elim E | now elim H].
    + intros H H1. apply H. now right.
Qed.

(** X19: [registerTool] on a tool with an object schema stores the tool
    under its name.  Afterwards the name looks up that tool and every
    other name looks up what it did before; a name that was registered
    keeps its place in the order of the map (the newer tool silently
    replaces the older), a new name goes last. *)
Theorem register_tool_stores (tool : Tool S) (fields : object) (tools : ToolMap S)
  (w : World S) :
  tool_inputSchema tool = JObj fields ->
  exists tools',
    fst (registerTool rt tool tools w) = Return tools' /\
    Map_get (tool_name tool) tools' = Some tool /\
    (forall other, other <> tool_name tool -> Map_get other tools' = Map_get other tools) /\
    map fst tools' =
      (if Map_has (tool_name tool) tools then map fst tools
       else map fst tools ++ [tool_name tool])%list /\
    handlerState (snd (registerTool rt tool tools w)) = handlerState w.
Proof.
  intros Hs. unfold registerTool. rewrite Hs. cbn [fst snd].
  exists (Map_set (tool_name tool) tool tools). repeat split.
  - apply Map_get_set_same.
  - intros other Hne. now apply Map_get_set_other.
  - apply Map_set_keys.
  - unfold logInfo. now destruct (isLoggingEnabled rt).
Qed.

Lemma find_append (f : Tool S -> bool) (l1 l2 : list (Tool S)) :
  find f (l1 ++ l2) = match find f l1 with Some x => Some x | None => find f l2 end.
Proof.
  induction l1 as [|x l1 IH]; cbn [app find]; [reflexivity|].
  now destruct (f x).
Qed.

Lemma registerEach_lookup (l : list (Tool S)) : forall (m m' : ToolMap S) (w w' : World S),
  registerEach rt l m w = (Return m', w') ->
  (forall name,
     Map_get name m' =
     match lastNamed name l with
     | Some t => Some t
     | None => Map_get name m
     end) /\
  (NoDup (map fst m) -> NoDup (map fst m')) /\
  (Forall (fun kt => fst kt = tool_name (snd kt)) m ->
   Forall (fun kt => fst kt = tool_name (snd kt)) m').
Proof.
  unfold lastNamed.
  induction l as [|t l IH]; intros m m' w w' H; cbn [registerEach] in H.
  - inversion H; subst. repeat split; auto.
  - unfold registerTool in H.
    destruct (tool_inputSchema t) eqn:Es; try discriminate H.
    destruct (IH _ _ _ _ H) as [Hget [Hnd Hkeys]]. repeat split.
    + intros name. rewrite Hget. cbn [rev].
      rewrite find_append.
      destruct (find _ (rev l)) as [t'|]; [reflexivity|].
      cbn [find]. destruct (String.eqb name (tool_name t)) eqn:E.
      * apply String.eqb_eq in E. subst. apply Map_get_set_same.
      * apply String.eqb_neq in E. now apply Map_get_set_other.
    + intros Hm. apply Hnd. rewrite Map_set_keys. unfold Map_has.
      destruct (Map_get (tool_name t) m) eqn:G; [assumption|].
      apply Map_get_In in G.
      apply NoDup_app; [assumption | repeat constructor; intros [] | ].
      intros x Hx [<-|[]]. contradiction.
    + intros Hm. apply Hkeys. clear - Hm.
      induction m as [|[k t'] m IHm]; cbn [Map_set].
      * repeat constructor.
      * inversion Hm; subst. destruct (String.eqb (tool_name t) k) eqn:E.
        -- apply String.eqb_eq in E. constructor; [cbn; now subst | assumption].
        -- constructor; [assumption | now apply IHm].
Qed.

(** X20: what a successful [registerAllTools] leaves in the map.  A name
    looks up the last tool of the list with that name, and nothing when no
    tool of the list has it; no name occurs twice in the map; and every
    tool sits under its own name. *)
Theorem register_all_last_wins (allTools : list (Tool S)) (tools : ToolMap S)
  (w w' : World S) :
  registerAllTools rt allTools w = (Return tools, w') ->
  (forall name, Map_get name tools = lastNamed name allTools) /\
  NoDup (map fst tools) /\
  Forall (fun kt => fst kt = tool_name (snd kt)) tools.
Proof.
  unfold registerAllTools. intros H.
  destruct (checkTools allTools) as [registered|] eqn:Ec; [|discriminate H].
  assert (registered = allTools) as ->.
  { unfold checkTools in Ec. revert Ec. generalize 0%nat.
    generalize allTools at 2. intros all.
    induction all as [|t all IHa]; intros n Ec.
    - now inversion Ec.
    - destruct (_ || _); [discriminate Ec | now apply IHa in Ec]. }
  destruct (registerEach rt allTools [] w) as [[m|] w1] eqn:Er; [|discriminate H].
  inversion H; subst.
  destruct (registerEach_lookup allTools [] tools w w1 Er) as [Hget [Hnd Hkeys]].
  repeat split.
  - intros name. rewrite Hget. now destruct (lastNamed name allTools).
  - apply Hnd. constructor.
  - apply Hkeys. constructor.
Qed.

End Registry.

Lemma register_tool_stores_witness :
  exists tools',
    fst (registerTool Sample.rt (systemInfoTool Sample.rt) (serverTools Sample.rt)
           (mkWorld tt [])) = Return tools' /\
    Map_get "system_info" tools' = Some (systemInfoTool Sample.rt) /\
    map fst tools' = ["example_tool"; "file_processor"; "system_info"].
Proof.
  destruct (register_tool_stores Sample.rt (systemInfoTool Sample.rt) _
              (serverTools Sample.rt) (mkWorld tt []) eq_refl)
    as [tools' [H1 [H2 [_ [H4 _]]]]].
  exists tools'. repeat split; assumption.
Defined.

Lemma register_all_last_wins_witness :
  (forall name,
     Map_get name (serverTools (S:=unit) Sample.rt) =
     lastNamed name [exampleTool Sample.rt; fileProcessorTool Sample.rt;
                     systemInfoTool Sample.rt]) /\
  NoDup (map fst (serverTools (S:=unit) Sample.rt)) /\
  Forall (fun kt => fst kt = tool_name (snd kt)) (serverTools (S:=unit) Sample.rt).
Proof.
  apply (register_all_last_wins Sample.rt
           [exampleTool Sample.rt; fileProcessorTool Sample.rt; systemInfoTool Sample.rt]
           (serverTools Sample.rt) (mkWorld tt []) (mkWorld tt [])).
  reflexivity.
Defined.

(** X21: [registerAllTools] stops at the first tool of the list without a
    name or without a description.  Nothing is registered: the call
    throws [Tool at index i is missing required properties ...] with the
    position [i] of that tool, and logs that error. *)
Theorem register_all_rejects_nameless {S : Type} (rt : Runtime)
  (good rest : list (Tool S)) (bad : Tool S) (w : World S) :
  Forall (fun tool => tool_name tool <> "" /\ tool_description tool <> "") good ->
  tool_name bad = "" \/ tool_description bad = "" ->
  let error :=
    Error_ ("Tool at index " ++ JsNumber.digits (Z.of_nat (List.length good)) ++
            " is missing required properties (name, description, execute)") in
  registerAllTools rt (good ++ bad :: rest) w =
  (Throw error, logError "Failed to register tools:" error w).
Proof.
  intros Hgood Hbad error. unfold registerAllTools.
  assert (Hc : checkTools (good ++ bad :: rest) = Throw error).
  { unfold checkTools, error.
    replace (List.length good) with (0 + List.length good)%nat by reflexivity.
    generalize 0%nat. generalize (good ++ bad :: rest)%list at 1. intros all.
    induction Hgood as [|t good [Hn Hd] _ IH]; intros n; cbn [app].
    - assert (E : negb (JsString.truthy (tool_name bad)) ||
                  negb (JsString.truthy (tool_description bad)) = true).
      { unfold JsString.truthy. destruct Hbad as [-> | ->]; cbn;
          [reflexivity | apply orb_true_r]. }
      rewrite E. cbn [List.length]. now rewrite Nat.add_0_r.
    - apply String.eqb_neq in Hn. apply String.eqb_neq in Hd.
      unfold JsString.truthy at 1 2. rewrite Hn, Hd. cbn [negb orb].
      rewrite IH. cbn [List.length]. now rewrite Nat.add_succ_r. }
  now rewrite Hc.
Qed.

Lemma register_all_rejects_nameless_witness :
  registerAllTools (S:=unit) Sample.rt
    ([exampleTool Sample.rt] ++
     mkTool "" "no name" (JObj []) (fun _ s => (Return JNull, s)) ::
     [systemInfoTool Sample.rt]) (mkWorld tt []) =
  (Throw (Error_ ("Tool at index " ++ JsNumber.digits (Z.of_nat 1) ++
                  " is missing required properties (name, description, execute)")),
   logError "Failed to register tools:"
     (Error_ ("Tool at index " ++ JsNumber.digits (Z.of_nat 1) ++
              " is missing required properties (name, description, execute)"))
     (mkWorld tt [])).
Proof.
  apply (register_all_rejects_nameless Sample.rt [exampleTool Sample.rt]
           [systemInfoTool Sample.rt]
           (mkTool "" "no name" (JObj []) (fun _ s => (Return JNull, s)))
           (mkWorld tt [])).
  - repeat constructor; discriminate.
  - now left.
Defined.

(** X22: the checks on the shape of a tool differ.  [validateTool]
    accepts every tool whose [inputSchema] is an object, [null] or an
    array ([typeof] calls all three [object]); [registerTool] stores the
    first and throws on the other two.  A missing property is reported by
    [validateTool] before any type is looked at, [name] first. *)
Theorem validate_tool_and_register_tool {S : Type} (rt : Runtime) (tool : Tool S)
  (tools : ToolMap S) (w : World S) :
  (forall fields,
     tool_inputSchema tool = JObj fields ->
     validateTool (toolObject tool) = Return tt /\
     exists tools', fst (registerTool rt tool tools w) = Return tools') /\
  (tool_inputSchema tool = JNull \/ (exists items, tool_inputSchema tool = JArr items) ->
   validateTool (toolObject tool) = Return tt /\
   exists error, fst (registerTool rt tool tools w) = Throw error) /\
  (forall object_,
     propOf "name" object_ = None ->
     validateTool object_ = Throw (Error_ "Tool is missing required field: name")).
Proof.
  repeat split.
  - unfold validateTool, toolObject. cbn. now rewrite H.
  - unfold registerTool. rewrite H. eexists. reflexivity.
  - unfold validateTool, toolObject. cbn.
    destruct H as [-> | [items ->]]; reflexivity.
  - unfold registerTool. destruct H as [-> | [items ->]]; eexists; reflexivity.
  - intros object_ H. unfold validateTool. cbn [find]. now rewrite H.
Qed.

Lemma validate_tool_and_register_tool_witness :
  (validateTool (toolObject (systemInfoTool (S:=unit) Sample.rt)) = Return tt /\
   exists tools',
     fst (registerTool Sample.rt (systemInfoTool Sample.rt) [] (mkWorld tt []))
     = Return tools') /\
  (validateTool (toolObject (mkTool (S:=unit) "t" "d" JNull (fun _ s => (Return JNull, s))))
   = Return tt /\
   exists error,
     fst (registerTool Sample.rt (mkTool "t" "d" JNull (fun _ s => (Return JNull, s)))
            [] (mkWorld tt [])) = Throw error) /\
  validateTool [("description", PValue (JStr "d"))] =
  Throw (Error_ "Tool is missing required field: name").
Proof.
  destruct (validate_tool_and_register_tool Sample.rt (systemInfoTool (S:=unit) Sample.rt)
              [] (mkWorld tt [])) as [H1 [_ H3]].
  destruct (validate_tool_and_register_tool Sample.rt
              (mkTool (S:=unit) "t" "d" JNull (fun _ s => (Return JNull, s)))
              [] (mkWorld tt [])) as [_ [H2 _]].
  split; [eapply H1; reflexivity|]. split; [apply H2; now left|].
  apply H3. reflexivity.
Defined.

(** ** Calls on the running server *)

Lemma server_call (rt : Runtime) {S : Type} (name : string) (tool : Tool S)
  (args : json) (w : World S) (execute : json -> completion json) :
  Map_get name (serverTools rt) = Some tool ->
  tool_execute tool = (fun a s => (execute a, s)) ->
  callTool rt (serverTools rt) name args w =
  match execute (orEmpty args) with
  | Return result => (Fulfilled (textContent rt result), w)
  | Throw error =>
      (Rejected (McpError InternalError ("Tool execution failed: " ++ err_message error)),
       logError ("Tool execution failed for " ++ dquote ++ name ++ dquote ++ ":") error w)
  end.
Proof.
  intros Hget Hex. rewrite (callTool_registered rt _ name tool args w Hget), Hex.
  destruct w as [s log]. cbn [handlerState stderr].
  destruct (execute (orEmpty args)); reflexivity.
Qed.

(** X23: on the running server a call is rejected only for arguments that
    do not pass the tool's schema.  For each of the three tools, the call
    is fulfilled exactly when the arguments (an empty object when none are
    given) pass the schema; every other failure of a tool travels inside a
    fulfilled response.  A fulfilled call leaves the handlers' state and
    the error stream as they were. *)
Theorem server_rejects_only_invalid_arguments {S : Type} (rt : Runtime) (args : json)
  (w : World S) :
  let fulfilled (name : string) :=
    exists response,
      callTool rt (serverTools rt) name args w = (Fulfilled response, w) in
  let rejected (name : string) :=
    exists message w',
      callTool rt (serverTools rt) name args w =
      (Rejected (McpError InternalError message), w') /\
      handlerState w' = handlerState w in
  ((exists a, FileProcessor.inputSchema (orEmpty args) = Zod.Valid a) /\
   fulfilled "file_processor" \/
   (exists issues, FileProcessor.inputSchema (orEmpty args) = Zod.Invalid issues) /\
   rejected "file_processor") /\
  ((exists a, ExampleTool.inputSchema (orEmpty args) = Zod.Valid a) /\
   fulfilled "example_tool" \/
   (exists issues, ExampleTool.inputSchema (orEmpty args) = Zod.Invalid issues) /\
   rejected "example_tool") /\
  ((exists a, SystemInfo.inputSchema (orEmpty args) = Zod.Valid a) /\
   fulfilled "system_info" \/
   (exists issues, SystemInfo.inputSchema (orEmpty args) = Zod.Invalid issues) /\
   rejected "system_info").
Proof.
  intros fulfilled rejected. unfold fulfilled, rejected. repeat apply conj.
  - rewrite (server_call rt "file_processor" (fileProcessorTool rt) args w
               (FileProcessor.execute rt) eq_refl eq_refl).
    destruct (FileProcessor.inputSchema (orEmpty args)) as [a|issues] eqn:Hv.
    + left. split; [now exists a|].
      rewrite (file_execute_valid rt _ a Hv).
      destruct (FileProcessor.perform rt a); eexists; reflexivity.
    + right. split; [now exists issues|].
      unfold FileProcessor.execute. rewrite Hv.
      do 2 eexists; split; reflexivity.
  - rewrite (server_call rt "example_tool" (exampleTool rt) args w
               (ExampleTool.execute rt) eq_refl eq_refl).
    destruct (ExampleTool.inputSchema (orEmpty args)) as [a|issues] eqn:Hv.
    + left. split; [now exists a|].
      rewrite (example_execute_valid rt _ a Hv).
      destruct (ExampleTool.perform rt a); eexists; reflexivity.
    + right. split; [now exists issues|].
      unfold ExampleTool.execute. rewrite Hv.
      do 2 eexists; split; reflexivity.
  - rewrite (server_call rt "system_info" (systemInfoTool rt) args w
               (SystemInfo.execute rt) eq_refl eq_refl).
    destruct (SystemInfo.inputSchema (orEmpty args)) as [a|issues] eqn:Hv.
    + left. split; [now exists a|].
      rewrite (system_execute_valid rt _ a Hv).
      destruct (SystemInfo.perform rt a); eexists; reflexivity.
    + unfold SystemInfo.execute. rewrite Hv.
      right. split; [now exists issues | do 2 eexists; split; reflexivity].
Qed.

(** ** Arguments and their schema *)

(** X24: the file tool's schema looks at its six fields and at nothing
    else.  Two argument objects that agree on [operation], [path],
    [pattern], [recursive], [max_size] and [encoding] are parsed alike,
    whatever else they hold and in whatever order, and so are executed
    alike. *)
Theorem schema_reads_declared_fields_only (rt : Runtime) (o o' : object) :
  (forall k, In k ["operation"; "path"; "pattern"; "recursive"; "max_size"; "encoding"] ->
             Obj.get k o = Obj.get k o') ->
  FileProcessor.inputSchema (JObj o) = FileProcessor.inputSchema (JObj o') /\
  FileProcessor.execute rt (JObj o) = FileProcessor.execute rt (JObj o').
Proof.
  intros H.
  assert (E : FileProcessor.inputSchema (JObj o) = FileProcessor.inputSchema (JObj o')).
  { unfold FileProcessor.inputSchema, Zod.prop.
    rewrite (H "operation"), (H "path"), (H "pattern"), (H "recursive"),
      (H "max_size"), (H "encoding") by (cbn [In]; tauto).
    reflexivity. }
  split; [exact E|]. unfold FileProcessor.execute. now rewrite E.
Qed.

Lemma schema_reads_declared_fields_only_witness :
  FileProcessor.inputSchema
    (JObj [("verbose", JBool true); ("path", JStr "/data"); ("operation", JStr "list")]) =
  FileProcessor.inputSchema
    (JObj [("operation", JStr "list"); ("path", JStr "/data")]) /\
  FileProcessor.execute Sample.rt
    (JObj [("verbose", JBool true); ("path", JStr "/data"); ("operation", JStr "list")]) =
  FileProcessor.execute Sample.rt
    (JObj [("operation", JStr "list"); ("path", JStr "/data")]).
Proof.
  apply (schema_reads_declared_fields_only Sample.rt).
  intros k Hk. cbn [In] in Hk.
  destruct Hk as [<-|[<-|[<-|[<-|[<-|[<-|[]]]]]]]; reflexivity.
Defined.

Lemma both_issue_left {A B} (x : Zod.parsed A) (y : Zod.parsed B) (i : ZodIssue)
  (issues : list ZodIssue) :
  x = Zod.Invalid issues -> In i issues ->
  exists all, Zod.both x y = Zod.Invalid all /\ In i all.
Proof.
  intros -> Hin. destruct y as [b|j]; cbn.
  - now exists issues.
  - exists (issues ++ j)%list. split; [reflexivity | apply in_or_app; now left].
Qed.

Lemma both_issue_right {A B} (x : Zod.parsed A) (y : Zod.parsed B) (i : ZodIssue)
  (issues : list ZodIssue) :
  y = Zod.Invalid issues -> In i issues ->
  exists all, Zod.both x y = Zod.Invalid all /\ In i all.
Proof.
  intros -> Hin. destruct x as [a|j]; cbn.
  - now exists issues.
  - exists (j ++ issues)%list. split; [reflexivity | apply in_or_app; now right].
Qed.

(** X25: a request to the file tool without [operation], or without
    [path], does not pass the schema, whatever its other fields are, and
    among the issues is one of code [invalid_type] with the message
    [Required] whose path is the missing field. *)
Theorem missing_field_is_named (o : object) :
  (Obj.get "operation" o = JUndefined ->
   exists issues,
     FileProcessor.inputSchema (JObj o) = Zod.Invalid issues /\
     In (mkIssue "invalid_type" ["operation"] "Required"
           [("expected", JStr "'read' | 'list' | 'search' | 'stats'");
            ("received", JStr "undefined")]) issues) /\
  (Obj.get "path" o = JUndefined ->
   exists issues,
     FileProcessor.inputSchema (JObj o) = Zod.Invalid issues /\
     In (mkIssue "invalid_type" ["path"] "Required"
           [("expected", JStr "string"); ("received", JStr "undefined")]) issues).
Proof.
  unfold FileProcessor.inputSchema. split; intros H.
  - match goal with |- context [Zod.both ?x ?y] =>
      destruct (both_issue_left x y
                  (mkIssue "invalid_type" ["operation"] "Required"
                     [("expected", JStr "'read' | 'list' | 'search' | 'stats'");
                      ("received", JStr "undefined")])
                  [mkIssue "invalid_type" ["operation"] "Required"
                     [("expected", JStr "'read' | 'list' | 'search' | 'stats'");
                      ("received", JStr "undefined")]])
        as [all [E Hin]]
    end.
    + unfold Zod.prop. now rewrite H.
    + now left.
    + rewrite E. now exists all.
  - match goal with |- context [Zod.both ?x (Zod.both ?y ?z)] =>
      destruct (both_issue_left y z
                  (mkIssue "invalid_type" ["path"] "Required"
                     [("expected", JStr "string"); ("received", JStr "undefined")])
                  [mkIssue "invalid_type" ["path"] "Required"
                     [("expected", JStr "string"); ("received", JStr "undefined")]])
        as [inner [E Hin]];
        [unfold Zod.prop; now rewrite H | now left |];
      destruct (both_issue_right x (Zod.both y z) _ inner E Hin) as [all [E' Hin']]
    end.
    rewrite E'. now exists all.
Qed.

Lemma missing_field_is_named_witness :
  exists issues,
    FileProcessor.inputSchema (JObj [("operation", JStr "read"); ("max_size", JStr "big")])
    = Zod.Invalid issues /\
    In (mkIssue "invalid_type" ["path"] "Required"
          [("expected", JStr "string"); ("received", JStr "undefined")]) issues.
Proof.
  destruct (missing_field_is_named
              [("operation", JStr "read"); ("max_size", JStr "big")]) as [_ H].
  apply H. reflexivity.
Defined.

(** ** Reading bytes *)

Lemma unhex_byte (b : ascii) :
  ascii_of_nat (16 * hexValue (JsNumber.hexDigit (nat_of_ascii b / 16)) +
                hexValue (JsNumber.hexDigit (nat_of_ascii b mod 16))) = b.
Proof. destruct b as [[] [] [] [] [] [] [] []]; vm_compute; reflexivity. Qed.

Lemma unhex_binaryContent (buffer : string) : unhex (binaryContent buffer) = buffer.
Proof.
  unfold binaryContent. induction buffer as [|b buffer IH]; [reflexivity|].
  cbn [list_ascii_of_string map].
  destruct buffer as [|b' buffer].
  - change (unhex (JsNumber.hexByte b) = String b "").
    unfold JsNumber.hexByte. cbn [unhex]. now rewrite unhex_byte.
  - cbn [list_ascii_of_string map] in *.
    change (JsString.join " " (JsNumber.hexByte b :: ?l))
      with (JsNumber.hexByte b ++ " " ++ JsString.join " " l).
    unfold JsNumber.hexByte at 1. cbn [append unhex].
    now rewrite unhex_byte, IH.
Qed.

(** X26: a [read] in [binary] encoding loses nothing.  For an allowed
    regular file within the size limit the content returned is the bytes
    in hexadecimal and [lines] is [null]; the bytes can be read back from
    the content, so two files with the same content have the same
    bytes. *)
Theorem binary_read_is_lossless (rt : Runtime) (args : json)
  (a : FileProcessor.Args) (stats : Stats) (buffer : string) :
  FileProcessor.inputSchema args = Zod.Valid a ->
  FileProcessor.operation a = "read" ->
  FileProcessor.encoding a = "binary" ->
  FileProcessor.isPathAllowed rt (FileProcessor.path a) = true ->
  fs_stat rt (FileProcessor.path a) = Return stats ->
  st_isFile stats = true ->
  (inject_Z (st_size stats) <= FileProcessor.max_size a)%Q ->
  fs_readFile rt (FileProcessor.path a) = Return buffer ->
  FileProcessor.execute rt args =
    Return (JObj [("success", JBool true);
                  ("timestamp", JStr (date_now_iso rt));
                  ("operation", JStr "read");
                  ("path", JStr (FileProcessor.path a));
                  ("size", num (st_size stats));
                  ("size_formatted", JStr (formatSize (inject_Z (st_size stats))));
                  ("encoding", JStr "binary");
                  ("content", JStr (binaryContent buffer));
                  ("lines", JNull);
                  ("modified", JStr (st_mtime stats))]) /\
  unhex (binaryContent buffer) = buffer /\
  (forall other, binaryContent other = binaryContent buffer -> other = buffer).
Proof.
  intros Hv Hop Henc Hg Hstat Hfile Hsize Hread. repeat split.
  - rewrite (file_execute_valid rt args a Hv).
    unfold FileProcessor.perform. rewrite Hop.
    cbn [String.eqb Ascii.eqb Bool.eqb andb].
    unfold FileProcessor.readFile. rewrite Hg, Hstat. cbn [negb bind].
    rewrite Hfile. cbn [negb].
    apply Qle_bool_iff in Hsize. rewrite Hsize. cbn [negb].
    rewrite Henc. cbn [String.eqb Ascii.eqb Bool.eqb andb].
    rewrite Hread. reflexivity.
  - apply unhex_binaryContent.
  - intros other H. rewrite <- (unhex_binaryContent other), H.
    apply unhex_binaryContent.
Qed.

Lemma binary_read_is_lossless_witness :
  FileProcessor.execute Sample.rt
    (JObj [("operation", JStr "read"); ("path", JStr "/data/sample.txt");
           ("encoding", JStr "binary")]) =
    Return (JObj [("success", JBool true);
                  ("timestamp", JStr (date_now_iso Sample.rt));
                  ("operation", JStr "read");
                  ("path", JStr "/data/sample.txt");
                  ("size", num 34);
                  ("size_formatted", JStr (formatSize (inject_Z 34)));
                  ("encoding", JStr "binary");
                  ("content", JStr (binaryContent Sample.sampleText));
                  ("lines", JNull);
                  ("modified", JStr (st_mtime (Sample.fileStats 34)))]) /\
  unhex (binaryContent Sample.sampleText) = Sample.sampleText.
Proof.
  destruct (binary_read_is_lossless Sample.rt
              (JObj [("operation", JStr "read"); ("path", JStr "/data/sample.txt");
                     ("encoding", JStr "binary")])
              (FileProcessor.mkArgs "read" "/data/sample.txt" None false
                 (inject_Z (1024 * 1024)) "binary")
              (Sample.fileStats 34) Sample.sampleText
              eq_refl eq_refl eq_refl eq_refl eq_refl eq_refl) as [H1 [H2 _]];
    [discriminate | reflexivity |].
  split; assumption.
Defined.

(** ** Counting words *)

Lemma splitWhitespace_nonempty (s : string) (f : bool) :
  ExampleTool.splitWhitespace s f <> [].
Proof.
  revert f. induction s as [|c s IH]; intros f; cbn [ExampleTool.splitWhitespace];
    [discriminate|].
  destruct (JsString.isWhiteSpace c).
  - destruct f; [apply IH | discriminate].
  - destruct (ExampleTool.splitWhitespace s false); discriminate.
Qed.

Lemma words_append (w : ascii) (b : string) :
  JsString.isWhiteSpace w = true ->
  let words (f : bool) (s : string) :=
    filter (fun word => (0 <? String.length word)%nat) (ExampleTool.splitWhitespace s f) in
  forall a,
    (forall f, words f (a ++ String w b) = (words f a ++ words true b)%list) /\
    hd "" (ExampleTool.splitWhitespace (a ++ String w b) false) =
      hd "" (ExampleTool.splitWhitespace a false) /\
    filter (fun word => (0 <? String.length word)%nat)
      (tl (ExampleTool.splitWhitespace (a ++ String w b) false)) =
    (filter (fun word => (0 <? String.length word)%nat)
       (tl (ExampleTool.splitWhitespace a false)) ++ words true b)%list.
Proof.
  intros Hw words. unfold words.
  induction a as [|c a [IH1 [IH2 IH3]]].
  - cbn [append ExampleTool.splitWhitespace]. rewrite Hw. repeat split.
    intros f. destruct f; reflexivity.
  - cbn [append ExampleTool.splitWhitespace].
    destruct (JsString.isWhiteSpace c) eqn:Ec.
    + repeat split.
      * intros f. destruct f; cbn [filter String.length Nat.ltb Nat.leb]; apply IH1.
      * cbn [tl]. apply IH1.
    + pose proof (splitWhitespace_nonempty (a ++ String w b) false) as N1.
      pose proof (splitWhitespace_nonempty a false) as N2.
      destruct (ExampleTool.splitWhitespace (a ++ String w b) false) as [|h1 t1];
        [contradiction|].
      destruct (ExampleTool.splitWhitespace a false) as [|h2 t2]; [contradiction|].
      cbn [hd tl] in *. subst h1. repeat split.
      * intros _.
        assert (E : forall x l,
                  filter (fun word => (0 <? String.length word)%nat) (String c x :: l) =
                  String c x :: filter (fun word => (0 <? String.length word)%nat) l)
          by reflexivity.
        rewrite !E, IH3. reflexivity.
      * exact IH3.
Qed.

Lemma splitWhitespace_flag (s : string) :
  filter (fun word => (0 <? String.length word)%nat) (ExampleTool.splitWhitespace s true) =
  filter (fun word => (0 <? String.length word)%nat) (ExampleTool.splitWhitespace s false).
Proof.
  destruct s as [|c s]; [reflexivity|]. cbn [ExampleTool.splitWhitespace].
  destruct (JsString.isWhiteSpace c); reflexivity.
Qed.

Lemma splitWhitespace_one_word (m : string) :
  existsb JsString.isWhiteSpace (list_ascii_of_string m) = false ->
  ExampleTool.splitWhitespace m false = [m].
Proof.
  induction m as [|c m IH]; [reflexivity|].
  cbn [list_ascii_of_string existsb ExampleTool.splitWhitespace].
  intros H. apply orb_false_iff in H as [Hc Hm]. rewrite Hc, (IH Hm). reflexivity.
Qed.

(** X27: the [word_count] detail of [echo] counts the stretches of text
    between white space.  A non-empty message without white space is one
    word, and the words of two texts joined by a white space character are
    the words of the one and the words of the other. *)
Theorem word_count_adds_up (a b : string) (w : ascii) :
  JsString.isWhiteSpace w = true ->
  wordCount (a ++ String w b) = (wordCount a + wordCount b)%nat /\
  (a <> "" -> existsb JsString.isWhiteSpace (list_ascii_of_string a) = false ->
   wordCount a = 1%nat).
Proof.
  intros Hw. unfold wordCount. split.
  - destruct (words_append w b Hw a) as [H _].
    rewrite (H false), length_app, splitWhitespace_flag. reflexivity.
  - intros Hne Hnw. rewrite (splitWhitespace_one_word a Hnw).
    destruct a; [contradiction | reflexivity].
Qed.

Lemma word_count_adds_up_witness :
  wordCount ("Hello" ++ String " "%char "World") = (wordCount "Hello" + wordCount "World")%nat /\
  wordCount "Hello" = 1%nat.
Proof.
  destruct (word_count_adds_up "Hello" "World" " "%char eq_refl) as [H1 H2].
  split; [exact H1 | apply H2; [discriminate | reflexivity]].
Defined.

(** ** Uptime *)

Lemma Qfloor_div_pos (q : Q) (p : positive) :
  Qfloor (q / (Zpos p # 1))%Q = (Qfloor q / Zpos p)%Z.
Proof.
  destruct q as [a b]. unfold Qdiv, Qinv, Qmult, Qfloor. cbn [Qnum Qden].
  rewrite Z.mul_1_r, Pos2Z.inj_mul, Z.div_div; [reflexivity | lia | lia].
Qed.

Lemma Qfloor_minus_Z (q : Q) (k : Z) :
  Qfloor (q - inject_Z k)%Q = (Qfloor q - k)%Z.
Proof.
  destruct q as [a b]. unfold Qminus, Qplus, Qopp, inject_Z, Qfloor. cbn [Qnum Qden].
  rewrite Z.mul_1_r, Pos.mul_1_r.
  replace (a + - k * Zpos b)%Z with (a + (- k) * Zpos b)%Z by ring.
  rewrite Z.div_add by lia. ring.
Qed.

Lemma Qfloor_fmod (q : Q) (c : positive) :
  Qfloor (SystemInfo.fmod q (Zpos c)) = (Qfloor q mod Zpos c)%Z.
Proof.
  unfold SystemInfo.fmod. rewrite Qfloor_minus_Z.
  change (inject_Z (Zpos c)) with (Zpos c # 1)%Q. rewrite Qfloor_div_pos.
  rewrite Z.mod_eq by lia. reflexivity.
Qed.

(** X28: [formatUptime] works on whole seconds.  For a duration that is
    not negative, with [n] its whole seconds, the parts shown are the
    days [n / 86400], the hours [(n mod 86400) / 3600], the minutes
    [(n mod 3600) / 60] and the seconds [n mod 60], each with its letter,
    those that are zero left out; a duration under one second is shown as
    [0s]. *)
Theorem uptime_in_whole_seconds (seconds : Q) :
  (0 <= seconds)%Q ->
  let n := Qfloor seconds in
  let part (k : Z) (suffix : string) : list string :=
    if (0 <? k)%Z then [JsNumber.digits k ++ suffix] else [] in
  let joined :=
    JsString.join " "
      (part (n / 86400)%Z "d" ++ part ((n mod 86400) / 3600)%Z "h" ++
       part ((n mod 3600) / 60)%Z "m" ++ part (n mod 60)%Z "s")%list in
  SystemInfo.formatUptime seconds = (if JsString.truthy joined then joined else "0s") /\
  SystemInfo.formatUptime seconds = SystemInfo.formatUptime (inject_Z n) /\
  ((seconds < 1)%Q -> SystemInfo.formatUptime seconds = "0s").
Proof.
  intros Hpos n part joined.
  assert (E : forall q, Qfloor q = n ->
            SystemInfo.formatUptime q = (if JsString.truthy joined then joined else "0s")).
  { intros q Hq. unfold SystemInfo.formatUptime.
    change 86400%Q with (86400 # 1)%Q. change 3600%Q with (3600 # 1)%Q.
    change 60%Q with (60 # 1)%Q.
    rewrite !Qfloor_div_pos, !Qfloor_fmod, Hq. reflexivity. }
  split; [now apply E|]. split.
  - rewrite (E seconds eq_refl). symmetry. apply E. apply Qfloor_Z.
  - intros Hlt. rewrite (E seconds eq_refl).
    assert (Hn : n = 0%Z).
    { unfold n.
      assert (H0 : (0 <= Qfloor seconds)%Z).
      { change 0%Z with (Qfloor 0). now apply Qfloor_resp_le. }
      assert (H1 : (Qfloor seconds < 1)%Z).
      { apply Z.lt_nge. intros C.
        apply (Qlt_not_le _ _ Hlt).
        apply Qle_trans with (inject_Z (Qfloor seconds)); [|apply Qfloor_le].
        change 1%Q with (inject_Z 1). now rewrite <- Zle_Qle. }
      lia. }
    unfold joined. rewrite Hn. reflexivity.
Qed.

Lemma uptime_in_whole_seconds_witness :
  SystemInfo.formatUptime (172923 # 2)%Q = SystemInfo.formatUptime (inject_Z 86461) /\
  SystemInfo.formatUptime (1 # 2)%Q = "0s".
Proof.
  destruct (uptime_in_whole_seconds (172923 # 2)%Q) as [_ [H _]]; [discriminate|].
  destruct (uptime_in_whole_seconds (1 # 2)%Q) as [_ [_ H']]; [discriminate|].
  split; [exact H | apply H'; reflexivity].
Defined.

(** ** Listing, dispatch and the log *)

Section Dispatch.

Context {S : Type}.
Variable rt : Runtime.

Lemma checkTools_returns_input (allTools registered : list (Tool S)) :
  checkTools allTools = Return registered -> registered = allTools.
Proof.
  unfold checkTools. generalize 0%nat. generalize allTools at 2. intros all.
  induction all as [|t all IH]; intros n H.
  - now inversion H.
  - destruct (_ || _); [discriminate H | now apply IH in H].
Qed.

Lemma listed_names (tools : ToolMap S) :
  Forall (fun kt => fst kt = tool_name (snd kt)) tools ->
  exists items,
    field "tools" (listTools tools) = JArr items /\
    map (field "name") items = map JStr (map fst tools).
Proof.
  intros Hkeys. eexists. split; [reflexivity|].
  rewrite !map_map. apply map_ext_in. intros [k t] Hin.
  rewrite Forall_forall in Hkeys. specialize (Hkeys _ Hin).
  cbn in *. now subst.
Qed.

(** X29: the listing and the dispatcher agree.  After a successful
    [registerAllTools] the names shown by the list handler are the keys of
    the tool map, in the order of registration, and a call is answered
    [MethodNotFound] exactly for the names that are not listed. *)
Theorem listed_tools_are_callable (allTools : list (Tool S)) (tools : ToolMap S)
  (w w' : World S) :
  registerAllTools rt allTools w = (Return tools, w') ->
  exists items,
    field "tools" (listTools tools) = JArr items /\
    map (field "name") items = map JStr (map fst tools) /\
    forall name args w0,
      In (JStr name) (map (field "name") items) <->
      fst (callTool rt tools name args w0) <>
      Rejected (McpError MethodNotFound ("Tool " ++ dquote ++ name ++ dquote ++ " not found")).
Proof.
  unfold registerAllTools. intros H.
  destruct (checkTools allTools) as [registered|] eqn:Ec; [|discriminate H].
  apply checkTools_returns_input in Ec. subst registered.
  destruct (registerEach rt allTools [] w) as [[m|] w1] eqn:Er; [|discriminate H].
  inversion H; subst. clear H.
  destruct (registerEach_lookup rt allTools [] tools w w1 Er) as [_ [_ Hkeys]].
  destruct (listed_names tools (Hkeys (Forall_nil _))) as [items [Hitems Hnames]].
  exists items. split; [exact Hitems|]. split; [exact Hnames|].
  intros name args w0. rewrite Hnames.
  assert (Hin : In (JStr name) (map JStr (map fst tools)) <-> In name (map fst tools)).
  { split.
    - intros Hi. apply in_map_iff in Hi. destruct Hi as [k [E Hk]]. now inversion E; subst.
    - apply in_map. }
  rewrite Hin. destruct (Map_get name tools) as [tool|] eqn:G.
  - split.
    + intros _. rewrite (callTool_registered rt tools name tool args w0 G).
      destruct (tool_execute tool _ _) as [[result|error] s']; cbn [fst]; discriminate.
    + intros _. destruct (in_dec string_dec name (map fst tools)) as [Hi|Hn]; [exact Hi|].
      apply Map_get_In in Hn. congruence.
  - split.
    + intros Hi. apply Map_get_In in G. contradiction.
    + intros Hc. elim Hc. unfold callTool, Map_has. now rewrite G.
Qed.

Lemma registerEach_log (l : list (Tool S)) : forall (m : ToolMap S) (w : World S),
  handlerState (snd (registerEach rt l m w)) = handlerState w /\
  match registerEach rt l m w with
  | (Return _, w') =>
      stderr w' =
      (stderr w ++
       if isLoggingEnabled rt
       then map (fun tool => LogInfo ("Registered tool: " ++ tool_name tool)) l
       else [])%list
  | (Throw error, w') =>
      exists lines cause message,
        stderr w' = (stderr w ++ lines ++ [LogError message cause])%list
  end.
Proof.
  induction l as [|t l IH]; intros m w; cbn [registerEach].
  - cbn [snd]. split; [reflexivity|].
    destruct (isLoggingEnabled rt); cbn [map]; now rewrite app_nil_r.
  - unfold registerTool.
    destruct (tool_inputSchema t) eqn:Es;
      try (cbn [snd]; split; [reflexivity|];
           exists [], (Zod.ZodError (JSON_stringify rt)
                         [Zod.invalidType "object" (tool_inputSchema t) ["inputSchema"]]),
             ("Failed to register tool " ++ dquote ++ tool_name t ++ dquote ++ ":");
           rewrite Es; reflexivity).
    specialize (IH (Map_set (tool_name t) t m)
                   (logInfo rt ("Registered tool: " ++ tool_name t) w)).
    destruct IH as [Hs Hlog]. split.
    + rewrite Hs. unfold logInfo. now destruct (isLoggingEnabled rt).
    + destruct (registerEach rt l _ _) as [[m'|error] w'].
      * rewrite Hlog. unfold logInfo.
        destruct (isLoggingEnabled rt); cbn [stderr map]; [|reflexivity].
        now rewrite <- app_assoc.
      * destruct Hlog as [lines [cause [message Hlog]]].
        unfold logInfo in Hlog. destruct (isLoggingEnabled rt); cbn [stderr] in Hlog.
        -- exists (LogInfo ("Registered tool: " ++ tool_name t) :: lines), cause, message.
           rewrite Hlog. now rewrite <- app_assoc.
        -- now exists lines, cause, message.
Qed.

(** X30: what start-up writes to the error stream.  When
    [registerAllTools] succeeds it writes one line per tool and a line with
    the number of tools in the map if logging is enabled, and nothing if it
    is not; when it fails, the last line written is the error it throws,
    whether logging is enabled or not.  The handlers' state is never
    touched. *)
Theorem start_up_log (allTools : list (Tool S)) (w : World S) :
  handlerState (snd (registerAllTools rt allTools w)) = handlerState w /\
  match registerAllTools rt allTools w with
  | (Return tools, w') =>
      stderr w' =
      (stderr w ++
       if isLoggingEnabled rt
       then map (fun tool => LogInfo ("Registered tool: " ++ tool_name tool)) allTools ++
            [LogInfo ("Registered " ++ JsNumber.digits (Z.of_nat (List.length tools)) ++
                      " tools")]
       else [])%list
  | (Throw error, w') =>
      exists lines,
        stderr w' = (stderr w ++ lines ++ [LogError "Failed to register tools:" error])%list
  end.
Proof.
  unfold registerAllTools.
  destruct (checkTools allTools) as [registered|error] eqn:Ec.
  - apply checkTools_returns_input in Ec. subst registered.
    destruct (registerEach_log allTools [] w) as [Hs Hlog].
    destruct (registerEach rt allTools [] w) as [[m|error] w1]; cbn [snd] in *.
    + split.
      * unfold logInfo. now destruct (isLoggingEnabled rt).
      * unfold logInfo. destruct (isLoggingEnabled rt); cbn [stderr]; rewrite Hlog.
        -- now rewrite <- app_assoc.
        -- reflexivity.
    + split; [exact Hs|].
      destruct Hlog as [lines [cause [message Hlog]]].
      exists (lines ++ [LogError message cause])%list.
      cbn [logError stderr]. rewrite Hlog. now rewrite <- !app_assoc.
  - cbn [snd logError handlerState stderr]. split; [reflexivity|].
    exists []. reflexivity.
Qed.

End Dispatch.

Lemma listed_tools_are_callable_witness :
  exists items,
    field "tools" (listTools (serverTools (S:=unit) Sample.rt)) = JArr items /\
    map (field "name") items =
      [JStr "example_tool"; JStr "file_processor"; JStr "system_info"].
Proof.
  destruct (listed_tools_are_callable Sample.rt
              [exampleTool Sample.rt; fileProcessorTool Sample.rt; systemInfoTool Sample.rt]
              (serverTools Sample.rt) (mkWorld tt []) (mkWorld tt []) eq_refl)
    as [items [H1 [H2 _]]].
  exists items. split; [exact H1 | exact H2].
Defined.
